(** * Agent Protocol: session spend limits, transfers and tool dispatch

    A shallow embedding of the session and transfer logic of the
    agent-protocol monorepo:

    - [packages/core]: [SessionValidator] (spend limits and merchant
      allow-lists), [transferSOL] / [transferETH], [generateSessionKeys],
      [restoreSolanaKeypair], [getEthAddress], [fetchSessionBalances],
      [JupiterService.getQuote];
    - [app/components/AIAgentModal.tsx]: [handleSend] and its tool-call
      dispatch, the loading, funding and revoking of the session;
    - [packages/ai] [useAgent]: [sendMessage] and its tool loop.

    JavaScript numbers are IEEE-754 binary64 values and are modelled by
    Rocq's primitive floats, so [+], [*] and [>] round and compare exactly
    as the TypeScript does. Methods that may throw return an [Outcome];
    code that mutates an object or talks to a library or to the network
    runs in the small effect monad [Eff]. *)

From Stdlib Require Import Floats Uint63 ZArith List Ascii String DecimalString Bool Lia.
From Stdlib.Strings Require Import Byte.
Import ListNotations.

Set Implicit Arguments.

(** ** JavaScript numbers *)

Module JS.

Definition number : Type := float.

(** [a > b] *)
Definition gt (a b : number) : bool := PrimFloat.ltb b a.
(** [a < b] *)
Definition lt (a b : number) : bool := PrimFloat.ltb a b.
(** [a <= b] *)
Definition le (a b : number) : bool := PrimFloat.leb a b.
(** [a === b] on numbers *)
Definition strict_eq (a b : number) : bool := PrimFloat.eqb a b.
(** [Number.isNaN] *)
Definition isNaN (a : number) : bool := negb (PrimFloat.eqb a a).
(** [Number.isInteger] *)
Definition isInteger (a : number) : bool :=
  match Prim2SF a with
  | S754_zero _ => true
  | S754_finite _ m e =>
      (0 <=? e)%Z || (Z.pos m mod 2 ^ (- e) =? 0)%Z
  | _ => false
  end.

(** [Array.prototype.includes] on an array of strings: SameValueZero on
    strings is equality of their code units. *)
Definition includes (xs : list string) (x : string) : bool :=
  existsb (String.eqb x) xs.

End JS.

Abbreviation number := JS.number.

Declare Scope js_scope.
Delimit Scope js_scope with js.
Infix ">" := JS.gt : js_scope.
Infix "<" := JS.lt : js_scope.
Infix "<=" := JS.le : js_scope.
Infix "===" := JS.strict_eq (at level 70, no associativity) : js_scope.
Infix "+" := PrimFloat.add : js_scope.
Infix "-" := PrimFloat.sub : js_scope.
Infix "*" := PrimFloat.mul : js_scope.
Infix "/" := PrimFloat.div : js_scope.

(** ** Errors, outcomes and effects *)

Inductive Chain : Type := SOL | ETH.

(** One constructor per [throw new Error(...)] site of the sources; the
    arguments are the values interpolated into the message template.
    [LibraryError] stands for whatever a library or the network throws. *)
Inductive Error : Type :=
| AddressNotAllowed (toAddress : string)
    (* `Security Blocked: Address ${toAddress} is not in the allowed list.` *)
| PerTxLimitExceeded (chain : Chain) (amount limit : number)
    (* `Security Blocked: Amount ${amount} SOL exceeds per-transaction limit of ${limit}.` *)
| SessionLimitReached (chain : Chain) (remaining : number)
    (* `Security Blocked: Session limit reached. Remaining: ${remaining.toFixed(4)} SOL.` *)
| InsufficientFunds (available required : number)
    (* `Insufficient funds. Available: ${available} SOL, Required: ${required} SOL` *)
| NoSessionKey (chain : Chain)
    (* "No SOL session key" / "No ETH session key" *)
| LibraryError (message : string).

Inductive Outcome (A : Type) : Type :=
| Returned (a : A)
| Thrown (e : Error).
Arguments Returned {A} a.
Arguments Thrown {A} e.

(** A computation over a mutable object of type [S] that logs the external
    calls it makes (events of type [C]) and either returns or throws.  As
    in JavaScript, a throw does not undo the mutations made before it. *)
Definition Eff (C S A : Type) : Type := S -> list C * Outcome A * S.

Module EffM.
Section Ops.
Context {C S : Type}.

Definition ret {A} (a : A) : Eff C S A := fun s => ([], Returned a, s).

Definition bind {A B} (m : Eff C S A) (k : A -> Eff C S B) : Eff C S B :=
  fun s =>
    match m s with
    | (t, Returned a, s') =>
        match k a s' with (t', r, s'') => (t ++ t', r, s'') end
    | (t, Thrown e, s') => (t, Thrown e, s')
    end.

Definition throw {A} (e : Error) : Eff C S A := fun s => ([], Thrown e, s).

(** [try { m } catch (e) { h e }] *)
Definition try_catch {A} (m : Eff C S A) (h : Error -> Eff C S A) : Eff C S A :=
  fun s =>
    match m s with
    | (t, Returned a, s') => (t, Returned a, s')
    | (t, Thrown e, s') =>
        match h e s' with (t', r, s'') => (t ++ t', r, s'') end
    end.

(** [try { m } finally { f }], for an [f] that does not throw *)
Definition try_finally {A} (m : Eff C S A) (f : Eff C S unit) : Eff C S A :=
  fun s =>
    match m s with
    | (t, r, s') =>
        match f s' with (t', _, s'') => (t ++ t', r, s'') end
    end.

Definition get : Eff C S S := fun s => ([], Returned s, s).
Definition modify (f : S -> S) : Eff C S unit := fun s => ([], Returned tt, f s).

(** An external call: logged, its result supplied by the environment. *)
Definition extern {A} (c : C) (r : Outcome A) : Eff C S A := fun s => ([c], r, s).

(** [if (b) { m }] *)
Definition when (b : bool) (m : Eff C S unit) : Eff C S unit :=
  if b then m else ret tt.

Definition trace {A} (r : list C * Outcome A * S) : list C := fst (fst r).
Definition outcome {A} (r : list C * Outcome A * S) : Outcome A := snd (fst r).
Definition final {A} (r : list C * Outcome A * S) : S := snd r.
End Ops.
End EffM.
Import EffM.

Declare Scope eff_scope.
Delimit Scope eff_scope with eff.
Notation "x <- m ;; k" := (bind m (fun x => k))
  (at level 61, m at next level, right associativity) : eff_scope.
Notation "m ;; k" := (bind m (fun _ => k))
  (at level 61, right associativity) : eff_scope.
Open Scope eff_scope.

(** ** packages/core: session security configuration *)

Record SessionConfig : Type := {
  maxSpendSOL : number;
  maxSpendETH : number;
  maxPerTxSOL : number;
  maxPerTxETH : number;
  allowedMerchantsSOL : option (list string);
  allowedMerchantsETH : option (list string)
}.

Definition DEFAULT_SESSION_CONFIG : SessionConfig := {|
  maxSpendSOL := 0x1.999999999999ap-4%float;   (* 0.1 *)
  maxSpendETH := 0x1.47ae147ae147bp-7%float;   (* 0.01 *)
  maxPerTxSOL := 0x1.999999999999ap-5%float;   (* 0.05 *)
  maxPerTxETH := 0x1.47ae147ae147bp-8%float;   (* 0.005 *)
  allowedMerchantsSOL := None;
  allowedMerchantsETH := None
|}.

Module SessionValidator.

(** The instance: the private fields of the class. *)
Record t : Type := {
  config : SessionConfig;
  spentSOL : number;
  spentETH : number
}.

Definition M : Type -> Type := Eff Empty_set t.

(** [constructor(private config: SessionConfig = DEFAULT_SESSION_CONFIG) { }] *)
Definition constructor (cfg : option SessionConfig) : Outcome t :=
  Returned {| config := match cfg with Some c => c | None => DEFAULT_SESSION_CONFIG end;
              spentSOL := 0%float;
              spentETH := 0%float |}.

(** [list && list.length > 0] followed by [!list.includes(toAddress)] *)
Definition blocked (merchants : option (list string)) (toAddress : string) : bool :=
  match merchants with
  | Some allowed =>
      (0 <? List.length allowed)%nat && negb (JS.includes allowed toAddress)
  | None => false
  end.

Definition validateSOL (toAddress : string) (amount : number) : M unit :=
  this <- get ;;
  (* 1. Check Merchant Allowlist (if configured) *)
  when (blocked (allowedMerchantsSOL (config this)) toAddress)
    (throw (AddressNotAllowed toAddress)) ;;
  (* 2. Check Per-Transaction Limit *)
  when (amount > maxPerTxSOL (config this))%js
    (throw (PerTxLimitExceeded SOL amount (maxPerTxSOL (config this)))) ;;
  (* 3. Check Total Session Limit *)
  when (spentSOL this + amount > maxSpendSOL (config this))%js
    (throw (SessionLimitReached SOL (maxSpendSOL (config this) - spentSOL this)%js)) ;;
  ret tt.

Definition validateETH (toAddress : string) (amount : number) : M unit :=
  this <- get ;;
  (* 1. Check Allowlist *)
  when (blocked (allowedMerchantsETH (config this)) toAddress)
    (throw (AddressNotAllowed toAddress)) ;;
  (* 2. Check Per-Transaction Limit *)
  when (amount > maxPerTxETH (config this))%js
    (throw (PerTxLimitExceeded ETH amount (maxPerTxETH (config this)))) ;;
  (* 3. Check Total Limit *)
  when (spentETH this + amount > maxSpendETH (config this))%js
    (throw (SessionLimitReached ETH (maxSpendETH (config this) - spentETH this)%js)) ;;
  ret tt.

Definition addSpentSOL (amount : number) : M unit :=
  modify (fun this => {| config := config this;
                         spentSOL := (spentSOL this + amount)%js;
                         spentETH := spentETH this |}).

Definition addSpentETH (amount : number) : M unit :=
  modify (fun this => {| config := config this;
                         spentSOL := spentSOL this;
                         spentETH := (spentETH this + amount)%js |}).

Record Usage : Type := {
  usage_spentSOL : number;
  usage_spentETH : number;
  remainingSOL : number;
  remainingETH : number
}.

Definition getUsage : M Usage :=
  this <- get ;;
  ret {| usage_spentSOL := spentSOL this;
         usage_spentETH := spentETH this;
         remainingSOL := (maxSpendSOL (config this) - spentSOL this)%js;
         remainingETH := (maxSpendETH (config this) - spentETH this)%js |}.

(** The public methods, as a caller can invoke them. *)
Inductive Op : Type :=
| ValidateSOL (toAddress : string) (amount : number)
| ValidateETH (toAddress : string) (amount : number)
| AddSpentSOL (amount : number)
| AddSpentETH (amount : number).

Definition perform (op : Op) : M unit :=
  match op with
  | ValidateSOL a x => validateSOL a x
  | ValidateETH a x => validateETH a x
  | AddSpentSOL x => addSpentSOL x
  | AddSpentETH x => addSpentETH x
  end.

(** A caller running the methods one after the other on one instance;
    a throwing [validate] is caught by the caller and the run goes on. *)
Fixpoint run (ops : list Op) (this : t) : t :=
  match ops with
  | [] => this
  | op :: rest => run rest (final (perform op this))
  end.

(** The same caller following the validate-then-record discipline: an
    amount is recorded only right after [validate] has accepted it, on
    the same chain and in the same state. *)
Inductive Request : Type :=
| SpendSOL (toAddress : string) (amount : number)
| SpendETH (toAddress : string) (amount : number).

Definition spend (r : Request) : M unit :=
  match r with
  | SpendSOL a x => validateSOL a x ;; addSpentSOL x
  | SpendETH a x => validateETH a x ;; addSpentETH x
  end.

Fixpoint run_guarded (rs : list Request) (this : t) : t :=
  match rs with
  | [] => this
  | r :: rest => run_guarded rest (final (spend r this))
  end.

(** The validator [new SessionValidator(cfg)] evaluates to. *)
Definition fresh (cfg : SessionConfig) : t :=
  {| config := cfg; spentSOL := 0%float; spentETH := 0%float |}.

(** Neither tracker of a validator configured with [cfg] compares greater
    than its session ceiling. *)
Definition within (cfg : SessionConfig) (this : t) : Prop :=
  config this = cfg
  /\ (spentSOL this > maxSpendSOL cfg)%js = false
  /\ (spentETH this > maxSpendETH cfg)%js = false.

End SessionValidator.

(** ** External collaborators

    [@solana/web3.js], [viem], the two RPC endpoints and the LLM endpoints
    are not part of the repository.  Their answers are supplied by a
    [World], as functions of the arguments of the call (within one run of
    the functions below no call is made twice); every call the code makes
    to them is logged as a [Call]. *)

Record PublicKey : Type := { pk_bytes : list byte }.

Record Keypair : Type := {
  publicKey : PublicKey;
  secretKey : list byte          (* Uint8Array *)
}.

(** The instruction built by [SystemProgram.transfer]: the amount is
    encoded by the library as an unsigned 64-bit integer. *)
Record Instruction : Type := {
  ix_fromPubkey : PublicKey;
  ix_toPubkey : PublicKey;
  ix_lamports : Z
}.

Record Account : Type := { address : string }.

Inductive Call : Type :=
| new_PublicKey_call (value : string)
| getBalance_call (pk : PublicKey)
| SystemProgram_transfer_call (fromPubkey toPubkey : PublicKey) (lamports : number)
| sendAndConfirmTransaction_call (transaction : list Instruction) (signers : list Keypair)
| privateKeyToAccount_call (privateKey : string)
| parseEther_call (ether : string)
| sendTransaction_call (account : Account) (to : string) (value : Z)
| fetchBalances_call
| generateContent_call (text : string)
| chat_call (contents : list string).

Class World : Type := {
  (* ECMAScript *)
  Number_toString : number -> string;
  Number_toFixed4 : number -> string;
  (* @solana/web3.js *)
  new_PublicKey_result : string -> Outcome PublicKey;
  toBase58 : PublicKey -> string;
  getBalance_result : PublicKey -> Outcome number;
  SystemProgram_transfer_result : PublicKey -> PublicKey -> number -> Outcome Instruction;
  sendAndConfirmTransaction_result : list Instruction -> list Keypair -> Outcome string;
  Keypair_generate : list byte -> Keypair;
  Keypair_fromSecretKey : list byte -> Outcome Keypair;
  (* viem *)
  generatePrivateKey : list byte -> string;
  privateKeyToAccount_result : string -> Outcome Account;
  parseEther_result : string -> Outcome Z;
  sendTransaction_result : Account -> string -> Z -> Outcome string
}.

Section Externals.
Context {W : World} {S : Type}.

Definition new_PublicKey (value : string) : Eff Call S PublicKey :=
  extern (new_PublicKey_call value) (new_PublicKey_result value).

Definition getBalance (pk : PublicKey) : Eff Call S number :=
  extern (getBalance_call pk) (getBalance_result pk).

Definition SystemProgram_transfer (fromPubkey toPubkey : PublicKey) (lamports : number)
  : Eff Call S Instruction :=
  extern (SystemProgram_transfer_call fromPubkey toPubkey lamports)
         (SystemProgram_transfer_result fromPubkey toPubkey lamports).

Definition sendAndConfirmTransaction (transaction : list Instruction) (signers : list Keypair)
  : Eff Call S string :=
  extern (sendAndConfirmTransaction_call transaction signers)
         (sendAndConfirmTransaction_result transaction signers).

Definition privateKeyToAccount (privateKey : string) : Eff Call S Account :=
  extern (privateKeyToAccount_call privateKey) (privateKeyToAccount_result privateKey).

Definition parseEther (ether : string) : Eff Call S Z :=
  extern (parseEther_call ether) (parseEther_result ether).

Definition sendTransaction (account : Account) (to : string) (value : Z) : Eff Call S string :=
  extern (sendTransaction_call account to value) (sendTransaction_result account to value).
End Externals.

Definition symbol (c : Chain) : string :=
  match c with SOL => "SOL" | ETH => "ETH" end.

(** [error.message] *)
Definition message {W : World} (e : Error) : string :=
  match e with
  | AddressNotAllowed a =>
      "Security Blocked: Address " ++ a ++ " is not in the allowed list."
  | PerTxLimitExceeded c amount limit =>
      "Security Blocked: Amount " ++ Number_toString amount ++ " " ++ symbol c
        ++ " exceeds per-transaction limit of " ++ Number_toString limit ++ "."
  | SessionLimitReached c remaining =>
      "Security Blocked: Session limit reached. Remaining: "
        ++ Number_toFixed4 remaining ++ " " ++ symbol c ++ "."
  | InsufficientFunds available required =>
      "Insufficient funds. Available: " ++ Number_toString available
        ++ " SOL, Required: " ++ Number_toString required ++ " SOL"
  | NoSessionKey c => "No " ++ symbol c ++ " session key"
  | LibraryError m => m
  end%string.

(** ** packages/core: transfers *)

Definition LAMPORTS_PER_SOL : number := 1000000000%float.

Module Core.
Section Transfers.
Context {W : World} {S : Type}.

(** [transferSOL(connection, sessionKey, toAddress, amount)]; the
    connection is the [World]. *)
Definition transferSOL (sessionKey : Keypair) (toAddress : string) (amount : number)
  : Eff Call S string :=
  try_catch
    (toPubkey <- new_PublicKey toAddress ;;
     let lamports := (amount * LAMPORTS_PER_SOL)%js in
     balance <- getBalance (publicKey sessionKey) ;;
     when (balance < lamports)%js
       (throw (InsufficientFunds (balance / LAMPORTS_PER_SOL)%js amount)) ;;
     ix <- SystemProgram_transfer (publicKey sessionKey) toPubkey lamports ;;
     signature <- sendAndConfirmTransaction [ix] [sessionKey] ;;
     ret signature)
    (fun error => throw error).

Definition transferETH (privateKeyHex : string) (toAddress : string) (amount : number)
  : Eff Call S string :=
  try_catch
    (account <- privateKeyToAccount privateKeyHex ;;
     value <- parseEther (Number_toString amount) ;;
     hash <- sendTransaction account toAddress value ;;
     ret hash)
    (fun error => throw error).

(** [createSolanaFundTransaction(fromPubkey, toPubkey, amountSol)] *)
Definition createSolanaFundTransaction (fromPubkey toPubkey : PublicKey) (amountSol : number)
  : Eff Call S (list Instruction) :=
  ix <- SystemProgram_transfer fromPubkey toPubkey (amountSol * LAMPORTS_PER_SOL)%js ;;
  ret [ix].
End Transfers.
End Core.

(** The conversion the specification describes, for comparison: the
    whole number of lamports that [amount] SOL is, computed exactly from
    the binary expansion of the number; [None] when [amount] times 10^9
    is not a whole number, or [amount] is not finite. *)
Definition whole_lamports (amount : number) : option Z :=
  match Prim2SF amount with
  | S754_zero _ => Some 0%Z
  | S754_finite s m e =>
      let n := (Z.pos m * 10 ^ 9)%Z in
      let signed := fun z : Z => if s then (- z)%Z else z in
      if (0 <=? e)%Z then Some (signed (n * 2 ^ e)%Z)
      else if (n mod 2 ^ (- e) =? 0)%Z then Some (signed (n / 2 ^ (- e))%Z)
      else None
  | _ => None
  end.

(** ** app/utils/functions.ts: the transfers the modal imports *)

Module Functions.
Section Transfers.
Context {W : World} {S : Type}.

Definition transferSOL (sessionKey : Keypair) (toAddress : string) (amount : number)
  : Eff Call S string :=
  try_catch
    (toPubkey <- new_PublicKey toAddress ;;
     ix <- SystemProgram_transfer (publicKey sessionKey) toPubkey
             (amount * LAMPORTS_PER_SOL)%js ;;
     signature <- sendAndConfirmTransaction [ix] [sessionKey] ;;
     ret signature)
    (fun error => throw error).

Definition transferETH (privateKeyHex : string) (toAddress : string) (amount : number)
  : Eff Call S string :=
  try_catch
    (account <- privateKeyToAccount privateKeyHex ;;
     value <- parseEther (Number_toString amount) ;;
     hash <- sendTransaction account toAddress value ;;
     ret hash)
    (fun error => throw error).
End Transfers.
End Functions.

(** ** app/components/AIAgentModal.tsx: [handleSend] *)

Module AIAgentModal.

Inductive Role : Type := user | agent.

Record Message : Type := { role : Role; content : string }.

(** [fc.args], destructured as [{ toAddress, amount }] *)
Record Args : Type := { toAddress : string; amount : number }.

Record FunctionCall : Type := { name : string; args : Args }.

(** [data.candidates?.[0]?.content?.parts?.[0]] *)
Record Part : Type := { functionCall : option FunctionCall; text : option string }.

(** The component state [handleSend] reads and writes. *)
Record State : Type := {
  sessionKey : option Keypair;
  ethSessionKey : option string;
  messages : list Message;
  input : string;
  isProcessing : bool
}.

(** [setMessages(prev => [...prev, m])] *)
Definition pushMessage {C} (m : Message) : Eff C State unit :=
  modify (fun st => {| sessionKey := sessionKey st;
                       ethSessionKey := ethSessionKey st;
                       messages := messages st ++ [m];
                       input := input st;
                       isProcessing := isProcessing st |}).

Definition setInput {C} (v : string) : Eff C State unit :=
  modify (fun st => {| sessionKey := sessionKey st;
                       ethSessionKey := ethSessionKey st;
                       messages := messages st;
                       input := v;
                       isProcessing := isProcessing st |}).

Definition setIsProcessing {C} (v : bool) : Eff C State unit :=
  modify (fun st => {| sessionKey := sessionKey st;
                       ethSessionKey := ethSessionKey st;
                       messages := messages st;
                       input := input st;
                       isProcessing := v |}).

(** [fetchBalances()], called without [await]: it refreshes the two
    displayed balances and touches neither the messages nor the keys. *)
Definition fetchBalances : Eff Call State unit :=
  extern fetchBalances_call (Returned tt).

Section HandleSend.
Context {W : World}.

(** The answer of the [generateContent] endpoint to the user's text:
    the first part of the first candidate, if any; the request may
    also fail.  An answer that names a transfer tool without [args]
    counts as a failure: destructuring [fc.args] throws before anything
    else is done, and the same [catch] receives it. *)
Variable generateContent_result : string -> Outcome (option Part).

(** The body of [if (candidate?.functionCall) { ... }]. *)
Definition dispatch (fc : FunctionCall) : Eff Call State unit :=
  (* SOL Transfer *)
  if (name fc =? "transferSOL")%string then
    let toAddress := toAddress (args fc) in
    let amount := amount (args fc) in
    pushMessage {| role := agent;
                   content := "Processing SOL transfer of " ++ Number_toString amount
                                ++ " to " ++ toAddress ++ "..." |} ;;
    try_catch
      (st <- get ;;
       match sessionKey st with
       | None => throw (NoSessionKey SOL)
       | Some sessionKey =>
           signature <- Functions.transferSOL sessionKey toAddress amount ;;
           pushMessage {| role := agent;
                          content := "SOL Transfer successful! Sig: " ++ signature |} ;;
           fetchBalances
       end)
      (fun e => pushMessage {| role := agent;
                               content := "SOL Transfer failed: " ++ message e |})
  (* ETH Transfer *)
  else if (name fc =? "transferETH")%string then
    let toAddress := toAddress (args fc) in
    let amount := amount (args fc) in
    pushMessage {| role := agent;
                   content := "Processing ETH transfer of " ++ Number_toString amount
                                ++ " to " ++ toAddress ++ "..." |} ;;
    try_catch
      (st <- get ;;
       (* [!ethSessionKey]: the state holds [null] or a generated key,
          never the empty string *)
       match ethSessionKey st with
       | None => throw (NoSessionKey ETH)
       | Some ethSessionKey =>
           hash <- Functions.transferETH ethSessionKey toAddress amount ;;
           pushMessage {| role := agent;
                          content := "ETH Transfer successful! Hash: " ++ hash |} ;;
           fetchBalances
       end)
      (fun e => pushMessage {| role := agent;
                               content := "ETH Transfer failed: " ++ message e |})
  else ret tt.

(** The third byte of a three-byte white space that starts with E2 80:
    U+2000 to U+200A, the line and paragraph separators U+2028 and
    U+2029, and U+202F. *)
Definition general_punctuation_space (c : ascii) : bool :=
  let n := nat_of_ascii c in
  ((128 <=? n) && (n <=? 138) || (n =? 168) || (n =? 169) || (n =? 175))%nat.

(** [!input.trim()]: nothing is left once [trim] has stripped the white
    space and the line terminators of ECMAScript, which are U+0009 to
    U+000D, U+0020, U+00A0, U+1680, U+2000 to U+200A, U+2028, U+2029,
    U+202F, U+205F, U+3000 and U+FEFF.  A string holds the UTF-8 text of
    the JavaScript string, as a string literal of this file does, so the
    code points beyond U+007F are recognised by their two or three
    bytes.  (A byte A0 where a code point should start is no UTF-8 text;
    it is read as U+00A0, which it is byte by byte.) *)
Fixpoint is_blank (s : string) : bool :=
  match s with
  | EmptyString => true
  | String c s1 =>
      match c with
      | " " | "009" | "010" | "011" | "012" | "013" | "160" => is_blank s1
      | "194" =>                                          (* C2 *)
          match s1 with
          | String "160" s2 => is_blank s2                (* U+00A0 *)
          | _ => false
          end
      | "225" =>                                          (* E1 *)
          match s1 with
          | String "154" (String "128" s3) => is_blank s3 (* U+1680 *)
          | _ => false
          end
      | "226" =>                                          (* E2 *)
          match s1 with
          | String "128" (String c3 s3) =>
              if general_punctuation_space c3 then is_blank s3 else false
          | String "129" (String "159" s3) => is_blank s3 (* U+205F *)
          | _ => false
          end
      | "227" =>                                          (* E3 *)
          match s1 with
          | String "128" (String "128" s3) => is_blank s3 (* U+3000 *)
          | _ => false
          end
      | "239" =>                                          (* EF *)
          match s1 with
          | String "187" (String "191" s3) => is_blank s3 (* U+FEFF *)
          | _ => false
          end
      | _ => false
      end
  end%char.

Definition handleSend : Eff Call State unit :=
  st <- get ;;
  if is_blank (input st) then ret tt else
  let userMsg := {| role := user; content := input st |} in
  pushMessage userMsg ;;
  setInput "" ;;
  setIsProcessing true ;;
  try_finally
    (try_catch
       (candidate <- extern (generateContent_call (content userMsg))
                            (generateContent_result (content userMsg)) ;;
        match candidate with
        | Some {| functionCall := Some fc |} => dispatch fc
        | _ =>
            let aiText :=
              match candidate with
              | Some {| text := Some t |} =>
                  if (t =? "")%string then "Sorry, I couldn't understand that." else t
              | _ => "Sorry, I couldn't understand that."
              end%string in
            pushMessage {| role := agent; content := aiText |}
        end)
       (fun error =>
          pushMessage {| role := agent;
                         content := "Error communicating with AI service." |}))
    (setIsProcessing false).
End HandleSend.

End AIAgentModal.

(** ** packages/ai: [useAgent] *)

Module UseAgent.

Inductive Role : Type := user | assistant | system.

Record Message : Type := { role : Role; content : string }.

Section Hook.
Context {W : World}.

(** Tool arguments and tool results are whatever the handlers take and
    return; [JSON_stringify] renders a result. *)
Variables ToolArgs ToolResult : Type.
Variable JSON_stringify : ToolResult -> string.

Record ToolCall : Type := { name : string; args : ToolArgs }.

Record ChatResponse : Type := {
  response_content : string;
  toolCalls : option (list ToolCall)
}.

Definition Handler : Type := ToolArgs -> Outcome ToolResult.

(** [UseAgentOptions.handlers]: a record from tool names to handlers. *)
Definition Handlers : Type := option (string -> option Handler).

Record State : Type := {
  messages : list Message;
  isLoading : bool;
  error : option Error
}.

(** [setMessages(f)] with an updater function *)
Definition setMessages {C} (f : list Message -> list Message) : Eff C State unit :=
  modify (fun st => {| messages := f (messages st);
                       isLoading := isLoading st;
                       error := error st |}).

Definition setIsLoading {C} (v : bool) : Eff C State unit :=
  modify (fun st => {| messages := messages st; isLoading := v; error := error st |}).

Definition setError {C} (v : option Error) : Eff C State unit :=
  modify (fun st => {| messages := messages st; isLoading := isLoading st; error := v |}).

Variable chat_result : list Message -> Outcome ChatResponse.
Variable handlers : Handlers.

(** [options.handlers?.[toolCall.name]] *)
Definition lookup_handler (toolName : string) : option Handler :=
  match handlers with
  | Some hs => hs toolName
  | None => None
  end.

Definition executing (toolName : string) : string :=
  ("Executing " ++ toolName ++ "...")%string.

(** [prev.filter(m => m.content !== `Executing ${toolCall.name}...`)] *)
Definition without_executing (toolName : string) (prev : list Message) : list Message :=
  filter (fun m => negb (content m =? executing toolName)%string) prev.

(** The body of [for (const toolCall of response.toolCalls)]. *)
Definition runToolCall (toolCall : ToolCall) : Eff Call State unit :=
  match lookup_handler (name toolCall) with
  | None =>
      setMessages (fun prev =>
        prev ++ [{| role := assistant;
                    content := "Error: No handler for tool " ++ name toolCall |}])
  | Some handler =>
      (* Display a temporary message that we are executing *)
      setMessages (fun prev =>
        prev ++ [{| role := assistant; content := executing (name toolCall) |}]) ;;
      try_catch
        (result <- (fun st => ([], handler (args toolCall), st)) ;;
         (* Show result *)
         setMessages (fun prev =>
           without_executing (name toolCall) prev
             ++ [{| role := assistant;
                    content := "Tool Result (" ++ name toolCall ++ "): "
                                 ++ JSON_stringify result |}]))
        (fun toolErr =>
           setMessages (fun prev =>
             without_executing (name toolCall) prev
               ++ [{| role := assistant;
                      content := "Tool Error: " ++ message toolErr |}]))
  end.

Fixpoint runToolCalls (calls : list ToolCall) : Eff Call State unit :=
  match calls with
  | [] => ret tt
  | toolCall :: rest => runToolCall toolCall ;; runToolCalls rest
  end.

Definition sendMessage (content : string) : Eff Call State (option ChatResponse) :=
  st <- get ;;
  setIsLoading true ;;
  setError None ;;
  let newMessages := messages st ++ [{| role := user; content := content |}] in
  setMessages (fun _ => newMessages) ;;
  try_finally
    (try_catch
       (response <- extern (chat_call (map UseAgent.content newMessages))
                           (chat_result newMessages) ;;
        setMessages (fun prev =>
          prev ++ [{| role := assistant; content := response_content response |}]) ;;
        (* Handle Tool Calls *)
        match toolCalls response with
        | Some ((_ :: _) as calls) => runToolCalls calls
        | _ => ret tt
        end ;;
        ret (Some response))
       (fun err => setError (Some err) ;; ret None))
    (setIsLoading false).
End Hook.

(** A message that is not the "Executing ..." notice of any tool. *)
Definition settled (m : Message) : Prop :=
  forall toolName, content m <> executing toolName.

End UseAgent.

(** ** packages/core: session keys *)

Module Bytes.

(** The integer part of a number, towards zero; 0 for NaN and the
    infinities (ECMAScript [ToIntegerOrInfinity], then the modulo of
    [ToUint8] sends the infinities to 0). *)
Definition trunc (x : number) : Z :=
  match Prim2SF x with
  | S754_finite s m e =>
      let a := if (0 <=? e)%Z then (Z.pos m * 2 ^ e)%Z else (Z.pos m / 2 ^ (- e))%Z in
      if s then (- a)%Z else a
  | _ => 0%Z
  end.

(** [ToUint8]: how a typed array of bytes stores a number. *)
Definition ToUint8 (x : number) : byte :=
  match Byte.of_N (Z.to_N (trunc x mod 256)) with
  | Some b => b
  | None => x00
  end.

(** Reading a byte of a typed array gives a number. *)
Definition to_number (b : byte) : number :=
  PrimFloat.of_uint63 (Uint63.of_Z (Z.of_N (Byte.to_N b))).

(** [Array.from(u8)] *)
Definition Array_from (u8 : list byte) : list number := map to_number u8.

(** [Uint8Array.from(array)] *)
Definition Uint8Array_from (array : list number) : list byte := map ToUint8 array.

End Bytes.

Record SessionKeys : Type := {
  solKeypair : Keypair;
  solAddress : string;
  solSecret : list number;
  ethKey : string;
  ethAddress : string
}.

Section Keys.
Context {W : World}.

(** [generateSessionKeys()]; the two arguments are the random bytes that
    [Keypair.generate()] and [generatePrivateKey()] draw. *)
Definition generateSessionKeys (solRandom ethRandom : list byte) : Outcome SessionKeys :=
  (* Solana *)
  let solKeypair := Keypair_generate solRandom in
  (* Ethereum *)
  let ethKey := generatePrivateKey ethRandom in
  match privateKeyToAccount_result ethKey with
  | Thrown e => Thrown e
  | Returned ethAccount =>
      Returned {| solKeypair := solKeypair;
                  solAddress := toBase58 (publicKey solKeypair);
                  solSecret := Bytes.Array_from (secretKey solKeypair);
                  ethKey := ethKey;
                  ethAddress := address ethAccount |}
  end.

Definition restoreSolanaKeypair (secretKey : list number) : Outcome Keypair :=
  Keypair_fromSecretKey (Bytes.Uint8Array_from secretKey).

Definition getEthAddress (privateKey : string) : Outcome string :=
  match privateKeyToAccount_result privateKey with
  | Thrown e => Thrown e
  | Returned account => Returned (address account)
  end.
End Keys.

(** What the key functions rely on from the two key libraries: a key pair
    made by [Keypair.generate] is accepted by [Keypair.fromSecretKey] and
    comes back with the same public key, and a private key made by
    [generatePrivateKey] is a valid one. *)
Class KeyLibraries (W : World) : Prop := {
  fromSecretKey_generate :
    forall r, exists kp,
      Keypair_fromSecretKey (secretKey (Keypair_generate r)) = Returned kp
      /\ publicKey kp = publicKey (Keypair_generate r);
  privateKeyToAccount_generate :
    forall r, exists account,
      privateKeyToAccount_result (generatePrivateKey r) = Returned account
}.

(** ** A simulated world

    A small deterministic stand-in for the libraries and the network, on
    which the functions above can be run: key pairs are laid out as
    [@solana/web3.js] lays them out (32 secret bytes followed by the 32
    public ones, checked again by [fromSecretKey]), amounts are turned
    into 64-bit integers the way [BigInt(lamports)] does it, and every
    network call succeeds. *)

Module Simulation.

Definition print_Z (z : Z) : string :=
  NilZero.string_of_int (Z.to_int z).

(** Exact for the integers; other numbers are not printed digit by digit. *)
Definition Number_toString (x : number) : string :=
  if JS.isInteger x then print_Z (Bytes.trunc x) else "(fraction)".

(** Stands for the curve: any function of the 32 secret bytes will do. *)
Definition derive (secret : list byte) : list byte := rev secret.

Definition pad32 (r : list byte) : list byte := firstn 32 (r ++ repeat x00 32).

Definition Keypair_generate (r : list byte) : Keypair :=
  let privateScalar := pad32 r in
  let pub := derive privateScalar in
  {| publicKey := {| pk_bytes := pub |}; secretKey := privateScalar ++ pub |}.

Definition bytes_eqb (a b : list byte) : bool :=
  if list_eq_dec Byte.byte_eq_dec a b then true else false.

Definition Keypair_fromSecretKey (sk : list byte) : Outcome Keypair :=
  if negb (List.length sk =? 64)%nat then Thrown (LibraryError "bad secret key size")
  else
    let pub := skipn 32 sk in
    if bytes_eqb pub (derive (firstn 32 sk))
    then Returned {| publicKey := {| pk_bytes := pub |}; secretKey := sk |}
    else Thrown (LibraryError "provided secretKey is invalid").

(** [BigInt(lamports)] refuses a number that is not an integer, and the
    instruction layout one that does not fit 64 unsigned bits. *)
Definition SystemProgram_transfer_result (fromPubkey toPubkey : PublicKey) (lamports : number)
  : Outcome Instruction :=
  if negb (JS.isInteger lamports)
  then Thrown (LibraryError "RangeError: the number cannot be converted to a BigInt")
  else if (0 <=? Bytes.trunc lamports)%Z && (Bytes.trunc lamports <? 2 ^ 64)%Z
  then Returned {| ix_fromPubkey := fromPubkey;
                   ix_toPubkey := toPubkey;
                   ix_lamports := Bytes.trunc lamports |}
  else Thrown (LibraryError "RangeError: the value is out of range of a 64-bit unsigned integer").

(** Any text but the empty one is taken for a key, and kept as it is;
    the real constructor wants the base58 text of 32 bytes. *)
Definition new_PublicKey_result (value : string) : Outcome PublicKey :=
  if (value =? "")%string then Thrown (LibraryError "Invalid public key input")
  else Returned {| pk_bytes := list_byte_of_string value |}.

Definition privateKeyToAccount_result (privateKey : string) : Outcome Account :=
  if String.prefix "0x" privateKey
  then Returned {| address := "0xAccountOf" ++ privateKey |}
  else Thrown (LibraryError "private key must be hex").

Definition parseEther_result (ether : string) : Outcome Z :=
  match NilEmpty.uint_of_string ether with
  | Some u => Returned (Z.of_uint u * 10 ^ 18)%Z
  | None => Thrown (LibraryError "invalid decimal number")
  end.

#[export] Instance world : World :=
  Build_World
    Simulation.Number_toString
    Simulation.Number_toString
    Simulation.new_PublicKey_result
    (fun pk => string_of_list_byte (pk_bytes pk))
    (fun _ => Returned 2000000000%float)
    Simulation.SystemProgram_transfer_result
    (fun _ _ => Returned "5igNaTuRe"%string)
    Simulation.Keypair_generate
    Simulation.Keypair_fromSecretKey
    (fun r => ("0x" ++ string_of_list_byte r)%string)
    Simulation.privateKeyToAccount_result
    Simulation.parseEther_result
    (fun _ _ _ => Returned "0xha5h"%string).

Definition sessionKey : Keypair := Keypair_generate [x01; x02; x03].

Definition modal (text : string) : AIAgentModal.State := {|
  AIAgentModal.sessionKey := Some sessionKey;
  AIAgentModal.ethSessionKey := Some "0x0123"%string;
  AIAgentModal.messages := [];
  AIAgentModal.input := text;
  AIAgentModal.isProcessing := false
|}.

End Simulation.

(** * More of the code *)

(** ** Sequences of validator calls *)

Module ValidatorOps.
Import SessionValidator.

(** The calls that leave the ETH tracker alone: all but [addSpentETH]. *)
Definition solana_only (op : Op) : Prop :=
  match op with
  | AddSpentETH _ => False
  | _ => True
  end.

(** The calls that leave the SOL tracker alone: all but [addSpentSOL]. *)
Definition ethereum_only (op : Op) : Prop :=
  match op with
  | AddSpentSOL _ => False
  | _ => True
  end.

End ValidatorOps.

(** ** More external collaborators

    What the remaining functions use besides the [World]: the browser
    ([window.confirm], [JSON]), the other entry points of the Solana
    connection and of the wallet adapter, and the [viem] public client. *)

Inductive RuntimeCall : Type :=
| confirm_call (text : string)
| connection_sendTransaction_call (transaction : list Instruction) (signers : list Keypair)
| confirmTransaction_call (signature : string)
| getLatestBlockhash_call
| wallet_sendTransaction_call (transaction : list Instruction)
| publicClient_getBalance_call (address : string)
| getGasPrice_call
| onClose_call.

Class Runtime : Type := {
  (* the browser *)
  confirm_result : string -> bool;
  (** [Uint8Array.from(JSON.parse(text))] *)
  parse_secret : string -> Outcome (list byte);
  (** [JSON.stringify(numbers)] *)
  stringify_secret : list number -> string;
  (* the Solana connection and the user's wallet *)
  connection_sendTransaction_result : list Instruction -> list Keypair -> Outcome string;
  confirmTransaction_result : string -> Outcome unit;
  getLatestBlockhash_result : Outcome (string * number);
  wallet_sendTransaction_result : list Instruction -> Outcome string;
  (* the viem public client *)
  publicClient_getBalance_result : string -> Outcome Z;
  getGasPrice_result : Outcome Z;
  formatEther : Z -> string
}.

(** Every call a function makes, to the libraries of the [World] or to
    the [Runtime]. *)
Inductive Event : Type :=
| lib (c : Call)
| rt (c : RuntimeCall).

(** A computation that talks to the [World] only, inside one that talks
    to both. *)
Definition with_lib {S A} (m : Eff Call S A) : Eff Event S A :=
  fun s => match m s with (t, r, s') => (map lib t, r, s') end.

Section RuntimeCalls.
Context {R : Runtime} {S : Type}.

Definition confirm (text : string) : Eff Event S bool :=
  extern (rt (confirm_call text)) (Returned (confirm_result text)).

Definition connection_sendTransaction (transaction : list Instruction) (signers : list Keypair)
  : Eff Event S string :=
  extern (rt (connection_sendTransaction_call transaction signers))
         (connection_sendTransaction_result transaction signers).

Definition confirmTransaction (signature : string) : Eff Event S unit :=
  extern (rt (confirmTransaction_call signature)) (confirmTransaction_result signature).

Definition getLatestBlockhash : Eff Event S (string * number) :=
  extern (rt getLatestBlockhash_call) getLatestBlockhash_result.

Definition wallet_sendTransaction (transaction : list Instruction) : Eff Event S string :=
  extern (rt (wallet_sendTransaction_call transaction))
         (wallet_sendTransaction_result transaction).

Definition publicClient_getBalance (address : string) : Eff Event S Z :=
  extern (rt (publicClient_getBalance_call address)) (publicClient_getBalance_result address).

Definition getGasPrice : Eff Event S Z :=
  extern (rt getGasPrice_call) getGasPrice_result.

Definition onClose : Eff Event S unit :=
  extern (rt onClose_call) (Returned tt).
End RuntimeCalls.

(** A string in a condition: the empty one counts as false. *)
Definition truthy (s : option string) : option string :=
  match s with
  | Some "" => None
  | other => other
  end%string.

(** ** packages/core: balances of the session *)

Record SessionBalances : Type := {
  sol : option number;
  eth : option string
}.

Section Balances.
Context {W : World} {R : Runtime} {S : Type}.

(** [fetchSessionBalances(connection, solPublicKey, ethAddress)] *)
Definition fetchSessionBalances (solPublicKey : option PublicKey) (ethAddress : option string)
  : Eff Event S SessionBalances :=
  (* SOL *)
  sol <- match solPublicKey with
         | Some solPublicKey =>
             try_catch
               (bal <- with_lib (getBalance solPublicKey) ;;
                ret (Some (bal / LAMPORTS_PER_SOL)%js))
               (fun e => ret None)
         | None => ret None
         end ;;
  (* ETH *)
  eth <- match truthy ethAddress with
         | Some ethAddress =>
             try_catch
               (bal <- publicClient_getBalance ethAddress ;;
                ret (Some (formatEther bal)))
               (fun e => ret None)
         | None => ret None
         end ;;
  ret {| sol := sol; eth := eth |}.
End Balances.

(** ** [localStorage] *)

Module Storage.

(** The entries, latest first; at most one per key. *)
Definition t : Type := list (string * string).

Definition removeItem (key : string) (st : t) : t :=
  filter (fun entry => negb (fst entry =? key)%string) st.

Definition setItem (key value : string) (st : t) : t :=
  (key, value) :: removeItem key st.

Fixpoint getItem (key : string) (st : t) : option string :=
  match st with
  | [] => None
  | (k, v) :: rest => if (k =? key)%string then Some v else getItem key rest
  end.

End Storage.

(** ** app/components/AIAgentModal.tsx: the session around the chat *)

Module Modal.

(** What the component gets from its props and from the wallet hooks. *)
Record Props : Type := {
  isOpen : bool;
  solPublicKey : option PublicKey;     (* the user's Solana wallet *)
  ethAddress : option string;          (* the user's Ethereum address *)
  isEthConnected : bool
}.

(** The component state and the page's [localStorage]. *)
Record State : Type := {
  chat : AIAgentModal.State;
  balance : option number;
  ethBalance : option string;
  isFunding : bool;
  localStorage : Storage.t
}.

Definition sessionKey (st : State) : option Keypair := AIAgentModal.sessionKey (chat st).
Definition ethSessionKey (st : State) : option string := AIAgentModal.ethSessionKey (chat st).
Definition messages (st : State) : list AIAgentModal.Message := AIAgentModal.messages (chat st).

Section Setters.
Context {C : Type}.

Definition setChat (f : AIAgentModal.State -> AIAgentModal.State) : Eff C State unit :=
  modify (fun st => {| chat := f (chat st);
                       balance := balance st;
                       ethBalance := ethBalance st;
                       isFunding := isFunding st;
                       localStorage := localStorage st |}).

Definition setSessionKey (v : option Keypair) : Eff C State unit :=
  setChat (fun c => {| AIAgentModal.sessionKey := v;
                       AIAgentModal.ethSessionKey := AIAgentModal.ethSessionKey c;
                       AIAgentModal.messages := AIAgentModal.messages c;
                       AIAgentModal.input := AIAgentModal.input c;
                       AIAgentModal.isProcessing := AIAgentModal.isProcessing c |}).

Definition setEthSessionKey (v : option string) : Eff C State unit :=
  setChat (fun c => {| AIAgentModal.sessionKey := AIAgentModal.sessionKey c;
                       AIAgentModal.ethSessionKey := v;
                       AIAgentModal.messages := AIAgentModal.messages c;
                       AIAgentModal.input := AIAgentModal.input c;
                       AIAgentModal.isProcessing := AIAgentModal.isProcessing c |}).

(** [setMessages(f)] *)
Definition setMessages (f : list AIAgentModal.Message -> list AIAgentModal.Message)
  : Eff C State unit :=
  setChat (fun c => {| AIAgentModal.sessionKey := AIAgentModal.sessionKey c;
                       AIAgentModal.ethSessionKey := AIAgentModal.ethSessionKey c;
                       AIAgentModal.messages := f (AIAgentModal.messages c);
                       AIAgentModal.input := AIAgentModal.input c;
                       AIAgentModal.isProcessing := AIAgentModal.isProcessing c |}).

Definition agentSays (text : string) : Eff C State unit :=
  setMessages (fun prev => prev ++ [{| AIAgentModal.role := AIAgentModal.agent;
                                       AIAgentModal.content := text |}]).

Definition setBalance (v : option number) : Eff C State unit :=
  modify (fun st => {| chat := chat st;
                       balance := v;
                       ethBalance := ethBalance st;
                       isFunding := isFunding st;
                       localStorage := localStorage st |}).

Definition setEthBalance (v : option string) : Eff C State unit :=
  modify (fun st => {| chat := chat st;
                       balance := balance st;
                       ethBalance := v;
                       isFunding := isFunding st;
                       localStorage := localStorage st |}).

Definition setIsFunding (v : bool) : Eff C State unit :=
  modify (fun st => {| chat := chat st;
                       balance := balance st;
                       ethBalance := ethBalance st;
                       isFunding := v;
                       localStorage := localStorage st |}).

Definition updateStorage (f : Storage.t -> Storage.t) : Eff C State unit :=
  modify (fun st => {| chat := chat st;
                       balance := balance st;
                       ethBalance := ethBalance st;
                       isFunding := isFunding st;
                       localStorage := f (localStorage st) |}).

(** [localStorage.getItem(key)] *)
Definition getItem (key : string) : Eff C State (option string) :=
  st <- get ;; ret (Storage.getItem key (localStorage st)).
End Setters.

Definition greeting : AIAgentModal.Message :=
  {| AIAgentModal.role := AIAgentModal.agent;
     AIAgentModal.content := "Session initialized (SOL + ETH). How can I help you?" |}.

Section Session.
Context {W : World} {R : Runtime}.
Variable props : Props.

(** [generateNewSession()]; the arguments are the random bytes drawn by
    [Keypair.generate()] and by [generatePrivateKey()]. *)
Definition generateNewSession (solRandom ethRandom : list byte) : Eff Event State unit :=
  (* Solana *)
  let keypair := Keypair_generate solRandom in
  setSessionKey (Some keypair) ;;
  updateStorage (Storage.setItem "ai_session_key"
                   (stringify_secret (Bytes.Array_from (secretKey keypair)))) ;;
  (* Ethereum *)
  let ethKey := generatePrivateKey ethRandom in
  setEthSessionKey (Some ethKey) ;;
  updateStorage (Storage.setItem "ai_session_key_eth" ethKey) ;;
  setMessages (fun _ => [greeting]).

(** The effect that loads or generates the session keys when the modal
    opens (the first [useEffect]).  [ethRandom'] feeds the separate
    [generatePrivateKey()] of the migration branch. *)
Definition loadSession (solRandom ethRandom ethRandom' : list byte) : Eff Event State unit :=
  when (isOpen props)
    ((* SOL Session *)
     storedKey <- getItem "ai_session_key" ;;
     match truthy storedKey with
     | Some text =>
         try_catch
           (secret <- (fun st => ([], parse_secret text, st)) ;;
            keypair <- (fun st => ([], Keypair_fromSecretKey secret, st)) ;;
            setSessionKey (Some keypair))
           (fun e => generateNewSession solRandom ethRandom)
     | None => generateNewSession solRandom ethRandom
     end ;;
     (* ETH Session *)
     storedEthKey <- getItem "ai_session_key_eth" ;;
     match truthy storedEthKey with
     | Some key => setEthSessionKey (Some key)
     | None =>
         match truthy storedKey with
         | None => ret tt   (* already generated *)
         | Some _ =>
             let newEthKey := generatePrivateKey ethRandom' in
             setEthSessionKey (Some newEthKey) ;;
             updateStorage (Storage.setItem "ai_session_key_eth" newEthKey)
         end
     end).

(** [fetchBalances()] *)
Definition fetchBalances : Eff Event State unit :=
  st <- get ;;
  (* SOL *)
  match sessionKey st with
  | Some sessionKey =>
      try_catch
        (bal <- with_lib (getBalance (publicKey sessionKey)) ;;
         setBalance (Some (bal / LAMPORTS_PER_SOL)%js))
        (fun e => ret tt)
  | None => ret tt
  end ;;
  (* ETH *)
  match truthy (ethSessionKey st) with
  | Some ethSessionKey =>
      try_catch
        (account <- with_lib (privateKeyToAccount ethSessionKey) ;;
         bal <- publicClient_getBalance (address account) ;;
         setEthBalance (Some (formatEther bal)))
        (fun e => ret tt)
  | None => ret tt
  end.

(** The fee kept back from the SOL refund, in lamports. *)
Definition fee : number := 5000%float.

(** The block under [// Refund SOL]; [sessionKey] is the key the handler
    was rendered with. *)
Definition refundSOL (sessionKey : option Keypair) : Eff Event State unit :=
  match sessionKey, solPublicKey props with
  | Some sessionKey, Some solPublicKey =>
      try_catch
        (balanceLamports <- with_lib (getBalance (publicKey sessionKey)) ;;
         when (balanceLamports > fee)%js
           (agentSays "Refunding SOL..." ;;
            ix <- with_lib (SystemProgram_transfer (publicKey sessionKey) solPublicKey
                              (balanceLamports - fee)%js) ;;
            signature <- connection_sendTransaction [ix] [sessionKey] ;;
            confirmTransaction signature))
        (fun e => ret tt)
  | _, _ => ret tt
  end.

(** The block under [// Refund ETH]. *)
Definition refundETH (ethSessionKey : option string) : Eff Event State unit :=
  match truthy ethSessionKey, truthy (ethAddress props), isEthConnected props with
  | Some ethSessionKey, Some ethAddress, true =>
      try_catch
        (ethAccount <- with_lib (privateKeyToAccount ethSessionKey) ;;
         balanceWei <- publicClient_getBalance (address ethAccount) ;;
         gasPrice <- getGasPrice ;;
         let cost := (gasPrice * 21000)%Z in
         when (cost <? balanceWei)%Z
           (agentSays "Refunding ETH..." ;;
            hash <- with_lib (sendTransaction ethAccount ethAddress
                                (balanceWei - cost - Z.quot cost 10)%Z) ;;
            ret tt))
        (fun e => ret tt)
  | _, _, _ => ret tt
  end.

Definition confirmText : string :=
  "Are you sure? This will refund remaining funds to your connected wallet and delete the session.".

Definition handleRevokeSession : Eff Event State unit :=
  confirmRevoke <- confirm confirmText ;;
  if negb confirmRevoke then ret tt else
  st <- get ;;
  refundSOL (sessionKey st) ;;
  refundETH (ethSessionKey st) ;;
  updateStorage (Storage.removeItem "ai_session_key") ;;
  updateStorage (Storage.removeItem "ai_session_key_eth") ;;
  setSessionKey None ;;
  setEthSessionKey None ;;
  setBalance None ;;
  setEthBalance None ;;
  setMessages (fun _ => []) ;;
  onClose.

Definition handleFundSessionSOL : Eff Event State unit :=
  st <- get ;;
  match solPublicKey props, sessionKey st with
  | Some solPublicKey, Some sessionKey =>
      setIsFunding true ;;
      try_finally
        (try_catch
           (ix <- with_lib (SystemProgram_transfer solPublicKey (publicKey sessionKey)
                              (0x1.999999999999ap-5 * LAMPORTS_PER_SOL)%js) ;;
            signature <- wallet_sendTransaction [ix] ;;
            latest <- getLatestBlockhash ;;
            confirmTransaction signature ;;
            fetchBalances ;;
            agentSays "Received 0.05 SOL.")
           (fun e => ret tt))
        (setIsFunding false)
  | _, _ => ret tt
  end.
End Session.

End Modal.

(** ** A simulated runtime

    The counterpart of [Simulation.world] for the [Runtime]: the user
    confirms, every call succeeds, the session holds 0.001 ETH and gas
    costs 1 gwei.  Secrets are stored as the text of their bytes. *)

Module SimulationRuntime.

Definition runtime : Runtime :=
  Build_Runtime
    (fun _ => true)
    (fun text => Returned (list_byte_of_string text))
    (fun numbers => string_of_list_byte (Bytes.Uint8Array_from numbers))
    (fun _ _ => Returned "r3fund"%string)
    (fun _ => Returned tt)
    (Returned ("bl0ckha5h"%string, 100%float))
    (fun _ => Returned "fund1ng"%string)
    (fun _ => Returned 1000000000000000%Z)
    (Returned 1000000000%Z)
    (fun wei => (Simulation.print_Z wei ++ " wei")%string).

Definition wallet : PublicKey := {| pk_bytes := list_byte_of_string "wallet" |}.

Definition props : Modal.Props :=
  {| Modal.isOpen := true;
     Modal.solPublicKey := Some wallet;
     Modal.ethAddress := Some "0xU5er"%string;
     Modal.isEthConnected := true |}.

(** A page that has never opened the modal. *)
Definition blank : Modal.State :=
  {| Modal.chat := {| AIAgentModal.sessionKey := None;
                      AIAgentModal.ethSessionKey := None;
                      AIAgentModal.messages := [];
                      AIAgentModal.input := "";
                      AIAgentModal.isProcessing := false |};
     Modal.balance := None;
     Modal.ethBalance := None;
     Modal.isFunding := false;
     Modal.localStorage := [] |}.

(** The same runtime with a session balance of 22,000 gwei: more than the
    21,000 gwei a transfer costs at 1 gwei per gas, less than that cost
    plus its tenth. *)
Definition tight_runtime : Runtime :=
  Build_Runtime
    (fun _ => true)
    (fun text => Returned (list_byte_of_string text))
    (fun numbers => string_of_list_byte (Bytes.Uint8Array_from numbers))
    (fun _ _ => Returned "r3fund"%string)
    (fun _ => Returned tt)
    (Returned ("bl0ckha5h"%string, 100%float))
    (fun _ => Returned "fund1ng"%string)
    (fun _ => Returned 22000000000000%Z)
    (Returned 1000000000%Z)
    (fun wei => (Simulation.print_Z wei ++ " wei")%string).

(** A page with a session in use. *)
Definition open : Modal.State :=
  {| Modal.chat := Simulation.modal "";
     Modal.balance := Some 2%float;
     Modal.ethBalance := Some "0.001"%string;
     Modal.isFunding := false;
     Modal.localStorage := [("ai_session_key_eth", "0x0123"); ("ai_session_key", "s3cret")]%string |}.

End SimulationRuntime.

(** ** States of the modal, compared *)

Module ModalStates.
Import Modal.

(** What is left of a state once the session is cleared: no keys, no
    balances, no messages, no stored entry under the two session names. *)
Definition cleared (st : State) : State :=
  {| chat := {| AIAgentModal.sessionKey := None;
                AIAgentModal.ethSessionKey := None;
                AIAgentModal.messages := [];
                AIAgentModal.input := AIAgentModal.input (chat st);
                AIAgentModal.isProcessing := AIAgentModal.isProcessing (chat st) |};
     balance := None;
     ethBalance := None;
     isFunding := isFunding st;
     localStorage := Storage.removeItem "ai_session_key_eth"
                       (Storage.removeItem "ai_session_key" (localStorage st)) |}.

(** States that differ in their chat messages only. *)
Definition same_but_messages (a b : State) : Prop :=
  AIAgentModal.sessionKey (chat a) = AIAgentModal.sessionKey (chat b)
  /\ AIAgentModal.ethSessionKey (chat a) = AIAgentModal.ethSessionKey (chat b)
  /\ AIAgentModal.input (chat a) = AIAgentModal.input (chat b)
  /\ AIAgentModal.isProcessing (chat a) = AIAgentModal.isProcessing (chat b)
  /\ balance a = balance b /\ ethBalance a = ethBalance b
  /\ isFunding a = isFunding b /\ localStorage a = localStorage b.


End ModalStates.

(** ** Shapes of the chat state *)

Module ChatStates.
Import AIAgentModal.

Definition with_messages (st : State) (ms : list Message) : State :=
  {| sessionKey := sessionKey st;
     ethSessionKey := ethSessionKey st;
     messages := ms;
     input := input st;
     isProcessing := isProcessing st |}.

Definition says (text : string) : Message := {| role := agent; content := text |}.

(** A call of the component itself, as opposed to a call into web3.js
    or viem. *)
Definition component_call (c : Call) : bool :=
  match c with
  | fetchBalances_call | generateContent_call _ | chat_call _ => true
  | _ => false
  end.

(** The tool names [handleSend] has a branch for. *)
Definition handled (toolName : string) : bool :=
  ((toolName =? "transferSOL") || (toolName =? "transferETH"))%string.

(** The fallback of [candidate?.text || ...]. *)
Definition fallback : string := "Sorry, I couldn't understand that.".
End ChatStates.

Module HookStates.
Import UseAgent.

(** [response.toolCalls], a missing list read as the empty one:
    [sendMessage] loops over nothing in both cases. *)
Definition calls_of {ToolArgs} (response : ChatResponse ToolArgs) : list (ToolCall ToolArgs) :=
  match toolCalls response with
  | Some calls => calls
  | None => []
  end.

(** The chat after the user's message and the model's reply, before any
    tool has run. *)
Definition exchange {ToolArgs} (st : State) (text : string) (response : ChatResponse ToolArgs)
  : list Message :=
  messages st ++ [ {| role := user; content := text |};
                   {| role := assistant; content := response_content response |} ].
End HookStates.

(** A simulated chat backend for the hook: it answers every message
    with a call of [getBalance], the one tool that has a handler. *)
Module SimulationHook.
Import UseAgent.

Definition getBalance : ToolCall string := {| name := "getBalance"%string; args := ""%string |}.

Definition response : ChatResponse string :=
  {| response_content := "Let me check."; toolCalls := Some [getBalance] |}.

Definition chat (_ : list Message) : Outcome (ChatResponse string) := Returned response.

Definition handler : Handler string string := fun _ => Returned "1.5"%string.

Definition handlers : Handlers string string :=
  Some (fun toolName => if (toolName =? "getBalance")%string then Some handler else None).

Definition stringify (result : string) : string := result.

Definition idle : State := {| messages := []; isLoading := false; error := None |}.
End SimulationHook.

(** ** packages/core: the Jupiter quote *)

Module Jupiter.

Definition JUP_API : string := "https://quote-api.jup.ag/v6".

(** A JSON value the code only passes along, kept as its text. *)
Definition Any : Type := string.

Record QuoteResponse : Type := {
  inputMint : string;
  inAmount : string;
  outputMint : string;
  outAmount : string;
  otherAmountThreshold : string;
  swapMode : string;
  slippageBps : number;
  platformFee : Any;
  priceImpactPct : string;
  routePlan : list Any;
  contextSlot : number;
  timeTaken : number
}.

(** What [getQuote] reads of a [fetch] response: [ok], [statusText], and
    the body through [response.json()], once as an error object, of
    which the [error] member is taken, and once as a quote. *)
Record Response : Type := {
  ok : bool;
  statusText : string;
  json_error : Outcome (option string);
  json_quote : Outcome QuoteResponse
}.

Inductive HttpCall : Type :=
| fetch_call (url : string).

Class Http : Type := {
  fetch_result : string -> Outcome Response;
  parseFloat : string -> number
}.

Section Service.
Context {W : World} {H : Http} {S : Type}.

(** A member left out of the call takes the parameter's default. *)
Definition or_default (given : option number) (default : number) : number :=
  match given with
  | Some v => v
  | None => default
  end.

Definition quote_url (inputMint outputMint : string) (amount slippageBps : number) : string :=
  (JUP_API ++ "/quote?inputMint=" ++ inputMint ++ "&outputMint=" ++ outputMint
     ++ "&amount=" ++ Number_toString amount
     ++ "&slippageBps=" ++ Number_toString slippageBps)%string.

Definition getQuote (inputMint outputMint : string) (amount : number)
    (slippageBps maxPriceImpactPct : option number) : Eff HttpCall S QuoteResponse :=
  let slippageBps := or_default slippageBps 50%float in
  let maxPriceImpactPct := or_default maxPriceImpactPct 2%float in
  let url := quote_url inputMint outputMint amount slippageBps in
  try_catch
    (response <- extern (fetch_call url) (fetch_result url) ;;
     when (negb (ok response))
       (error <- (fun s => ([], json_error response, s)) ;;
        throw (LibraryError
                 ("Jupiter Quote API Error: "
                    ++ match error with
                       | Some (String _ _ as text) => text
                       | _ => statusText response
                       end))) ;;
     quote <- (fun s => ([], json_quote response, s)) ;;
     (* Safety Check: Price Impact *)
     when (parseFloat (priceImpactPct quote) > maxPriceImpactPct)%js
       (throw (LibraryError
                 ("Safety Alert: Price impact is " ++ priceImpactPct quote
                    ++ "%, which exceeds the safety limit of "
                    ++ Number_toString maxPriceImpactPct ++ "%. transaction aborted."))) ;;
     ret quote)
    (fun error => throw error).
End Service.
End Jupiter.


(** A simulated quote server. *)
Module SimulationHttp.
Import Jupiter.

Definition quote (impact : string) : QuoteResponse :=
  {| inputMint := "SOL"; inAmount := "1000000000";
     outputMint := "USDC"; outAmount := "150000000";
     otherAmountThreshold := "149000000"; swapMode := "ExactIn";
     slippageBps := 50%float; platformFee := "null"%string;
     priceImpactPct := impact; routePlan := [];
     contextSlot := 1%float; timeTaken := 0x1p-4%float |}.

(** The server answers every request with the same quote. *)
Definition serving (impact : string) (parsed : number) : Http :=
  Build_Http
    (fun _ => Returned {| ok := true; statusText := "OK";
                          json_error := Returned None;
                          json_quote := Returned (quote impact) |})
    (fun _ => parsed).
End SimulationHttp.

(** * Properties *)

Unset Implicit Arguments.

(** ** Comparisons of binary64 numbers *)

Module FloatFacts.

Lemma SFcompare_antisym (a b : spec_float) :
  SFcompare b a = option_map CompOpp (SFcompare a b).
Proof.
  destruct a as [sa|sa| |sa ma ea], b as [sb|sb| |sb mb eb]; simpl;
    try destruct sa; try destruct sb; simpl; try reflexivity.
  all: rewrite (Z.compare_antisym eb ea); destruct (eb ?= ea)%Z eqn:E; simpl;
    try reflexivity.
  all: change (Pos.compare_cont Eq mb ma) with (Pos.compare mb ma);
    change (Pos.compare_cont Eq ma mb) with (Pos.compare ma mb);
    rewrite (Pos.compare_antisym mb ma);
    destruct (mb ?= ma)%positive; reflexivity.
Qed.

Lemma SFcompare_refl_r (a b : spec_float) (c : comparison) :
  SFcompare a b = Some c -> SFcompare b b = Some Eq.
Proof.
  destruct a as [sa|sa| |sa ma ea], b as [sb|sb| |sb mb eb]; simpl;
    try discriminate; intros _; try destruct sb; simpl; try reflexivity.
  all: rewrite Z.compare_refl;
    change (Pos.compare_cont Eq mb mb) with (Pos.compare mb mb);
    rewrite Pos.compare_refl; reflexivity.
Qed.

Ltac to_spec :=
  unfold JS.gt, JS.lt, JS.le, JS.strict_eq, JS.isNaN in *;
  rewrite ?FloatAxioms.ltb_spec, ?FloatAxioms.leb_spec, ?FloatAxioms.eqb_spec in *;
  unfold SFltb, SFleb, SFeqb in *.

(** [a === b] excludes [a > b] *)
Lemma strict_eq_not_gt (a b : number) :
  (a === b)%js = true -> (a > b)%js = false.
Proof.
  to_spec. rewrite (SFcompare_antisym (Prim2SF a) (Prim2SF b)).
  destruct (SFcompare (Prim2SF a) (Prim2SF b)) as [[]|]; simpl; congruence.
Qed.

(** [a <= b] excludes [a > b] *)
Lemma le_not_gt (a b : number) :
  (a <= b)%js = true -> (a > b)%js = false.
Proof.
  to_spec. rewrite (SFcompare_antisym (Prim2SF a) (Prim2SF b)).
  destruct (SFcompare (Prim2SF a) (Prim2SF b)) as [[]|]; simpl; congruence.
Qed.

(** Whatever compares as [<=] to something is a number, and so is the
    other side. *)
Lemma le_not_NaN_r (a b : number) :
  (a <= b)%js = true -> JS.isNaN b = false.
Proof.
  to_spec. destruct (SFcompare (Prim2SF a) (Prim2SF b)) as [c|] eqn:E; try discriminate.
  intros _. rewrite (SFcompare_refl_r _ _ _ E). reflexivity.
Qed.

(** Between two numbers, [!(a > b)] is [a <= b]; with a NaN on either
    side both comparisons are false. *)
Lemma not_gt_le (a b : number) :
  JS.isNaN a = false -> JS.isNaN b = false ->
  (a > b)%js = false -> (a <= b)%js = true.
Proof.
  to_spec. rewrite (SFcompare_antisym (Prim2SF a) (Prim2SF b)).
  destruct (Prim2SF a) as [sa|sa| |sa ma ea], (Prim2SF b) as [sb|sb| |sb mb eb];
    simpl; try discriminate; try destruct sa; try destruct sb; simpl;
    try discriminate; try reflexivity.
  all: intros _ _; destruct (ea ?= eb)%Z; simpl; try discriminate; try reflexivity;
    destruct (Pos.compare_cont Eq ma mb); simpl; try discriminate; reflexivity.
Qed.

(** Two numbers are different as soon as [===] tells them apart from a
    third one. *)
Lemma neq_of_strict_eq (a b c : number) :
  (a === c)%js <> (b === c)%js -> a <> b.
Proof. intros H E. apply H. rewrite E. reflexivity. Qed.

End FloatFacts.

(** ** SessionValidator *)

Module ValidatorFacts.
Import SessionValidator.

(** What [validateSOL] does, check by check. *)
Lemma validateSOL_eq (toAddress : string) (amount : number) (this : t) :
  validateSOL toAddress amount this =
  ([],
   if blocked (allowedMerchantsSOL (config this)) toAddress
   then Thrown (AddressNotAllowed toAddress)
   else if (amount > maxPerTxSOL (config this))%js
   then Thrown (PerTxLimitExceeded SOL amount (maxPerTxSOL (config this)))
   else if (spentSOL this + amount > maxSpendSOL (config this))%js
   then Thrown (SessionLimitReached SOL (maxSpendSOL (config this) - spentSOL this)%js)
   else Returned tt,
   this).
Proof.
  unfold validateSOL, bind, get, when, throw, ret.
  destruct (blocked _ _); [reflexivity|].
  destruct (amount > _)%js; [reflexivity|].
  destruct (_ + amount > _)%js; reflexivity.
Qed.

Lemma validateETH_eq (toAddress : string) (amount : number) (this : t) :
  validateETH toAddress amount this =
  ([],
   if blocked (allowedMerchantsETH (config this)) toAddress
   then Thrown (AddressNotAllowed toAddress)
   else if (amount > maxPerTxETH (config this))%js
   then Thrown (PerTxLimitExceeded ETH amount (maxPerTxETH (config this)))
   else if (spentETH this + amount > maxSpendETH (config this))%js
   then Thrown (SessionLimitReached ETH (maxSpendETH (config this) - spentETH this)%js)
   else Returned tt,
   this).
Proof.
  unfold validateETH, bind, get, when, throw, ret.
  destruct (blocked _ _); [reflexivity|].
  destruct (amount > _)%js; [reflexivity|].
  destruct (_ + amount > _)%js; reflexivity.
Qed.

(** [includes] is membership. *)
Lemma includes_In (xs : list string) (x : string) :
  JS.includes xs x = true <-> In x xs.
Proof.
  unfold JS.includes. rewrite existsb_exists. split.
  - intros [y [Hy E]]. apply String.eqb_eq in E. subst. assumption.
  - intros H. exists x. split; [assumption | apply String.eqb_refl].
Qed.

Lemma blocked_true (merchants : list string) (toAddress : string) :
  merchants <> [] -> ~ In toAddress merchants ->
  blocked (Some merchants) toAddress = true.
Proof.
  intros Hne Hnot. unfold blocked.
  destruct merchants as [|m ms]; [congruence|]. simpl Nat.ltb.
  destruct (JS.includes (m :: ms) toAddress) eqn:E; [|reflexivity].
  apply includes_In in E. contradiction.
Qed.

Lemma blocked_member (merchants : list string) (toAddress : string) :
  In toAddress merchants -> blocked (Some merchants) toAddress = false.
Proof.
  intros H. unfold blocked. apply includes_In in H. rewrite H.
  apply andb_false_r.
Qed.

Lemma constructor_fresh (cfg : SessionConfig) :
  constructor (Some cfg) = Returned (fresh cfg).
Proof. reflexivity. Qed.

(** The default limits are the binary64 numbers nearest to 0.1, 0.01,
    0.05 and 0.005: the correctly rounded quotients. *)
Lemma default_limits_decimal :
  maxSpendSOL DEFAULT_SESSION_CONFIG = (1 / 10)%float
  /\ maxSpendETH DEFAULT_SESSION_CONFIG = (1 / 100)%float
  /\ maxPerTxSOL DEFAULT_SESSION_CONFIG = (5 / 100)%float
  /\ maxPerTxETH DEFAULT_SESSION_CONFIG = (5 / 1000)%float.
Proof. vm_compute. repeat split; reflexivity. Qed.

Lemma spend_within (cfg : SessionConfig) (r : Request) (this : t) :
  within cfg this -> within cfg (final (spend r this)).
Proof.
  intros (Hc & Hs & He). destruct r as [a x | a x]; unfold spend, bind.
  - rewrite validateSOL_eq.
    destruct (blocked _ _); [repeat split; assumption|].
    destruct (x > _)%js; [repeat split; assumption|].
    destruct (_ + x > _)%js eqn:E; [repeat split; assumption|].
    simpl. rewrite Hc in E. repeat split; assumption.
  - rewrite validateETH_eq.
    destruct (blocked _ _); [repeat split; assumption|].
    destruct (x > _)%js; [repeat split; assumption|].
    destruct (_ + x > _)%js eqn:E; [repeat split; assumption|].
    simpl. rewrite Hc in E. repeat split; assumption.
Qed.

Lemma run_guarded_within (cfg : SessionConfig) (rs : list Request) (this : t) :
  within cfg this -> within cfg (run_guarded rs this).
Proof.
  revert this. induction rs as [|r rs IH]; intros this H; simpl.
  - assumption.
  - apply IH. apply spend_within. assumption.
Qed.

End ValidatorFacts.

Section ValidatorClaims.
Import SessionValidator ValidatorFacts.

Let x005 : number := maxPerTxSOL DEFAULT_SESSION_CONFIG.

(** C2, as stated, fails: [addSpentSOL] records whatever it is given, so
    the order of the calls matters.  Under the default limits (0.05 per
    transfer, 0.1 per session) three transfers of 0.05 SOL are each
    accepted when all three are validated before any is recorded, and
    recording them then puts the tracker at 0.15000000000000002 SOL, above
    the ceiling. *)
Lemma C2_unordered_calls_exceed_ceiling :
  let v0 := fresh DEFAULT_SESSION_CONFIG in
  let ops := [ValidateSOL "merchant" x005; ValidateSOL "merchant" x005;
              ValidateSOL "merchant" x005;
              AddSpentSOL x005; AddSpentSOL x005; AddSpentSOL x005] in
  outcome (validateSOL "merchant" x005 v0) = Returned tt
  /\ run (firstn 3 ops) v0 = v0
  /\ (spentSOL (run ops v0) === 0x1.3333333333334p-3%float)%js = true
  /\ (spentSOL (run ops v0) > maxSpendSOL DEFAULT_SESSION_CONFIG)%js = true
  /\ (spentSOL (run ops v0) <= maxSpendSOL DEFAULT_SESSION_CONFIG)%js = false.
Proof. vm_compute. repeat split; reflexivity. Qed.

(** C2, amended: when an amount is recorded only right after [validate]
    accepted it (same chain, same state) and the two session ceilings are
    not negative, then in every state reached from a fresh validator
    neither tracker compares greater than its ceiling, and a tracker that
    is a number is [<=] its ceiling. *)
Theorem C2_guarded_spend_within_ceiling (cfg : SessionConfig) (rs : list Request) :
  (0%float <= maxSpendSOL cfg)%js = true ->
  (0%float <= maxSpendETH cfg)%js = true ->
  let this := run_guarded rs (fresh cfg) in
  ((spentSOL this > maxSpendSOL cfg)%js = false
   /\ (spentETH this > maxSpendETH cfg)%js = false)
  /\ (JS.isNaN (spentSOL this) = false -> (spentSOL this <= maxSpendSOL cfg)%js = true)
  /\ (JS.isNaN (spentETH this) = false -> (spentETH this <= maxSpendETH cfg)%js = true).
Proof.
  intros HS HE this.
  assert (H : within cfg this).
  { apply run_guarded_within. repeat split; simpl.
    - apply FloatFacts.le_not_gt, HS.
    - apply FloatFacts.le_not_gt, HE. }
  destruct H as (_ & Hs & He). split; [split; assumption|]. split; intros Hn.
  - apply FloatFacts.not_gt_le; [assumption | apply (FloatFacts.le_not_NaN_r _ _ HS) | assumption].
  - apply FloatFacts.not_gt_le; [assumption | apply (FloatFacts.le_not_NaN_r _ _ HE) | assumption].
Qed.

Lemma C2_guarded_spend_witness :
  let this := run_guarded [SpendSOL "merchant" x005; SpendSOL "merchant" x005;
                           SpendSOL "merchant" x005]
                          (fresh DEFAULT_SESSION_CONFIG) in
  ((spentSOL this > maxSpendSOL DEFAULT_SESSION_CONFIG)%js = false
   /\ (spentETH this > maxSpendETH DEFAULT_SESSION_CONFIG)%js = false)
  /\ (JS.isNaN (spentSOL this) = false
      -> (spentSOL this <= maxSpendSOL DEFAULT_SESSION_CONFIG)%js = true)
  /\ (JS.isNaN (spentETH this) = false
      -> (spentETH this <= maxSpendETH DEFAULT_SESSION_CONFIG)%js = true).
Proof.
  apply (C2_guarded_spend_within_ceiling DEFAULT_SESSION_CONFIG
           [SpendSOL "merchant" x005; SpendSOL "merchant" x005; SpendSOL "merchant" x005]);
    vm_compute; reflexivity.
Defined.

(** Why the last two parts speak of a tracker that is a number: every
    comparison with NaN is false, so [validateSOL] accepts an amount of
    NaN, and once it is recorded the tracker is NaN, neither greater than
    the ceiling nor [<=] it. *)
Example NaN_passes_validation :
  let v0 := fresh DEFAULT_SESSION_CONFIG in
  let v1 := final (spend (SpendSOL "merchant" nan) v0) in
  outcome (validateSOL "merchant" nan v0) = Returned tt
  /\ JS.isNaN (spentSOL v1) = true
  /\ (spentSOL v1 > maxSpendSOL DEFAULT_SESSION_CONFIG)%js = false
  /\ (spentSOL v1 <= maxSpendSOL DEFAULT_SESSION_CONFIG)%js = false.
Proof. vm_compute. repeat split; reflexivity. Qed.

(** C3, as stated, fails: an accepted [validateSOL] leaves the tracker
    where it was.  On a fresh default validator 0.05 SOL is accepted and
    [spentSOL] is still 0, not 0.05. *)
Lemma C3_validate_does_not_record :
  let v0 := fresh DEFAULT_SESSION_CONFIG in
  outcome (validateSOL "merchant" x005 v0) = Returned tt
  /\ spentSOL (final (validateSOL "merchant" x005 v0)) = 0%float
  /\ spentSOL (final (validateSOL "merchant" x005 v0)) <> (spentSOL v0 + x005)%js.
Proof.
  cbv zeta. rewrite validateSOL_eq. repeat split.
  apply (FloatFacts.neq_of_strict_eq _ _ 0%float). vm_compute. discriminate.
Qed.

(** C3, amended: [validateSOL] and [validateETH] never change the
    validator, accepted or not; the tracker is moved by the separate
    [addSpentSOL] / [addSpentETH], which add the amount to their own
    chain's tracker whatever it is and touch nothing else; so validating
    and then recording leaves the tracker at its prior value plus the
    amount exactly when the validation accepted, and unchanged otherwise. *)
Theorem C3_record_is_a_separate_step (this : t) (toAddress : string) (amount : number) :
  (final (validateSOL toAddress amount this) = this
   /\ final (validateETH toAddress amount this) = this)
  /\ (addSpentSOL amount this
      = ([], Returned tt, {| config := config this;
                             spentSOL := (spentSOL this + amount)%js;
                             spentETH := spentETH this |})
      /\ addSpentETH amount this
         = ([], Returned tt, {| config := config this;
                                spentSOL := spentSOL this;
                                spentETH := (spentETH this + amount)%js |}))
  /\ (final (spend (SpendSOL toAddress amount) this)
      = match outcome (validateSOL toAddress amount this) with
        | Returned _ => final (addSpentSOL amount this)
        | Thrown _ => this
        end
      /\ final (spend (SpendETH toAddress amount) this)
         = match outcome (validateETH toAddress amount this) with
           | Returned _ => final (addSpentETH amount this)
           | Thrown _ => this
           end).
Proof.
  split; [|split].
  - rewrite validateSOL_eq, validateETH_eq. split; reflexivity.
  - split; reflexivity.
  - unfold spend, bind. rewrite validateSOL_eq, validateETH_eq. unfold outcome. simpl.
    split.
    + destruct (blocked _ _); [reflexivity|].
      destruct (amount > _)%js; [reflexivity|].
      destruct (_ + amount > _)%js; reflexivity.
    + destruct (blocked (allowedMerchantsETH _) _); [reflexivity|].
      destruct (amount > maxPerTxETH _)%js; [reflexivity|].
      destruct (_ + amount > maxSpendETH _)%js; reflexivity.
Qed.

(** C4, as stated, fails: the constructor checks nothing.  A configuration
    allowing 2 SOL per transfer under a 1 SOL session ceiling is accepted
    as it is. *)
Lemma C4_inverted_limits_accepted :
  let cfg := {| maxSpendSOL := 1; maxSpendETH := 1;
                maxPerTxSOL := 2; maxPerTxETH := 2;
                allowedMerchantsSOL := None; allowedMerchantsETH := None |}%float in
  (maxPerTxSOL cfg > maxSpendSOL cfg)%js = true
  /\ (maxPerTxETH cfg > maxSpendETH cfg)%js = true
  /\ constructor (Some cfg) = Returned (fresh cfg)
  /\ ~ exists e, constructor (Some cfg) = Thrown e.
Proof.
  repeat split; try (vm_compute; reflexivity).
  intros [e H]. discriminate.
Qed.

(** C4, amended: constructing a [SessionValidator] never fails and never
    alters the limits: whatever the configuration, also one whose
    per-transfer limit exceeds the session ceiling, the validator holds
    exactly that configuration (the default one when none is given) and
    both trackers start at 0. *)
Theorem C4_constructor_accepts_every_config (cfg : option SessionConfig) :
  exists this,
    constructor cfg = Returned this
    /\ config this = match cfg with Some c => c | None => DEFAULT_SESSION_CONFIG end
    /\ spentSOL this = 0%float
    /\ spentETH this = 0%float.
Proof. eexists. repeat split. Qed.

(** C5, as stated, fails on both sides of the boundary, because the
    checks compare binary64 numbers.  Under the default limits 0.0015 ETH
    and 0.0041 ETH are spent, each validated and then recorded, and
    0.0044 ETH is asked for: in decimal the three add up to 0.01 ETH,
    which is the ceiling itself, yet the tracker plus the amount is
    0.010000000000000002 and the request is refused.  Likewise on the
    other chain, with a ceiling of 0.3 SOL and 0.1 SOL spent, 0.2 SOL is
    refused, 0.1 + 0.2 being 0.30000000000000004.  And with a ceiling
    of 1 ETH reached, a request of 1 wei (1e-18 ETH) lies above the
    ceiling and is approved, since 1 + 1e-18 is 1 in binary64. *)
Lemma C5_decimal_boundaries_are_missed :
  let to := "0x000000000000000000000000000000000000dEaD"%string in
  let a15 := 0x1.89374bc6a7efap-10%float in       (* 0.0015 *)
  let a41 := 0x1.0cb295e9e1b09p-8%float in        (* 0.0041 *)
  let a44 := 0x1.205bc01a36e2fp-8%float in        (* 0.0044 *)
  let ceiling := maxSpendETH DEFAULT_SESSION_CONFIG in
  let v := run_guarded [SpendETH to a15; SpendETH to a41] (fresh DEFAULT_SESSION_CONFIG) in
  let sol := "4wBqpZM9xaSheZzJSMawUKKwhdpChKbZ5eu5ky4Vigw"%string in
  let s1 := 0x1.999999999999ap-4%float in         (* 0.1 *)
  let s2 := 0x1.999999999999ap-3%float in         (* 0.2 *)
  let s3 := 0x1.3333333333333p-2%float in         (* 0.3 *)
  let tenths := {| maxSpendSOL := s3; maxSpendETH := maxSpendETH DEFAULT_SESSION_CONFIG;
                   maxPerTxSOL := s2; maxPerTxETH := maxPerTxETH DEFAULT_SESSION_CONFIG;
                   allowedMerchantsSOL := None; allowedMerchantsETH := None |} in
  let w := run_guarded [SpendSOL sol s1] (fresh tenths) in
  let one := {| maxSpendSOL := 1%float; maxSpendETH := 1%float;
                maxPerTxSOL := 1%float; maxPerTxETH := 1%float;
                allowedMerchantsSOL := None; allowedMerchantsETH := None |} in
  let full := run_guarded [SpendETH to 1%float] (fresh one) in
  let wei := 0x1.2725dd1d243acp-60%float in       (* 1e-18 *)
  ((15%float / 10000%float === a15)%js = true
   /\ (41%float / 10000%float === a41)%js = true
   /\ (44%float / 10000%float === a44)%js = true
   /\ (100%float / 10000%float === ceiling)%js = true
   /\ (15 + 41 + 44 = 100)%Z)
  /\ (spentETH v = (0%float + a15 + a41)%js
      /\ (a44 > maxPerTxETH DEFAULT_SESSION_CONFIG)%js = false
      /\ (spentETH v + a44 === 0x1.47ae147ae147cp-7%float)%js = true   (* 0.010000000000000002 *)
      /\ outcome (validateETH to a44 v)
         = Thrown (SessionLimitReached ETH (ceiling - spentETH v)%js))
  /\ ((1%float / 10%float === s1)%js = true
      /\ (2%float / 10%float === s2)%js = true
      /\ (3%float / 10%float === s3)%js = true
      /\ (1 + 2 = 3)%Z
      /\ spentSOL w = (0%float + s1)%js
      /\ (s2 > maxPerTxSOL tenths)%js = false
      /\ (spentSOL w + s2 === 0x1.3333333333334p-2%float)%js = true   (* 0.30000000000000004 *)
      /\ outcome (validateSOL sol s2 w)
         = Thrown (SessionLimitReached SOL (s3 - spentSOL w)%js))
  /\ ((1%float / 1000000000000000000%float === wei)%js = true
      /\ spentETH full = (0%float + 1%float)%js
      /\ (spentETH full === maxSpendETH one)%js = true
      /\ (0%float < wei)%js = true
      /\ validateETH to wei full = ([], Returned tt, full)).
Proof. cbv zeta. repeat split; vm_compute; reflexivity. Qed.

(** C5, amended: the limits are inclusive as comparisons of binary64
    numbers.  For a recipient the allow-list lets through, [validate]
    approves exactly when neither [amount > maxPerTx] nor
    [spent + amount > maxSpend] holds, where [spent + amount] is the
    rounded binary64 sum; it rejects with the per-transfer error when the
    first holds, and with the session error when only the second does.
    So an amount [===] to the per-transfer limit is approved whenever the
    sum does not exceed the ceiling, and a sum [===] to the ceiling is
    approved whenever the amount does not exceed the per-transfer limit.
    Both chains. *)
Theorem C5_limits_are_inclusive_in_binary64 (this : t) (toAddress : string) (amount : number) :
  (blocked (allowedMerchantsSOL (config this)) toAddress = false ->
   (validateSOL toAddress amount this = ([], Returned tt, this)
    <-> (amount > maxPerTxSOL (config this))%js = false
        /\ (spentSOL this + amount > maxSpendSOL (config this))%js = false)
   /\ ((amount > maxPerTxSOL (config this))%js = true ->
       outcome (validateSOL toAddress amount this)
       = Thrown (PerTxLimitExceeded SOL amount (maxPerTxSOL (config this))))
   /\ ((amount > maxPerTxSOL (config this))%js = false ->
       (spentSOL this + amount > maxSpendSOL (config this))%js = true ->
       outcome (validateSOL toAddress amount this)
       = Thrown (SessionLimitReached SOL (maxSpendSOL (config this) - spentSOL this)%js))
   /\ ((amount === maxPerTxSOL (config this))%js = true ->
       (spentSOL this + amount > maxSpendSOL (config this))%js = false ->
       validateSOL toAddress amount this = ([], Returned tt, this))
   /\ ((amount > maxPerTxSOL (config this))%js = false ->
       (spentSOL this + amount === maxSpendSOL (config this))%js = true ->
       validateSOL toAddress amount this = ([], Returned tt, this)))
  /\
  (blocked (allowedMerchantsETH (config this)) toAddress = false ->
   (validateETH toAddress amount this = ([], Returned tt, this)
    <-> (amount > maxPerTxETH (config this))%js = false
        /\ (spentETH this + amount > maxSpendETH (config this))%js = false)
   /\ ((amount > maxPerTxETH (config this))%js = true ->
       outcome (validateETH toAddress amount this)
       = Thrown (PerTxLimitExceeded ETH amount (maxPerTxETH (config this))))
   /\ ((amount > maxPerTxETH (config this))%js = false ->
       (spentETH this + amount > maxSpendETH (config this))%js = true ->
       outcome (validateETH toAddress amount this)
       = Thrown (SessionLimitReached ETH (maxSpendETH (config this) - spentETH this)%js))
   /\ ((amount === maxPerTxETH (config this))%js = true ->
       (spentETH this + amount > maxSpendETH (config this))%js = false ->
       validateETH toAddress amount this = ([], Returned tt, this))
   /\ ((amount > maxPerTxETH (config this))%js = false ->
       (spentETH this + amount === maxSpendETH (config this))%js = true ->
       validateETH toAddress amount this = ([], Returned tt, this))).
Proof.
  split; intros Hb; [rewrite validateSOL_eq | rewrite validateETH_eq];
    rewrite Hb; unfold outcome; simpl.
  all: split; [|split; [|split; [|split]]].
  1,6: split;
       [ intros H;
         destruct (amount > _)%js; [discriminate|];
         destruct (_ + amount > _)%js; [discriminate|]; split; reflexivity
       | intros [H1 H2]; rewrite H1, H2; reflexivity ].
  1,5: intros H1; rewrite H1; reflexivity.
  1,4: intros H1 H2; rewrite H1, H2; reflexivity.
  1,3: intros H1 H2; apply FloatFacts.strict_eq_not_gt in H1; rewrite H1, H2; reflexivity.
  all: intros H1 H2; apply FloatFacts.strict_eq_not_gt in H2; rewrite H1, H2; reflexivity.
Qed.
End ValidatorClaims.

Section AllowListClaim.
Import SessionValidator ValidatorFacts.

(** C6: with a non-empty allow-list configured for a chain, every request
    whose recipient is not a member of the list (the very same string) is
    rejected as not allowed, whatever its amount, and a member is never
    rejected for that reason; with no list, or an empty one, no recipient
    is rejected for that reason and the verdict does not depend on the
    recipient at all.  Both chains. *)
Theorem C6_allow_list (this : t) (toAddress : string) (amount : number) :
  ((forall merchants,
       allowedMerchantsSOL (config this) = Some merchants ->
       merchants <> [] -> ~ In toAddress merchants ->
       validateSOL toAddress amount this = ([], Thrown (AddressNotAllowed toAddress), this))
   /\ (forall merchants,
       allowedMerchantsSOL (config this) = Some merchants ->
       In toAddress merchants ->
       forall a, outcome (validateSOL toAddress amount this) <> Thrown (AddressNotAllowed a))
   /\ (allowedMerchantsSOL (config this) = None
       \/ allowedMerchantsSOL (config this) = Some [] ->
       (forall a, outcome (validateSOL toAddress amount this) <> Thrown (AddressNotAllowed a))
       /\ (forall other, validateSOL other amount this = validateSOL toAddress amount this)))
  /\
  ((forall merchants,
       allowedMerchantsETH (config this) = Some merchants ->
       merchants <> [] -> ~ In toAddress merchants ->
       validateETH toAddress amount this = ([], Thrown (AddressNotAllowed toAddress), this))
   /\ (forall merchants,
       allowedMerchantsETH (config this) = Some merchants ->
       In toAddress merchants ->
       forall a, outcome (validateETH toAddress amount this) <> Thrown (AddressNotAllowed a))
   /\ (allowedMerchantsETH (config this) = None
       \/ allowedMerchantsETH (config this) = Some [] ->
       (forall a, outcome (validateETH toAddress amount this) <> Thrown (AddressNotAllowed a))
       /\ (forall other, validateETH other amount this = validateETH toAddress amount this))).
Proof.
  assert (numeric : forall (r1 r2 : Outcome unit) (b c : bool) a,
             (forall a', r1 <> Thrown (AddressNotAllowed a')) ->
             (forall a', r2 <> Thrown (AddressNotAllowed a')) ->
             (if b then r1 else if c then r2 else Returned tt)
             <> Thrown (AddressNotAllowed a)).
  { intros r1 r2 [] [] a H1 H2; auto; discriminate. }
  split; (split; [|split]).
  - intros merchants Hcfg Hne Hnot. rewrite validateSOL_eq, Hcfg.
    rewrite (blocked_true _ _ Hne Hnot). reflexivity.
  - intros merchants Hcfg Hin a. rewrite validateSOL_eq, Hcfg.
    rewrite (blocked_member _ _ Hin). unfold outcome; simpl.
    apply numeric; discriminate.
  - intros Hcfg.
    assert (Hb : forall a, blocked (allowedMerchantsSOL (config this)) a = false)
      by (intros a; destruct Hcfg as [-> | ->]; reflexivity).
    split; [intros a | intros other]; rewrite !validateSOL_eq, ?Hb; [|reflexivity].
    unfold outcome; simpl. apply numeric; discriminate.
  - intros merchants Hcfg Hne Hnot. rewrite validateETH_eq, Hcfg.
    rewrite (blocked_true _ _ Hne Hnot). reflexivity.
  - intros merchants Hcfg Hin a. rewrite validateETH_eq, Hcfg.
    rewrite (blocked_member _ _ Hin). unfold outcome; simpl.
    apply numeric; discriminate.
  - intros Hcfg.
    assert (Hb : forall a, blocked (allowedMerchantsETH (config this)) a = false)
      by (intros a; destruct Hcfg as [-> | ->]; reflexivity).
    split; [intros a | intros other]; rewrite !validateETH_eq, ?Hb; [|reflexivity].
    unfold outcome; simpl. apply numeric; discriminate.
Qed.

(** The scenario of the specification: allow-list ["addrA"], a transfer of
    0.01 SOL to "addrB". *)
Lemma C6_allow_list_witness :
  let this := fresh {| maxSpendSOL := maxSpendSOL DEFAULT_SESSION_CONFIG;
                       maxSpendETH := maxSpendETH DEFAULT_SESSION_CONFIG;
                       maxPerTxSOL := maxPerTxSOL DEFAULT_SESSION_CONFIG;
                       maxPerTxETH := maxPerTxETH DEFAULT_SESSION_CONFIG;
                       allowedMerchantsSOL := Some ["addrA"%string];
                       allowedMerchantsETH := None |} in
  validateSOL "addrB" 0x1.47ae147ae147bp-7%float this
  = ([], Thrown (AddressNotAllowed "addrB"), this)
  /\ forall other,
       validateETH other 0x1.47ae147ae147bp-7%float this
       = validateETH "addrB" 0x1.47ae147ae147bp-7%float this.
Proof.
  intros this.
  pose proof (C6_allow_list this "addrB" 0x1.47ae147ae147bp-7%float)
    as [[HS _] [_ [_ HE]]].
  split.
  - apply (HS ["addrA"%string]).
    + reflexivity.
    + discriminate.
    + simpl. intros [H | []]. discriminate.
  - apply HE. left. reflexivity.
Defined.

(** C5 at the default limits.  On a fresh session 0.05 SOL is exactly
    the per-transfer limit and is approved; with 0.05 SOL already spent,
    0.05 SOL more brings the tracker exactly to the 0.1 SOL ceiling and is
    approved; the next number above 0.05 is refused, and so is a further
    0.05 SOL once the ceiling has been reached. *)
Lemma C5_limits_witness :
  let to := "4wBqpZM9xaSheZzJSMawUKKwhdpChKbZ5eu5ky4Vigw"%string in
  let x005 := maxPerTxSOL DEFAULT_SESSION_CONFIG in
  let new := fresh DEFAULT_SESSION_CONFIG in
  let half := {| config := DEFAULT_SESSION_CONFIG; spentSOL := x005; spentETH := 0%float |} in
  let full := {| config := DEFAULT_SESSION_CONFIG;
                 spentSOL := maxSpendSOL DEFAULT_SESSION_CONFIG;
                 spentETH := 0%float |} in
  validateSOL to x005 new = ([], Returned tt, new)
  /\ validateSOL to x005 half = ([], Returned tt, half)
  /\ outcome (validateSOL to (next_up x005) half)
     = Thrown (PerTxLimitExceeded SOL (next_up x005) x005)
  /\ outcome (validateSOL to x005 full)
     = Thrown (SessionLimitReached SOL
                 (maxSpendSOL DEFAULT_SESSION_CONFIG - maxSpendSOL DEFAULT_SESSION_CONFIG)%js)
  /\ outcome (validateETH to (maxSpendETH DEFAULT_SESSION_CONFIG) half)
     = Thrown (PerTxLimitExceeded ETH (maxSpendETH DEFAULT_SESSION_CONFIG)
                                  (maxPerTxETH DEFAULT_SESSION_CONFIG)).
Proof.
  intros to x005 new half full.
  pose proof (C5_limits_are_inclusive_in_binary64 new to x005) as [HN _].
  pose proof (C5_limits_are_inclusive_in_binary64 half to x005) as [HS _].
  pose proof (C5_limits_are_inclusive_in_binary64 half to (next_up x005)) as [HS' _].
  pose proof (C5_limits_are_inclusive_in_binary64 full to x005) as [HS'' _].
  pose proof (C5_limits_are_inclusive_in_binary64 half to
                (maxSpendETH DEFAULT_SESSION_CONFIG)) as [_ HE].
  split; [|split; [|split; [|split]]].
  - apply (proj1 (proj2 (proj2 (proj2 (HN eq_refl))))); vm_compute; reflexivity.
  - apply (proj2 (proj2 (proj2 (proj2 (HS eq_refl))))); vm_compute; reflexivity.
  - apply (proj1 (proj2 (HS' eq_refl))); vm_compute; reflexivity.
  - apply (proj1 (proj2 (proj2 (HS'' eq_refl)))); vm_compute; reflexivity.
  - apply (proj1 (proj2 (HE eq_refl))); vm_compute; reflexivity.
Defined.
End AllowListClaim.

(** ** Transfers *)

Ltac run_eff :=
  unfold Core.transferSOL, Core.transferETH, Functions.transferSOL, Functions.transferETH,
    new_PublicKey, getBalance, SystemProgram_transfer, sendAndConfirmTransaction,
    privateKeyToAccount, parseEther, sendTransaction,
    try_catch, try_finally, bind, extern, when, throw, ret, get, modify,
    outcome, trace, final in *;
  simpl in *.

Section TransferFacts.
Context {W : World} {S : Type}.

(** A successful [Functions.transferSOL]: the three calls it made, in
    order, and what they answered. *)
Lemma functions_transferSOL_returned
    (sessionKey : Keypair) (toAddress : string) (amount : number) (s : S)
    (toPubkey : PublicKey) (ix : Instruction) (signature : string) :
  new_PublicKey_result toAddress = Returned toPubkey ->
  SystemProgram_transfer_result (publicKey sessionKey) toPubkey (amount * LAMPORTS_PER_SOL)%js
    = Returned ix ->
  sendAndConfirmTransaction_result [ix] [sessionKey] = Returned signature ->
  Functions.transferSOL sessionKey toAddress amount s
  = ([new_PublicKey_call toAddress;
      SystemProgram_transfer_call (publicKey sessionKey) toPubkey (amount * LAMPORTS_PER_SOL)%js;
      sendAndConfirmTransaction_call [ix] [sessionKey]],
     Returned signature, s).
Proof. intros H1 H2 H3. run_eff. rewrite H1, H2, H3. reflexivity. Qed.

Lemma functions_transferETH_returned
    (privateKeyHex toAddress : string) (amount : number) (s : S)
    (account : Account) (value : Z) (hash : string) :
  privateKeyToAccount_result privateKeyHex = Returned account ->
  parseEther_result (Number_toString amount) = Returned value ->
  sendTransaction_result account toAddress value = Returned hash ->
  Functions.transferETH privateKeyHex toAddress amount s
  = ([privateKeyToAccount_call privateKeyHex;
      parseEther_call (Number_toString amount);
      sendTransaction_call account toAddress value],
     Returned hash, s).
Proof. intros H1 H2 H3. run_eff. rewrite H1, H2, H3. reflexivity. Qed.
End TransferFacts.

(** C7, as stated, fails: the conversion is one binary64 multiplication
    and nothing checks its result.  1.001 SOL is a whole number of
    lamports, 1,001,000,000, and the amount here is the number that
    1001000000 / 1e9 gives; yet [transferSOL] computes
    1000999999.9999999, which is no integer, and hands that to
    [SystemProgram.transfer] without having refused the amount.  The
    library, which insists on an integer, throws, and the transfer of an
    amount that needs no more precision than a lamport fails: no exact
    integer scaling took place. *)
Lemma C7_scaling_is_inexact :
  let to := "4wBqpZM9xaSheZzJSMawUKKwhdpChKbZ5eu5ky4Vigw"%string in
  let key := Simulation.sessionKey in
  let recipient := {| pk_bytes := list_byte_of_string to |} in
  let amount := 0x1.004189374bc6ap+0%float in       (* 1.001 *)
  let lamports := (amount * LAMPORTS_PER_SOL)%js in
  let run := @Core.transferSOL Simulation.world unit key to amount tt in
  (1001000000%float / LAMPORTS_PER_SOL === amount)%js = true
  /\ (lamports === 0x1.dd5061fffffffp+29%float)%js = true   (* 1000999999.9999999 *)
  /\ (lamports === 1001000000%float)%js = false
  /\ JS.isInteger lamports = false
  /\ trace run
     = [new_PublicKey_call to;
        getBalance_call (publicKey key);
        SystemProgram_transfer_call (publicKey key) recipient lamports]
  /\ outcome run
     = Thrown (LibraryError "RangeError: the number cannot be converted to a BigInt").
Proof. cbv zeta. repeat split; vm_compute; reflexivity. Qed.

(** The other way round: the binary64 number 0.1 is not a whole number
    of lamports (times 10^9 it is 100000000.0000000055...), but the
    product rounds to 100000000, which the library accepts, and the
    transfer is sent. *)
Example rounded_product_is_sent :
  let to := "4wBqpZM9xaSheZzJSMawUKKwhdpChKbZ5eu5ky4Vigw"%string in
  let key := Simulation.sessionKey in
  let recipient := {| pk_bytes := list_byte_of_string to |} in
  let tenth := 0x1.999999999999ap-4%float in        (* 0.1 *)
  whole_lamports tenth = None
  /\ (tenth * LAMPORTS_PER_SOL === 100000000%float)%js = true
  /\ @Core.transferSOL Simulation.world unit key to tenth tt
     = ([new_PublicKey_call to;
         getBalance_call (publicKey key);
         SystemProgram_transfer_call (publicKey key) recipient
           (tenth * LAMPORTS_PER_SOL)%js;
         sendAndConfirmTransaction_call
           [ {| ix_fromPubkey := publicKey key;
                ix_toPubkey := recipient;
                ix_lamports := 100000000 |} ]
           [key]],
        Returned "5igNaTuRe"%string, tt).
Proof. cbv zeta. repeat split; vm_compute; reflexivity. Qed.

(** C7, amended: [transferSOL] scales by one binary64 multiplication,
    [amount * LAMPORTS_PER_SOL] with [LAMPORTS_PER_SOL] = 1e9, and passes
    the product to [SystemProgram.transfer] without any check of its own
    that it is a whole number of lamports.  For every amount:

    - when the recipient parses, the balance read is not below the
      product, the library builds an instruction from the product and the
      send answers, the run is these four calls and returns the
      signature; the instruction sent is the one built from exactly that
      product, signed by the session key;
    - a run that returns a signature is such a run;
    - a run that throws throws either "Insufficient funds", when the
      balance read is below the product, or the very error one of the
      four calls threw: the only refusal of [transferSOL] itself is the
      balance, and a product that is no whole number is refused only if
      the library refuses it. *)
Theorem C7_transferSOL_scales_in_binary64
    {W : World} {S : Type}
    (sessionKey : Keypair) (toAddress : string) (amount : number) (s : S) :
  let lamports := (amount * LAMPORTS_PER_SOL)%js in
  let run := Core.transferSOL sessionKey toAddress amount s in
  (forall toPubkey balance ix signature,
      new_PublicKey_result toAddress = Returned toPubkey ->
      getBalance_result (publicKey sessionKey) = Returned balance ->
      (balance < lamports)%js = false ->
      SystemProgram_transfer_result (publicKey sessionKey) toPubkey lamports = Returned ix ->
      sendAndConfirmTransaction_result [ix] [sessionKey] = Returned signature ->
      run = ([new_PublicKey_call toAddress;
              getBalance_call (publicKey sessionKey);
              SystemProgram_transfer_call (publicKey sessionKey) toPubkey lamports;
              sendAndConfirmTransaction_call [ix] [sessionKey]],
             Returned signature, s))
  /\
  (forall signature,
      outcome run = Returned signature ->
      exists toPubkey balance ix,
        new_PublicKey_result toAddress = Returned toPubkey
        /\ getBalance_result (publicKey sessionKey) = Returned balance
        /\ (balance < lamports)%js = false
        /\ SystemProgram_transfer_result (publicKey sessionKey) toPubkey lamports
           = Returned ix
        /\ sendAndConfirmTransaction_result [ix] [sessionKey] = Returned signature
        /\ run = ([new_PublicKey_call toAddress;
                   getBalance_call (publicKey sessionKey);
                   SystemProgram_transfer_call (publicKey sessionKey) toPubkey lamports;
                   sendAndConfirmTransaction_call [ix] [sessionKey]],
                  Returned signature, s))
  /\
  (forall e,
      outcome run = Thrown e ->
      new_PublicKey_result toAddress = Thrown e
      \/ exists toPubkey,
           new_PublicKey_result toAddress = Returned toPubkey
           /\ (getBalance_result (publicKey sessionKey) = Thrown e
               \/ exists balance,
                    getBalance_result (publicKey sessionKey) = Returned balance
                    /\ ((balance < lamports)%js = true
                        /\ e = InsufficientFunds (balance / LAMPORTS_PER_SOL)%js amount
                        \/ (balance < lamports)%js = false
                           /\ (SystemProgram_transfer_result (publicKey sessionKey)
                                 toPubkey lamports = Thrown e
                               \/ exists ix,
                                    SystemProgram_transfer_result (publicKey sessionKey)
                                      toPubkey lamports = Returned ix
                                    /\ sendAndConfirmTransaction_result [ix] [sessionKey]
                                       = Thrown e)))).
Proof.
  cbv zeta. split; [|split].
  - intros toPubkey balance ix signature H1 H2 H3 H4 H5.
    run_eff. rewrite H1. simpl. rewrite H2. simpl. rewrite H3. simpl.
    rewrite H4. simpl. rewrite H5. reflexivity.
  - intros signature H. run_eff.
    destruct (new_PublicKey_result toAddress) as [toPubkey|] eqn:E1; simpl in *;
      [|discriminate].
    destruct (getBalance_result (publicKey sessionKey)) as [balance|] eqn:E2; simpl in *;
      [|discriminate].
    destruct (balance < amount * LAMPORTS_PER_SOL)%js eqn:E3; simpl in *; [discriminate|].
    destruct (SystemProgram_transfer_result _ _ _) as [ix|] eqn:E4; simpl in *;
      [|discriminate].
    destruct (sendAndConfirmTransaction_result _ _) as [sig|] eqn:E5; simpl in *;
      [|discriminate].
    exists toPubkey, balance, ix. repeat split; try assumption.
    all: congruence.
  - intros e H. run_eff.
    destruct (new_PublicKey_result toAddress) as [toPubkey|e1] eqn:E1; simpl in *;
      [|left; congruence].
    right. exists toPubkey. split; [reflexivity|].
    destruct (getBalance_result (publicKey sessionKey)) as [balance|e2] eqn:E2; simpl in *;
      [|left; congruence].
    right. exists balance. split; [reflexivity|].
    destruct (balance < amount * LAMPORTS_PER_SOL)%js eqn:E3; simpl in *;
      [left; split; [reflexivity | congruence]|].
    right. split; [reflexivity|].
    destruct (SystemProgram_transfer_result _ _ _) as [ix|e4] eqn:E4; simpl in *;
      [|left; congruence].
    right. exists ix. split; [reflexivity|].
    destruct (sendAndConfirmTransaction_result _ _) as [sig|e5] eqn:E5; simpl in *;
      [discriminate | congruence].
Qed.

#[local] Existing Instance Simulation.world.

(** Half a SOL in the simulated world: 500,000,000 lamports, exactly. *)
Lemma C7_transferSOL_witness :
  let to := "4wBqpZM9xaSheZzJSMawUKKwhdpChKbZ5eu5ky4Vigw"%string in
  let key := Simulation.sessionKey in
  let recipient := {| pk_bytes := list_byte_of_string to |} in
  let ix := {| ix_fromPubkey := publicKey key;
               ix_toPubkey := recipient;
               ix_lamports := 500000000 |} in
  @Core.transferSOL Simulation.world unit key to 0.5%float tt
  = ([new_PublicKey_call to;
      getBalance_call (publicKey key);
      SystemProgram_transfer_call (publicKey key) recipient (0.5 * LAMPORTS_PER_SOL)%js;
      sendAndConfirmTransaction_call [ix] [key]],
     Returned "5igNaTuRe"%string, tt).
Proof.
  intros to key recipient ix.
  apply (proj1 (@C7_transferSOL_scales_in_binary64 Simulation.world unit
                  key to 0.5%float tt)
           recipient 2000000000%float ix "5igNaTuRe"%string);
    vm_compute; reflexivity.
Defined.

(** ** The modal's dispatch *)

Section DispatchClaims.
Import AIAgentModal.

Let sendOneSOL : FunctionCall :=
  {| name := "transferSOL"; args := {| toAddress := "merchant"; amount := 1%float |} |}.

(** C1, as stated, fails: [handleSend] never consults a
    [SessionValidator].  In the simulated world the model answers with a
    [transferSOL] call for 1 SOL; the validator, under the default limits,
    rejects 1 SOL as above the per-transfer limit, and the transfer of
    1,000,000,000 lamports is built, signed with the session key and sent
    all the same. *)
Lemma C1_transfer_sent_without_validation :
  let st := Simulation.modal "send 1 SOL to merchant" in
  let answer := fun _ : string =>
    Returned (Some {| functionCall := Some sendOneSOL; text := None |}) in
  let merchant := {| pk_bytes := list_byte_of_string "merchant" |} in
  let ix := {| ix_fromPubkey := publicKey Simulation.sessionKey;
               ix_toPubkey := merchant;
               ix_lamports := 1000000000 |} in
  outcome (SessionValidator.validateSOL "merchant" 1%float
             (SessionValidator.fresh DEFAULT_SESSION_CONFIG))
  = Thrown (PerTxLimitExceeded SOL 1%float (maxPerTxSOL DEFAULT_SESSION_CONFIG))
  /\ trace (handleSend answer st)
     = [generateContent_call "send 1 SOL to merchant";
        new_PublicKey_call "merchant";
        SystemProgram_transfer_call (publicKey Simulation.sessionKey) merchant
          1000000000%float;
        sendAndConfirmTransaction_call [ix] [Simulation.sessionKey];
        fetchBalances_call]
  /\ messages (final (handleSend answer st))
     = [ {| role := user; content := "send 1 SOL to merchant" |};
         {| role := agent; content := "Processing SOL transfer of 1 to merchant..." |};
         {| role := agent; content := "SOL Transfer successful! Sig: 5igNaTuRe" |} ].
Proof. cbv zeta. repeat split; vm_compute; reflexivity. Qed.

(** C1, amended: the dispatch of [transferSOL] and [transferETH] goes
    straight to the transfer function.  Whenever the session key exists
    and the library and the network accept the calls, the transfer is
    built from the tool call's own address and amount and sent, whatever
    the amount: no spend limit is checked on the way, and the chat gets
    the processing message followed by the success message. *)
Theorem C1_dispatch_goes_straight_to_transfer {W : World} (fc : FunctionCall) (st : State) :
  (forall key toPubkey ix signature,
      name fc = "transferSOL"%string ->
      sessionKey st = Some key ->
      new_PublicKey_result (toAddress (args fc)) = Returned toPubkey ->
      SystemProgram_transfer_result (publicKey key) toPubkey
        (amount (args fc) * LAMPORTS_PER_SOL)%js = Returned ix ->
      sendAndConfirmTransaction_result [ix] [key] = Returned signature ->
      trace (dispatch fc st)
      = [new_PublicKey_call (toAddress (args fc));
         SystemProgram_transfer_call (publicKey key) toPubkey
           (amount (args fc) * LAMPORTS_PER_SOL)%js;
         sendAndConfirmTransaction_call [ix] [key];
         fetchBalances_call]
      /\ messages (final (dispatch fc st))
         = messages st
           ++ [ {| role := agent;
                   content := "Processing SOL transfer of "
                                ++ Number_toString (amount (args fc))
                                ++ " to " ++ toAddress (args fc) ++ "..." |};
                {| role := agent;
                   content := "SOL Transfer successful! Sig: " ++ signature |} ])
  /\
  (forall key account value hash,
      name fc = "transferETH"%string ->
      ethSessionKey st = Some key ->
      privateKeyToAccount_result key = Returned account ->
      parseEther_result (Number_toString (amount (args fc))) = Returned value ->
      sendTransaction_result account (toAddress (args fc)) value = Returned hash ->
      trace (dispatch fc st)
      = [privateKeyToAccount_call key;
         parseEther_call (Number_toString (amount (args fc)));
         sendTransaction_call account (toAddress (args fc)) value;
         fetchBalances_call]
      /\ messages (final (dispatch fc st))
         = messages st
           ++ [ {| role := agent;
                   content := "Processing ETH transfer of "
                                ++ Number_toString (amount (args fc))
                                ++ " to " ++ toAddress (args fc) ++ "..." |};
                {| role := agent;
                   content := "ETH Transfer successful! Hash: " ++ hash |} ]).
Proof.
  split.
  - intros key toPubkey ix signature Hn Hk H1 H2 H3.
    unfold dispatch. rewrite Hn. simpl String.eqb. cbv iota.
    unfold pushMessage, fetchBalances, try_catch, bind, get, modify, extern, ret,
      trace, final. simpl. rewrite Hk.
    rewrite (functions_transferSOL_returned _ _ _ _ _ _ _ H1 H2 H3). simpl.
    rewrite <- app_assoc. split; reflexivity.
  - intros key account value hash Hn Hk H1 H2 H3.
    unfold dispatch. rewrite Hn. simpl String.eqb. cbv iota.
    unfold pushMessage, fetchBalances, try_catch, bind, get, modify, extern, ret,
      trace, final. simpl. rewrite Hk.
    rewrite (functions_transferETH_returned _ _ _ _ _ _ _ H1 H2 H3). simpl.
    rewrite <- app_assoc. split; reflexivity.
Qed.

Lemma C1_dispatch_witness :
  trace (dispatch sendOneSOL (Simulation.modal ""))
  = [new_PublicKey_call "merchant";
     SystemProgram_transfer_call (publicKey Simulation.sessionKey)
       {| pk_bytes := list_byte_of_string "merchant" |} (1 * LAMPORTS_PER_SOL)%js;
     sendAndConfirmTransaction_call
       [ {| ix_fromPubkey := publicKey Simulation.sessionKey;
            ix_toPubkey := {| pk_bytes := list_byte_of_string "merchant" |};
            ix_lamports := 1000000000 |} ]
       [Simulation.sessionKey];
     fetchBalances_call]
  /\ messages (final (dispatch sendOneSOL (Simulation.modal "")))
     = [ {| role := agent;
            content := "Processing SOL transfer of " ++ Number_toString 1%float
                         ++ " to " ++ "merchant" ++ "..." |};
         {| role := agent; content := "SOL Transfer successful! Sig: " ++ "5igNaTuRe" |} ].
Proof.
  apply (proj1 (@C1_dispatch_goes_straight_to_transfer Simulation.world sendOneSOL
                  (Simulation.modal ""))
           Simulation.sessionKey
           {| pk_bytes := list_byte_of_string "merchant" |}
           {| ix_fromPubkey := publicKey Simulation.sessionKey;
              ix_toPubkey := {| pk_bytes := list_byte_of_string "merchant" |};
              ix_lamports := 1000000000 |}
           "5igNaTuRe"%string);
    vm_compute; reflexivity.
Defined.

(** A tool name that is neither [transferSOL] nor [transferETH] falls
    through the dispatch: no call, no message, no change. *)
Lemma dispatch_unknown_tool_is_silent {W : World} (fc : FunctionCall) (st : State) :
  name fc <> "transferSOL"%string -> name fc <> "transferETH"%string ->
  dispatch fc st = ([], Returned tt, st).
Proof.
  intros H1 H2. unfold dispatch.
  apply String.eqb_neq in H1, H2. rewrite H1, H2. reflexivity.
Qed.

(** C9 fails in [handleSend]: the model answers with a call of
    [swapTokens], a tool of the repository's own vocabulary that the
    modal does not handle; the run ends with the user's message as the
    only message of the chat. *)
Lemma C9_handleSend_drops_unknown_tool :
  let st := Simulation.modal "swap 1 SOL for USDC" in
  let answer := fun _ : string =>
    Returned (Some {| functionCall :=
                        Some {| name := "swapTokens";
                                args := {| toAddress := ""; amount := 1%float |} |};
                      text := None |}) in
  handleSend answer st
  = ([generateContent_call "swap 1 SOL for USDC"],
     Returned tt,
     {| sessionKey := sessionKey st;
        ethSessionKey := ethSessionKey st;
        messages := [ {| role := user; content := "swap 1 SOL for USDC" |} ];
        input := "";
        isProcessing := false |}).
Proof. vm_compute. reflexivity. Qed.
End DispatchClaims.

(** ** The hook's tool loop *)

Section ToolLoop.
Import UseAgent.
Context {W : World}.
Variables ToolArgs ToolResult : Type.
Variable JSON_stringify : ToolResult -> string.
Variable handlers : Handlers ToolArgs ToolResult.

Let run1 := runToolCall JSON_stringify handlers.

Lemma without_executing_app (toolName : string) (prev : list Message) (r : Role) :
  without_executing toolName (prev ++ [{| role := r; content := executing toolName |}])
  = without_executing toolName prev.
Proof.
  unfold without_executing. rewrite filter_app. simpl.
  rewrite String.eqb_refl. simpl. apply app_nil_r.
Qed.

(** In [useAgent], every tool call ends with exactly one more assistant
    message at the end of the chat: the missing-handler error, the tool's
    result, or the tool's error.  The temporary "Executing ..." message is
    gone again, together with any older message of that same text. *)
Lemma runToolCall_one_result_message (toolCall : ToolCall ToolArgs) (st : State) :
  exists result_content,
    run1 toolCall st
    = ([], Returned tt,
       {| messages :=
            (match lookup_handler handlers (name toolCall) with
             | None => messages st
             | Some _ => without_executing (name toolCall) (messages st)
             end) ++ [{| role := assistant; content := result_content |}];
          isLoading := isLoading st;
          error := error st |})
    /\ result_content
       = match lookup_handler handlers (name toolCall) with
         | None => ("Error: No handler for tool " ++ name toolCall)%string
         | Some handler =>
             match handler (args toolCall) with
             | Returned result =>
                 ("Tool Result (" ++ name toolCall ++ "): " ++ JSON_stringify result)%string
             | Thrown toolErr => ("Tool Error: " ++ message toolErr)%string
             end
         end.
Proof.
  unfold run1, runToolCall.
  destruct (lookup_handler handlers (name toolCall)) as [handler|].
  - unfold setMessages, try_catch, bind, modify. simpl.
    destruct (handler (args toolCall)) as [result|toolErr]; simpl;
      rewrite without_executing_app; eexists; split; reflexivity.
  - eexists. split; reflexivity.
Qed.

(** A tool outside the handlers gets its message. *)
Lemma runToolCall_no_handler (toolCall : ToolCall ToolArgs) (st : State) :
  lookup_handler handlers (name toolCall) = None ->
  messages (final (run1 toolCall st))
  = messages st
    ++ [{| role := assistant;
           content := "Error: No handler for tool " ++ name toolCall |}].
Proof. intros H. unfold run1, runToolCall. rewrite H. reflexivity. Qed.

(** None of the three result messages can be taken for an "Executing ..."
    notice, so no later tool call removes it. *)
Lemma result_message_settled (toolCall : ToolCall ToolArgs) (st : State) (c : string) :
  c = match lookup_handler handlers (name toolCall) with
      | None => ("Error: No handler for tool " ++ name toolCall)%string
      | Some handler =>
          match handler (args toolCall) with
          | Returned result =>
              ("Tool Result (" ++ name toolCall ++ "): " ++ JSON_stringify result)%string
          | Thrown toolErr => ("Tool Error: " ++ message toolErr)%string
          end
      end ->
  settled {| role := assistant; content := c |}.
Proof.
  intros -> toolName. unfold executing. simpl.
  destruct (lookup_handler handlers (name toolCall)) as [handler|];
    [destruct (handler (args toolCall))|]; simpl; intros H; inversion H.
Qed.

Lemma without_executing_settled (toolName : string) (kept rs : list Message) :
  Forall settled rs ->
  without_executing toolName (kept ++ rs) = without_executing toolName kept ++ rs.
Proof.
  intros H. unfold without_executing. rewrite filter_app. f_equal.
  induction H as [|m rs Hm _ IH]; simpl; [reflexivity|].
  destruct (content m =? executing toolName)%string eqn:E.
  - apply String.eqb_eq in E. exfalso. exact (Hm toolName E).
  - simpl. rewrite IH. reflexivity.
Qed.

Lemma runToolCalls_appends (calls : list (ToolCall ToolArgs)) :
  forall (st : State) (kept rs : list Message),
    messages st = kept ++ rs -> Forall settled rs ->
    exists kept' results,
      runToolCalls JSON_stringify handlers calls st
      = ([], Returned tt,
         {| messages := kept' ++ rs ++ results;
            isLoading := isLoading st;
            error := error st |})
      /\ List.length results = List.length calls
      /\ Forall settled results
      /\ Forall (fun m => role m = assistant) results
      /\ incl kept' kept.
Proof.
  induction calls as [|toolCall rest IH]; intros st kept rs Hst Hrs.
  - exists kept, []. simpl. unfold ret. rewrite app_nil_r, <- Hst.
    destruct st; repeat split; auto using incl_refl.
  - destruct (runToolCall_one_result_message toolCall st) as [c [Hrun Hc]].
    pose proof (result_message_settled toolCall st c Hc) as Hset.
    set (F := fun l => match lookup_handler handlers (name toolCall) with
                       | None => l
                       | Some _ => without_executing (name toolCall) l
                       end).
    assert (HF : F (kept ++ rs) = F kept ++ rs).
    { unfold F. destruct (lookup_handler _ _); [|reflexivity].
      apply without_executing_settled, Hrs. }
    assert (Hincl : incl (F kept) kept).
    { unfold F. destruct (lookup_handler _ _); [|apply incl_refl].
      unfold without_executing. intros m Hm. apply filter_In in Hm. tauto. }
    set (m := {| role := assistant; content := c |}) in *.
    set (st1 := {| messages := F (messages st) ++ [m];
                   isLoading := isLoading st;
                   error := error st |}).
    assert (Hst1 : messages st1 = F kept ++ (rs ++ [m])).
    { simpl. rewrite Hst, HF, <- app_assoc. reflexivity. }
    assert (Hrs1 : Forall settled (rs ++ [m])).
    { apply Forall_app. split; [assumption | constructor; [assumption | constructor]]. }
    destruct (IH st1 (F kept) (rs ++ [m]) Hst1 Hrs1)
      as (kept' & results & Hrest & Hlen & Hsettled & Hroles & Hin).
    exists kept', (m :: results).
    simpl runToolCalls. unfold bind. fold run1. rewrite Hrun. fold (F (messages st)).
    fold m. fold st1. rewrite Hrest. simpl.
    rewrite <- !app_assoc. simpl. repeat split.
    + f_equal. exact Hlen.
    + constructor; assumption.
    + constructor; [reflexivity | assumption].
    + intros x Hx. apply Hincl, Hin, Hx.
Qed.

(** The whole tool loop of [sendMessage]: one assistant message per tool
    call, appended in order, none of them removed later; of the earlier
    messages only "Executing ..." texts can disappear. *)
Lemma runToolCalls_one_message_each (calls : list (ToolCall ToolArgs)) (st : State) :
  exists kept results,
    messages (final (runToolCalls JSON_stringify handlers calls st)) = kept ++ results
    /\ List.length results = List.length calls
    /\ Forall (fun m => role m = assistant) results
    /\ incl kept (messages st).
Proof.
  destruct (runToolCalls_appends calls st (messages st) [])
    as (kept & results & Hrun & Hlen & _ & Hroles & Hin).
  - symmetry. apply app_nil_r.
  - constructor.
  - exists kept, results. rewrite Hrun. simpl. repeat split; assumption.
Qed.
End ToolLoop.

(** ** Session keys *)

Module KeyFacts.

(** A byte read out of a typed array and stored back is the same byte. *)
Lemma ToUint8_to_number (b : byte) : Bytes.ToUint8 (Bytes.to_number b) = b.
Proof. destruct b; vm_compute; reflexivity. Qed.

(** [Uint8Array.from(Array.from(u8))] is [u8]. *)
Lemma Uint8Array_from_Array_from (u8 : list byte) :
  Bytes.Uint8Array_from (Bytes.Array_from u8) = u8.
Proof.
  unfold Bytes.Uint8Array_from, Bytes.Array_from. rewrite map_map.
  induction u8 as [|b u8 IH]; simpl; [reflexivity|].
  rewrite ToUint8_to_number, IH. reflexivity.
Qed.

Lemma pad32_length (r : list byte) : List.length (Simulation.pad32 r) = 32%nat.
Proof.
  unfold Simulation.pad32. rewrite length_firstn, length_app, repeat_length. lia.
Qed.

(** The simulated key library keeps the contract of the real ones. *)
Lemma simulation_key_libraries : KeyLibraries Simulation.world.
Proof.
  split.
  - intros r. set (a := Simulation.pad32 r).
    assert (Ha : List.length a = 32%nat) by apply pad32_length.
    assert (Hl : List.length (a ++ Simulation.derive a) = 64%nat).
    { rewrite length_app. unfold Simulation.derive. rewrite length_rev. lia. }
    assert (Hs : skipn 32 (a ++ Simulation.derive a) = Simulation.derive a).
    { rewrite <- Ha. rewrite skipn_app, skipn_all, Nat.sub_diag. reflexivity. }
    assert (Hf : firstn 32 (a ++ Simulation.derive a) = a).
    { rewrite <- Ha. rewrite firstn_app, firstn_all, Nat.sub_diag. simpl.
      apply app_nil_r. }
    change (Keypair_generate r) with (Simulation.Keypair_generate r).
    change (@Keypair_fromSecretKey Simulation.world)
      with Simulation.Keypair_fromSecretKey.
    unfold Simulation.Keypair_fromSecretKey, Simulation.Keypair_generate.
    fold a. cbn [secretKey publicKey].
    rewrite Hl, Hs, Hf. cbn [Nat.eqb negb]. unfold Simulation.bytes_eqb.
    destruct (list_eq_dec _ _ _) as [_|N]; [|contradiction N; reflexivity].
    eexists. split; reflexivity.
  - intros r. simpl. unfold Simulation.privateKeyToAccount_result.
    simpl. destruct (string_of_list_byte r); eexists; reflexivity.
Qed.

End KeyFacts.

(** C8: restoring is the inverse of generating.  With key libraries that
    keep their contract, [generateSessionKeys] returns, and for the keys
    it returns [restoreSolanaKeypair] applied to the persisted secret
    array yields a key pair whose base58 public key is the generated
    [solAddress], and [getEthAddress] applied to the persisted private key
    yields the generated [ethAddress]. *)
Theorem C8_restore_inverts_generate
    {W : World} {L : KeyLibraries W} (solRandom ethRandom : list byte) :
  (exists keys, generateSessionKeys solRandom ethRandom = Returned keys)
  /\ forall keys,
       generateSessionKeys solRandom ethRandom = Returned keys ->
       (exists kp,
           restoreSolanaKeypair (solSecret keys) = Returned kp
           /\ toBase58 (publicKey kp) = solAddress keys)
       /\ getEthAddress (ethKey keys) = Returned (ethAddress keys).
Proof.
  unfold generateSessionKeys, restoreSolanaKeypair, getEthAddress.
  destruct (privateKeyToAccount_generate ethRandom) as [account Ha].
  rewrite Ha. split; [eexists; reflexivity|].
  intros keys Hk. injection Hk as <-. simpl.
  rewrite KeyFacts.Uint8Array_from_Array_from, Ha.
  destruct (fromSecretKey_generate solRandom) as [kp [Hkp Hpk]].
  split; [|reflexivity].
  exists kp. rewrite Hpk. split; [assumption | reflexivity].
Qed.

Lemma C8_restore_witness :
  (exists keys, generateSessionKeys [x2a; x07] [xca; xfe] = Returned keys)
  /\ forall keys,
       generateSessionKeys [x2a; x07] [xca; xfe] = Returned keys ->
       (exists kp,
           restoreSolanaKeypair (solSecret keys) = Returned kp
           /\ toBase58 (publicKey kp) = solAddress keys)
       /\ getEthAddress (ethKey keys) = Returned (ethAddress keys).
Proof.
  exact (@C8_restore_inverts_generate Simulation.world KeyFacts.simulation_key_libraries
           [x2a; x07] [xca; xfe]).
Defined.

(** * Further properties of the code *)

(** ** SessionValidator: what no sequence of calls can change *)

Section ValidatorHistory.
Import SessionValidator ValidatorFacts.

Lemma perform_config (op : Op) (this : t) : config (final (perform op this)) = config this.
Proof.
  destruct op as [a x | a x | x | x]; simpl;
    [rewrite validateSOL_eq | rewrite validateETH_eq | | ]; reflexivity.
Qed.

Lemma run_config (ops : list Op) (this : t) : config (run ops this) = config this.
Proof.
  revert this. induction ops as [|op ops IH]; intros this; simpl; [reflexivity|].
  rewrite IH. apply perform_config.
Qed.

(** X1: the limits and the allow-lists of a validator are fixed for its
    life: after any sequence of its public methods the configuration is
    the one it was built with, so a request refused by the allow-list or
    by the per-transfer limit is refused, with the same error, in every
    later state; only the session check depends on what was recorded. *)
Theorem X1_limits_fixed_for_life
    (ops : list Op) (this : t) (toAddress : string) (amount : number) :
  config (run ops this) = config this
  /\ (blocked (allowedMerchantsSOL (config this)) toAddress = true ->
      outcome (validateSOL toAddress amount (run ops this))
      = Thrown (AddressNotAllowed toAddress))
  /\ (blocked (allowedMerchantsSOL (config this)) toAddress = false ->
      (amount > maxPerTxSOL (config this))%js = true ->
      outcome (validateSOL toAddress amount (run ops this))
      = Thrown (PerTxLimitExceeded SOL amount (maxPerTxSOL (config this))))
  /\ (blocked (allowedMerchantsETH (config this)) toAddress = true ->
      outcome (validateETH toAddress amount (run ops this))
      = Thrown (AddressNotAllowed toAddress))
  /\ (blocked (allowedMerchantsETH (config this)) toAddress = false ->
      (amount > maxPerTxETH (config this))%js = true ->
      outcome (validateETH toAddress amount (run ops this))
      = Thrown (PerTxLimitExceeded ETH amount (maxPerTxETH (config this)))).
Proof.
  pose proof (run_config ops this) as Hc.
  split; [exact Hc|].
  rewrite validateSOL_eq, validateETH_eq, Hc. unfold outcome; simpl.
  repeat split.
  - intros ->. reflexivity.
  - intros -> ->. reflexivity.
  - intros ->. reflexivity.
  - intros -> ->. reflexivity.
Qed.

Lemma X1_limits_fixed_witness :
  let this := fresh DEFAULT_SESSION_CONFIG in
  let ops := [AddSpentSOL 1%float; ValidateETH "merchant" 1%float; AddSpentETH 2%float] in
  outcome (validateSOL "merchant" 1%float (run ops this))
  = Thrown (PerTxLimitExceeded SOL 1%float (maxPerTxSOL DEFAULT_SESSION_CONFIG)).
Proof.
  intros this ops.
  apply (proj1 (proj2 (proj2 (X1_limits_fixed_for_life ops this "merchant" 1%float))));
    vm_compute; reflexivity.
Defined.

(** X2: the two chains have separate budgets.  A sequence of calls that
    records no ETH leaves the ETH tracker where it was, so every ETH
    request gets the verdict it would have got before; and the same with
    the chains exchanged. *)
Theorem X2_chains_have_separate_budgets
    (ops : list Op) (this : t) (toAddress : string) (amount : number) :
  (Forall ValidatorOps.solana_only ops ->
   spentETH (run ops this) = spentETH this
   /\ outcome (validateETH toAddress amount (run ops this))
      = outcome (validateETH toAddress amount this))
  /\
  (Forall ValidatorOps.ethereum_only ops ->
   spentSOL (run ops this) = spentSOL this
   /\ outcome (validateSOL toAddress amount (run ops this))
      = outcome (validateSOL toAddress amount this)).
Proof.
  split; intros H.
  - assert (Hs : spentETH (run ops this) = spentETH this).
    { revert this. induction H as [|op ops Hop _ IH]; intros this; simpl; [reflexivity|].
      rewrite IH. destruct op as [a x | a x | x | x]; simpl;
        [rewrite validateSOL_eq | rewrite validateETH_eq | | contradiction]; reflexivity. }
    split; [exact Hs|].
    rewrite !validateETH_eq, run_config, Hs. reflexivity.
  - assert (Hs : spentSOL (run ops this) = spentSOL this).
    { revert this. induction H as [|op ops Hop _ IH]; intros this; simpl; [reflexivity|].
      rewrite IH. destruct op as [a x | a x | x | x]; simpl;
        [rewrite validateSOL_eq | rewrite validateETH_eq | contradiction | ]; reflexivity. }
    split; [exact Hs|].
    rewrite !validateSOL_eq, run_config, Hs. reflexivity.
Qed.

Lemma X2_separate_budgets_witness :
  let this := fresh DEFAULT_SESSION_CONFIG in
  let ops := [ValidateSOL "merchant" 1%float; AddSpentSOL 1%float; AddSpentSOL 1%float] in
  spentETH (run ops this) = spentETH this
  /\ outcome (validateETH "merchant" (maxPerTxETH DEFAULT_SESSION_CONFIG) (run ops this))
     = outcome (validateETH "merchant" (maxPerTxETH DEFAULT_SESSION_CONFIG) this).
Proof.
  intros this ops.
  apply (proj1 (X2_chains_have_separate_budgets ops this "merchant"
                  (maxPerTxETH DEFAULT_SESSION_CONFIG))).
  repeat constructor.
Defined.
End ValidatorHistory.

(** ** Transfers: what is sent, and when nothing is *)

Section TransferGuards.
Context {W : World} {S : Type}.

(** X3: [transferSOL] sends nothing it has not checked.  A transaction
    reaches [sendAndConfirmTransaction] only if the recipient parsed, the
    balance could be read and was not below the scaled amount, and the
    library built the instruction; it then holds that one instruction and
    is signed by the session key alone.  A balance below the scaled
    amount ends the call with the insufficient-funds error after the two
    reads, before anything is built. *)
Theorem X3_transferSOL_sends_only_when_funded
    (sessionKey : Keypair) (toAddress : string) (amount : number) (s : S) :
  (forall transaction signers,
      In (sendAndConfirmTransaction_call transaction signers)
         (trace (Core.transferSOL sessionKey toAddress amount s)) ->
      exists toPubkey balance ix,
        new_PublicKey_result toAddress = Returned toPubkey
        /\ getBalance_result (publicKey sessionKey) = Returned balance
        /\ (balance < amount * LAMPORTS_PER_SOL)%js = false
        /\ SystemProgram_transfer_result (publicKey sessionKey) toPubkey
             (amount * LAMPORTS_PER_SOL)%js = Returned ix
        /\ transaction = [ix] /\ signers = [sessionKey])
  /\
  (forall toPubkey balance,
      new_PublicKey_result toAddress = Returned toPubkey ->
      getBalance_result (publicKey sessionKey) = Returned balance ->
      (balance < amount * LAMPORTS_PER_SOL)%js = true ->
      Core.transferSOL sessionKey toAddress amount s
      = ([new_PublicKey_call toAddress; getBalance_call (publicKey sessionKey)],
         Thrown (InsufficientFunds (balance / LAMPORTS_PER_SOL)%js amount),
         s)).
Proof.
  split.
  - intros transaction signers. run_eff.
    destruct (new_PublicKey_result toAddress) as [toPubkey|] eqn:E1; simpl.
    2: { intros [H|[]]; discriminate. }
    destruct (getBalance_result (publicKey sessionKey)) as [balance|] eqn:E2; simpl.
    2: { intros [H|[H|[]]]; discriminate. }
    destruct (balance < amount * LAMPORTS_PER_SOL)%js eqn:E3; simpl.
    1: { intros [H|[H|[]]]; discriminate. }
    destruct (SystemProgram_transfer_result _ _ _) as [ix|] eqn:E4; simpl.
    2: { intros [H|[H|[H|[]]]]; discriminate. }
    intros Hin. exists toPubkey, balance, ix.
    assert (Hcall : sendAndConfirmTransaction_call transaction signers
                    = sendAndConfirmTransaction_call [ix] [sessionKey]).
    { destruct (sendAndConfirmTransaction_result _ _); simpl in Hin;
        destruct Hin as [H|[H|[H|[H|[]]]]]; try discriminate; symmetry; exact H. }
    injection Hcall as -> ->. repeat split; assumption.
  - intros toPubkey balance H1 H2 H3. run_eff. rewrite H1. simpl. rewrite H2. simpl.
    rewrite H3. reflexivity.
Qed.

(** X4: [transferETH] is a straight line with no recovery.  The value it
    sends is [parseEther] of the decimal rendering of the amount, to the
    address it was given, from the account of the key; the hash it
    returns is the one the send answered; and when one of the three calls
    throws, that error comes out unchanged and no later call is made. *)
Theorem X4_transferETH_passes_through
    (privateKeyHex toAddress : string) (amount : number) (s : S) :
  let run := Core.transferETH privateKeyHex toAddress amount s in
  final run = s
  /\ (forall e, privateKeyToAccount_result privateKeyHex = Thrown e ->
        outcome run = Thrown e
        /\ trace run = [privateKeyToAccount_call privateKeyHex])
  /\ (forall account,
        privateKeyToAccount_result privateKeyHex = Returned account ->
        (forall e, parseEther_result (Number_toString amount) = Thrown e ->
           outcome run = Thrown e
           /\ trace run = [privateKeyToAccount_call privateKeyHex;
                           parseEther_call (Number_toString amount)])
        /\ (forall value,
              parseEther_result (Number_toString amount) = Returned value ->
              outcome run = sendTransaction_result account toAddress value
              /\ trace run = [privateKeyToAccount_call privateKeyHex;
                              parseEther_call (Number_toString amount);
                              sendTransaction_call account toAddress value])).
Proof.
  cbv zeta. run_eff. repeat split.
  - destruct (privateKeyToAccount_result privateKeyHex) as [account|]; simpl;
      [|reflexivity].
    destruct (parseEther_result _) as [value|]; simpl; [|reflexivity].
    destruct (sendTransaction_result _ _ _); reflexivity.
  - rewrite H. reflexivity.
  - rewrite H. reflexivity.
  - rewrite H; simpl. rewrite H0. reflexivity.
  - rewrite H; simpl. rewrite H0. reflexivity.
  - rewrite H; simpl. rewrite H0; simpl.
    destruct (sendTransaction_result _ _ _); reflexivity.
  - rewrite H; simpl. rewrite H0; simpl.
    destruct (sendTransaction_result _ _ _); reflexivity.
Qed.
End TransferGuards.

Lemma X3_transferSOL_witness :
  @Core.transferSOL Simulation.world unit Simulation.sessionKey "merchant" 3%float tt
  = ([new_PublicKey_call "merchant"; getBalance_call (publicKey Simulation.sessionKey)],
     Thrown (InsufficientFunds (2000000000 / LAMPORTS_PER_SOL)%js 3%float),
     tt).
Proof.
  apply (proj2 (@X3_transferSOL_sends_only_when_funded Simulation.world unit
                  Simulation.sessionKey "merchant" 3%float tt)
           {| pk_bytes := list_byte_of_string "merchant" |} 2000000000%float);
    vm_compute; reflexivity.
Defined.

Lemma X4_transferETH_witness :
  outcome (@Core.transferETH Simulation.world unit "0x0123" "0xdead" 2%float tt)
  = Returned "0xha5h"%string
  /\ trace (@Core.transferETH Simulation.world unit "0x0123" "0xdead" 2%float tt)
     = [privateKeyToAccount_call "0x0123";
        parseEther_call "2";
        sendTransaction_call {| address := "0xAccountOf0x0123" |} "0xdead"
          2000000000000000000].
Proof.
  apply (proj2 (proj2 (proj2 (@X4_transferETH_passes_through Simulation.world unit
                                "0x0123" "0xdead" 2%float tt))
                  {| address := "0xAccountOf0x0123" |} eq_refl)
           2000000000000000000%Z).
  vm_compute. reflexivity.
Defined.

(** ** Balances *)

Ltac run_rt :=
  unfold confirm, connection_sendTransaction, confirmTransaction, getLatestBlockhash,
    wallet_sendTransaction, publicClient_getBalance, getGasPrice, onClose, with_lib,
    new_PublicKey, getBalance, SystemProgram_transfer, sendAndConfirmTransaction,
    privateKeyToAccount, parseEther, sendTransaction,
    try_catch, try_finally, bind, extern, when, throw, ret, get, modify,
    outcome, trace, final in *;
  simpl in *.

(** X5: [fetchSessionBalances] never throws and answers chain by chain.
    The SOL entry is the balance divided by 1e9 when a key was given and
    the read succeeded, and null otherwise; the ETH entry is the formatted
    balance when a non-empty address was given and the read succeeded, and
    null otherwise; a failure on one chain does not touch the entry of the
    other. *)
Theorem X5_fetchSessionBalances_is_partial
    {W : World} {R : Runtime} {S : Type}
    (solPublicKey : option PublicKey) (ethAddress : option string) (s : S) :
  exists bals,
    outcome (fetchSessionBalances solPublicKey ethAddress s) = Returned bals
    /\ final (fetchSessionBalances solPublicKey ethAddress s) = s
    /\ sol bals
       = match solPublicKey with
         | Some pk =>
             match getBalance_result pk with
             | Returned bal => Some (bal / LAMPORTS_PER_SOL)%js
             | Thrown _ => None
             end
         | None => None
         end
    /\ eth bals
       = match truthy ethAddress with
         | Some a =>
             match publicClient_getBalance_result a with
             | Returned bal => Some (formatEther bal)
             | Thrown _ => None
             end
         | None => None
         end.
Proof.
  unfold fetchSessionBalances. run_rt.
  destruct solPublicKey as [pk|]; [destruct (getBalance_result pk) as [bal|err]|];
    (destruct (truthy ethAddress) as [addr|];
     [destruct (publicClient_getBalance_result addr) as [wei|err']|]);
    simpl; eexists; repeat split.
Qed.

(** ** [localStorage] *)

Module StorageFacts.
Import Storage.

Lemma getItem_removeItem_same (key : string) (st : t) :
  getItem key (removeItem key st) = None.
Proof.
  induction st as [|[k v] st IH]; simpl; [reflexivity|].
  destruct (k =? key)%string eqn:E; simpl; [exact IH|].
  rewrite E. exact IH.
Qed.

Lemma getItem_removeItem_other (key other : string) (st : t) :
  key <> other -> getItem key (removeItem other st) = getItem key st.
Proof.
  intros N. induction st as [|[k v] st IH]; simpl; [reflexivity|].
  destruct (k =? other)%string eqn:E; simpl.
  - apply String.eqb_eq in E. subst k.
    destruct (other =? key)%string eqn:E'; [|exact IH].
    apply String.eqb_eq in E'. congruence.
  - rewrite IH. reflexivity.
Qed.

Lemma getItem_setItem_same (key value : string) (st : t) :
  getItem key (setItem key value st) = Some value.
Proof. unfold setItem. simpl. rewrite String.eqb_refl. reflexivity. Qed.

Lemma getItem_setItem_other (key other value : string) (st : t) :
  key <> other -> getItem key (setItem other value st) = getItem key st.
Proof.
  intros N. unfold setItem. simpl.
  destruct (other =? key)%string eqn:E.
  - apply String.eqb_eq in E. congruence.
  - apply getItem_removeItem_other, N.
Qed.

End StorageFacts.

(** ** The modal's session *)

Ltac run_modal :=
  unfold Modal.loadSession, Modal.generateNewSession, Modal.fetchBalances,
    Modal.refundSOL, Modal.refundETH, Modal.handleFundSessionSOL,
    Modal.agentSays, Modal.setMessages, Modal.setSessionKey, Modal.setEthSessionKey,
    Modal.setChat, Modal.setBalance, Modal.setEthBalance, Modal.setIsFunding,
    Modal.updateStorage, Modal.getItem,
    Modal.sessionKey, Modal.ethSessionKey, Modal.messages in *;
  run_rt.

Lemma truthy_Some (o : option string) (s : string) :
  truthy o = Some s -> o = Some s /\ s <> ""%string.
Proof.
  destruct o as [[|c r]|]; simpl; intros H; try discriminate.
  injection H as <-. split; [reflexivity | discriminate].
Qed.

Section ModalFacts.
Import Modal.
Context {W : World} {R : Runtime}.

(** X6: the modal's [fetchBalances] never throws and changes nothing but
    the two displayed balances.  Each one becomes the fresh reading when
    its key is set and its read succeeds, and otherwise keeps the value
    it had: a failed read leaves the old balance on display. *)
Theorem X6_fetchBalances_keeps_stale_balance (st : State) :
  let run := fetchBalances st in
  outcome run = Returned tt
  /\ chat (final run) = chat st
  /\ isFunding (final run) = isFunding st
  /\ localStorage (final run) = localStorage st
  /\ balance (final run)
     = match sessionKey st with
       | Some key =>
           match getBalance_result (publicKey key) with
           | Returned bal => Some (bal / LAMPORTS_PER_SOL)%js
           | Thrown _ => balance st
           end
       | None => balance st
       end
  /\ ethBalance (final run)
     = match truthy (ethSessionKey st) with
       | Some key =>
           match privateKeyToAccount_result key with
           | Returned account =>
               match publicClient_getBalance_result (address account) with
               | Returned wei => Some (formatEther wei)
               | Thrown _ => ethBalance st
               end
           | Thrown _ => ethBalance st
           end
       | None => ethBalance st
       end.
Proof.
  cbv zeta. run_modal.
  destruct (AIAgentModal.sessionKey (chat st)) as [key|];
    [destruct (getBalance_result (publicKey key)) as [bal|err]|];
    (destruct (truthy (AIAgentModal.ethSessionKey (chat st))) as [ekey|];
     [destruct (privateKeyToAccount_result ekey) as [account|err1];
      [destruct (publicClient_getBalance_result (address account)) as [wei|err2]|]|]);
    simpl; repeat split.
Qed.
End ModalFacts.


Section SessionLoading.
Import Modal.
Context {W : World} {R : Runtime}.
Variable props : Props.

(** X7: opening the modal always leaves a complete session.  Whatever
    [localStorage] held, after the loading effect both session keys are
    set, the stored ETH key is the one in use, and a Solana secret is
    stored; the effect itself calls neither the network nor the wallet. *)
Theorem X7_open_modal_ends_with_complete_session
    (solRandom ethRandom ethRandom' : list byte) (st : State) :
  isOpen props = true ->
  let run := loadSession props solRandom ethRandom ethRandom' st in
  outcome run = Returned tt
  /\ trace run = []
  /\ (exists keypair, sessionKey (final run) = Some keypair)
  /\ (exists key,
        ethSessionKey (final run) = Some key
        /\ Storage.getItem "ai_session_key_eth" (localStorage (final run)) = Some key)
  /\ (exists text,
        Storage.getItem "ai_session_key" (localStorage (final run)) = Some text).
Proof.
  intros Hopen. cbv zeta. unfold loadSession. rewrite Hopen. unfold when.
  assert (Hne : "ai_session_key"%string <> "ai_session_key_eth"%string) by discriminate.
  run_modal.
  destruct (truthy (Storage.getItem "ai_session_key" (localStorage st))) as [text|] eqn:Hsol.
  - destruct (parse_secret text) as [secret|e1] eqn:Hp; simpl.
    + destruct (Keypair_fromSecretKey secret) as [kp|e2] eqn:Hk; simpl.
      * destruct (truthy (Storage.getItem "ai_session_key_eth" (localStorage st)))
          as [key|] eqn:Heth; simpl.
        -- apply truthy_Some in Hsol, Heth. repeat split; eauto.
           ++ exists key. split; [reflexivity | apply Heth].
           ++ exists text. apply Hsol.
        -- apply truthy_Some in Hsol. repeat split; eauto.
           exists text. rewrite StorageFacts.getItem_removeItem_other by exact Hne.
           apply Hsol.
      * destruct (generatePrivateKey ethRandom) as [|c k]; simpl; repeat split; eauto.
    + destruct (generatePrivateKey ethRandom) as [|c k]; simpl; repeat split; eauto.
  - destruct (generatePrivateKey ethRandom) as [|c k]; simpl; repeat split; eauto.
Qed.

(** X8: a stored session is taken over as it is.  With a Solana secret
    in [localStorage] that parses and is accepted by the key library, and
    a non-empty ETH key next to it, the loading effect sets exactly these
    two keys, writes nothing to [localStorage], leaves the chat alone and
    generates no key; running it again changes nothing at all. *)
Theorem X8_stored_session_is_reused
    (solRandom ethRandom ethRandom' : list byte) (st : State)
    (text key : string) (secret : list byte) (keypair : Keypair) :
  isOpen props = true ->
  Storage.getItem "ai_session_key" (localStorage st) = Some text -> text <> ""%string ->
  parse_secret text = Returned secret ->
  Keypair_fromSecretKey secret = Returned keypair ->
  Storage.getItem "ai_session_key_eth" (localStorage st) = Some key -> key <> ""%string ->
  let st' := final (loadSession props solRandom ethRandom ethRandom' st) in
  (sessionKey st' = Some keypair
   /\ ethSessionKey st' = Some key
   /\ localStorage st' = localStorage st
   /\ messages st' = messages st)
  /\ loadSession props solRandom ethRandom ethRandom' st' = ([], Returned tt, st').
Proof.
  intros Hopen Hsol Hs Hp Hk Heth He. cbv zeta.
  destruct text as [|c text]; [congruence|]. destruct key as [|c' key]; [congruence|].
  unfold loadSession. rewrite Hopen. unfold when. run_modal.
  rewrite Hsol. simpl. rewrite Hp. simpl. rewrite Hk. simpl. rewrite Heth. simpl.
  split; [repeat split|].
  rewrite Hsol. simpl. rewrite Hp. simpl. rewrite Hk. simpl. rewrite Heth. simpl.
  reflexivity.
Qed.

(** X9: a Solana secret that cannot be restored costs the ETH key too.
    When [localStorage] holds no Solana secret, or one that does not
    parse or that the key library refuses, the loading effect generates a
    whole new session: both keys are fresh, both stored entries are
    overwritten, whatever ETH key was stored before is no longer
    referenced anywhere, and the chat is reset to the greeting. *)
Theorem X9_unreadable_secret_replaces_both_keys
    (solRandom ethRandom ethRandom' : list byte) (st : State) :
  isOpen props = true ->
  (truthy (Storage.getItem "ai_session_key" (localStorage st)) = None
   \/ exists text,
        truthy (Storage.getItem "ai_session_key" (localStorage st)) = Some text
        /\ forall secret keypair,
             parse_secret text = Returned secret ->
             Keypair_fromSecretKey secret <> Returned keypair) ->
  generatePrivateKey ethRandom <> ""%string ->
  let st' := final (loadSession props solRandom ethRandom ethRandom' st) in
  sessionKey st' = Some (Keypair_generate solRandom)
  /\ ethSessionKey st' = Some (generatePrivateKey ethRandom)
  /\ Storage.getItem "ai_session_key" (localStorage st')
     = Some (stringify_secret (Bytes.Array_from (secretKey (Keypair_generate solRandom))))
  /\ Storage.getItem "ai_session_key_eth" (localStorage st')
     = Some (generatePrivateKey ethRandom)
  /\ messages st' = [greeting].
Proof.
  intros Hopen Hsol Hk. cbv zeta.
  unfold loadSession. rewrite Hopen. unfold when. run_modal.
  destruct Hsol as [Hsol | [text [Hsol Hbad]]]; rewrite Hsol.
  - destruct (generatePrivateKey ethRandom) as [|c k]; [congruence|]. simpl. repeat split.
  - destruct (parse_secret text) as [secret|e1] eqn:Hp; simpl.
    + destruct (Keypair_fromSecretKey secret) as [kp|e2] eqn:Hf; simpl.
      * exfalso. exact (Hbad secret kp eq_refl Hf).
      * destruct (generatePrivateKey ethRandom) as [|c k]; [congruence|]. simpl. repeat split.
    + destruct (generatePrivateKey ethRandom) as [|c k]; [congruence|]. simpl. repeat split.
Qed.
End SessionLoading.

Section SessionLoadingWitnesses.
Import Modal.
#[local] Existing Instance SimulationRuntime.runtime.

Let opened : State :=
  final (loadSession SimulationRuntime.props [x01] [x02] [x03] SimulationRuntime.blank).

Let corrupted : State :=
  {| chat := chat opened;
     balance := None;
     ethBalance := None;
     isFunding := false;
     localStorage := [("ai_session_key", "garbage"); ("ai_session_key_eth", "0x01d")]%string |}.

Lemma X7_complete_session_witness :
  let run := loadSession SimulationRuntime.props [x01] [x02] [x03] SimulationRuntime.blank in
  outcome run = Returned tt
  /\ trace run = []
  /\ (exists keypair, sessionKey (final run) = Some keypair)
  /\ (exists key,
        ethSessionKey (final run) = Some key
        /\ Storage.getItem "ai_session_key_eth" (localStorage (final run)) = Some key)
  /\ (exists text,
        Storage.getItem "ai_session_key" (localStorage (final run)) = Some text).
Proof.
  apply (@X7_open_modal_ends_with_complete_session Simulation.world
           SimulationRuntime.runtime SimulationRuntime.props [x01] [x02] [x03]
           SimulationRuntime.blank).
  reflexivity.
Defined.

Lemma X8_reuse_witness :
  let st' := final (loadSession SimulationRuntime.props [x0a] [x0b] [x0c] opened) in
  (sessionKey st' = Some (Keypair_generate [x01])
   /\ ethSessionKey st' = Some (generatePrivateKey [x02])
   /\ localStorage st' = localStorage opened
   /\ messages st' = messages opened)
  /\ loadSession SimulationRuntime.props [x0a] [x0b] [x0c] st' = ([], Returned tt, st').
Proof.
  apply (@X8_stored_session_is_reused Simulation.world SimulationRuntime.runtime
           SimulationRuntime.props [x0a] [x0b] [x0c] opened
           (stringify_secret (Bytes.Array_from (secretKey (Keypair_generate [x01]))))
           (generatePrivateKey [x02])
           (secretKey (Keypair_generate [x01]))
           (Keypair_generate [x01]));
    try (vm_compute; reflexivity); vm_compute; discriminate.
Defined.

Lemma X9_replaced_keys_witness :
  let st' := final (loadSession SimulationRuntime.props [x0a] [x0b] [x0c] corrupted) in
  sessionKey st' = Some (Keypair_generate [x0a])
  /\ ethSessionKey st' = Some (generatePrivateKey [x0b])
  /\ Storage.getItem "ai_session_key" (localStorage st')
     = Some (stringify_secret (Bytes.Array_from (secretKey (Keypair_generate [x0a]))))
  /\ Storage.getItem "ai_session_key_eth" (localStorage st')
     = Some (generatePrivateKey [x0b])
  /\ messages st' = [greeting].
Proof.
  apply (@X9_unreadable_secret_replaces_both_keys Simulation.world SimulationRuntime.runtime
           SimulationRuntime.props [x0a] [x0b] [x0c] corrupted).
  - reflexivity.
  - right. exists "garbage"%string. split; [reflexivity|].
    intros secret keypair Hp. vm_compute in Hp. injection Hp as <-.
    vm_compute. discriminate.
  - vm_compute. discriminate.
Defined.
End SessionLoadingWitnesses.

(** ** Revoking the session *)

Section Revoke.
Import Modal ModalStates.
Context {W : World} {R : Runtime}.
Variable props : Props.

Lemma refundSOL_returns (key : option Keypair) (st : State) :
  outcome (refundSOL props key st) = Returned tt
  /\ same_but_messages (final (refundSOL props key st)) st.
Proof.
  unfold same_but_messages. run_modal.
  destruct key as [key|]; [|simpl; repeat split].
  destruct (solPublicKey props) as [wallet|]; [|simpl; repeat split].
  destruct (getBalance_result (publicKey key)) as [bal|e]; simpl; [|repeat split].
  destruct (bal > fee)%js; simpl; [|repeat split].
  destruct (SystemProgram_transfer_result _ _ _) as [ix|e]; simpl; [|repeat split].
  destruct (connection_sendTransaction_result _ _) as [sig|e]; simpl; [|repeat split].
  destruct (confirmTransaction_result sig) as [[]|e]; simpl; repeat split.
Qed.

Lemma refundETH_returns (key : option string) (st : State) :
  outcome (refundETH props key st) = Returned tt
  /\ same_but_messages (final (refundETH props key st)) st.
Proof.
  unfold same_but_messages. run_modal.
  destruct (truthy key) as [k|]; [|simpl; repeat split].
  destruct (truthy (ethAddress props)) as [to|]; [|simpl; repeat split].
  destruct (isEthConnected props); [|simpl; repeat split].
  destruct (privateKeyToAccount_result k) as [account|e]; simpl; [|repeat split].
  destruct (publicClient_getBalance_result _) as [bal|e]; simpl; [|repeat split].
  destruct getGasPrice_result as [gas|e]; simpl; [|repeat split].
  destruct (gas * 21000 <? bal)%Z; simpl; [|repeat split].
  destruct (sendTransaction_result _ _ _) as [hash|e]; simpl; repeat split.
Qed.

Lemma handleRevokeSession_confirmed (st : State) :
  confirm_result confirmText = true ->
  exists refunds,
    handleRevokeSession props st
    = (rt (confirm_call confirmText) :: refunds ++ [rt onClose_call],
       Returned tt, cleared st).
Proof.
  intros Hc. unfold handleRevokeSession, confirm, bind at 1, extern; rewrite Hc; simpl.
  unfold get, bind at 1.
  destruct (refundSOL_returns (sessionKey st) st) as [O1 S1].
  destruct (refundSOL props (sessionKey st) st) as [[t1 r1] s1] eqn:E1.
  unfold outcome, final in *. simpl in *. subst r1.
  unfold bind at 1. rewrite E1.
  destruct (refundETH_returns (ethSessionKey st) s1) as [O2 S2].
  destruct (refundETH props (ethSessionKey st) s1) as [[t2 r2] s2] eqn:E2.
  unfold outcome, final in *. simpl in *. subst r2.
  unfold bind at 1. rewrite E2.
  exists (t1 ++ t2).
  run_modal. unfold cleared.
  destruct S1 as (A1 & A2 & A3 & A4 & A5 & A6 & A7 & A8).
  destruct S2 as (B1 & B2 & B3 & B4 & B5 & B6 & B7 & B8).
  rewrite B3, B4, B7, B8, A3, A4, A7, A8.
  rewrite <- app_assoc. reflexivity.
Qed.

(** X10: revoking always ends in the same cleared state.  If the user
    declines the confirmation nothing happens at all.  If the user
    confirms, then whatever the two refunds do (skipped, sent, or failed
    at any step) the handler returns normally, both stored entries are
    removed, both keys and both balances are null, the chat is empty, and
    [onClose] is the last thing called. *)
Theorem X10_revoke_always_clears_the_session (st : State) :
  (confirm_result confirmText = false ->
   handleRevokeSession props st = ([rt (confirm_call confirmText)], Returned tt, st))
  /\
  (confirm_result confirmText = true ->
   exists refunds,
     handleRevokeSession props st
     = (rt (confirm_call confirmText) :: refunds ++ [rt onClose_call],
        Returned tt, cleared st)).
Proof.
  split; intros Hc.
  - unfold handleRevokeSession, confirm, bind at 1, extern; rewrite Hc; reflexivity.
  - apply handleRevokeSession_confirmed, Hc.
Qed.

Lemma handleRevokeSession_trace (st : State) :
  confirm_result confirmText = true ->
  trace (handleRevokeSession props st)
  = rt (confirm_call confirmText)
    :: trace (refundSOL props (sessionKey st) st)
    ++ trace (refundETH props (ethSessionKey st)
                (final (refundSOL props (sessionKey st) st)))
    ++ [rt onClose_call].
Proof.
  intros Hc. unfold handleRevokeSession, confirm, bind at 1, extern; rewrite Hc; simpl.
  unfold get, bind at 1.
  destruct (refundSOL_returns (sessionKey st) st) as [O1 _].
  destruct (refundSOL props (sessionKey st) st) as [[t1 r1] s1] eqn:E1.
  unfold outcome, final, trace in *. simpl in *. subst r1.
  unfold bind at 1. rewrite E1.
  destruct (refundETH_returns (ethSessionKey st) s1) as [O2 _].
  destruct (refundETH props (ethSessionKey st) s1) as [[t2 r2] s2] eqn:E2.
  unfold outcome, final in *. simpl in *. subst r2.
  unfold bind at 1. rewrite E2.
  run_modal. rewrite ?app_nil_r, <- ?app_assoc. reflexivity.
Qed.

Lemma refundETH_trace (key : option string) (st : State) (e : Event) :
  In e (trace (refundETH props key st)) ->
  match e with
  | rt (connection_sendTransaction_call _ _) => False
  | rt (confirm_call _) => False
  | rt onClose_call => False
  | _ => True
  end.
Proof.
  run_modal.
  destruct (truthy key) as [k|]; [|simpl; tauto].
  destruct (truthy (ethAddress props)) as [to|]; [|simpl; tauto].
  destruct (isEthConnected props); [|simpl; tauto].
  destruct (privateKeyToAccount_result k) as [account|e1]; simpl.
  2: { intros [<-|[]]. exact I. }
  destruct (publicClient_getBalance_result _) as [bal|e2]; simpl.
  2: { intros [<-|[<-|[]]]; exact I. }
  destruct getGasPrice_result as [gas|e3]; simpl.
  2: { intros [<-|[<-|[<-|[]]]]; exact I. }
  destruct (gas * 21000 <? bal)%Z; simpl.
  2: { intros [<-|[<-|[<-|[]]]]; exact I. }
  destruct (sendTransaction_result _ _ _) as [hash|e4]; simpl;
    intros [<-|[<-|[<-|[<-|[]]]]]; exact I.
Qed.

(** X11: the SOL refund is guarded by the fee.  [handleRevokeSession]
    sends a Solana transaction only after the user confirmed, with a
    session key and a connected wallet, when the balance read succeeded
    and was above 5000 lamports; the transaction then holds the single
    instruction built for the balance minus 5000 lamports, from the
    session key to the user's wallet, and is signed by the session key. *)
Theorem X11_sol_refund_only_above_fee
    (st : State) (transaction : list Instruction) (signers : list Keypair) :
  In (rt (connection_sendTransaction_call transaction signers))
     (trace (handleRevokeSession props st)) ->
  confirm_result confirmText = true
  /\ exists key wallet bal ix,
       sessionKey st = Some key
       /\ solPublicKey props = Some wallet
       /\ getBalance_result (publicKey key) = Returned bal
       /\ (bal > fee)%js = true
       /\ SystemProgram_transfer_result (publicKey key) wallet (bal - fee)%js = Returned ix
       /\ transaction = [ix] /\ signers = [key].
Proof.
  intros Hin.
  destruct (confirm_result confirmText) eqn:Hc.
  2: { exfalso. revert Hin. unfold handleRevokeSession, confirm, bind at 1, extern.
       rewrite Hc. simpl. intros [H|[]]. discriminate. }
  split; [reflexivity|].
  rewrite (handleRevokeSession_trace st Hc) in Hin.
  destruct Hin as [H|Hin]; [discriminate|].
  apply in_app_or in Hin. destruct Hin as [Hin|Hin].
  2: { exfalso. apply in_app_or in Hin. destruct Hin as [Hin|[H|[]]]; [|discriminate].
       exact (refundETH_trace _ _ _ Hin). }
  revert Hin. run_modal.
  destruct (AIAgentModal.sessionKey (chat st)) as [key|]; [|simpl; tauto].
  destruct (solPublicKey props) as [wallet|]; [|simpl; tauto].
  destruct (getBalance_result (publicKey key)) as [bal|e] eqn:E1; simpl.
  2: { intros [H|[]]; discriminate. }
  destruct (bal > fee)%js eqn:E2; simpl.
  2: { intros [H|[]]; discriminate. }
  destruct (SystemProgram_transfer_result _ _ _) as [ix|e] eqn:E3; simpl.
  2: { intros [H|[H|[]]]; discriminate. }
  intros Hin. exists key, wallet, bal, ix.
  assert (Hcall : rt (connection_sendTransaction_call transaction signers)
                  = rt (connection_sendTransaction_call [ix] [key])).
  { destruct (connection_sendTransaction_result _ _) as [sig|e]; simpl in Hin.
    - destruct (confirmTransaction_result sig) as [[]|e]; simpl in Hin;
        destruct Hin as [H|[H|[H|[H|[]]]]]; try discriminate; symmetry; exact H.
    - destruct Hin as [H|[H|[H|[]]]]; try discriminate; symmetry; exact H. }
  injection Hcall as -> ->. repeat split; assumption.
Qed.

(** X12: the ETH refund can ask for a negative value.  The guard is
    balance > cost, with cost = gas price x 21000, but the value sent is
    balance - cost - cost/10; so for a balance above the cost and below
    the cost plus its tenth, [handleRevokeSession] calls [sendTransaction]
    with a negative value.  The session is cleared all the same. *)
Theorem X12_eth_refund_value_can_be_negative
    (st : State) (key to : string) (account : Account) (bal gas : Z) :
  confirm_result confirmText = true ->
  truthy (ethSessionKey st) = Some key ->
  truthy (ethAddress props) = Some to ->
  isEthConnected props = true ->
  privateKeyToAccount_result key = Returned account ->
  publicClient_getBalance_result (address account) = Returned bal ->
  getGasPrice_result = Returned gas ->
  (gas * 21000 < bal < gas * 21000 + Z.quot (gas * 21000) 10)%Z ->
  exists value,
    (value < 0)%Z
    /\ In (lib (sendTransaction_call account to value)) (trace (handleRevokeSession props st))
    /\ final (handleRevokeSession props st) = cleared st.
Proof.
  intros Hc Hk Hto Hconn Hacc Hbal Hgas [Hlow Hhigh].
  exists (bal - gas * 21000 - Z.quot (gas * 21000) 10)%Z. split; [lia|]. split.
  - rewrite (handleRevokeSession_trace st Hc). right. apply in_or_app. right.
    apply in_or_app. left.
    run_modal. rewrite Hk, Hto, Hconn, Hacc. simpl. rewrite Hbal. simpl. rewrite Hgas. simpl.
    apply Z.ltb_lt in Hlow. rewrite Hlow. simpl.
    destruct (sendTransaction_result _ _ _); simpl; tauto.
  - destruct (handleRevokeSession_confirmed st Hc) as [refunds ->]. reflexivity.
Qed.
End Revoke.

Section RevokeWitnesses.
Import Modal ModalStates.

Let refundTx : list Instruction :=
  [ {| ix_fromPubkey := publicKey Simulation.sessionKey;
       ix_toPubkey := SimulationRuntime.wallet;
       ix_lamports := 1999995000 |} ].

Lemma X10_revoke_witness :
  exists refunds,
    @handleRevokeSession Simulation.world SimulationRuntime.runtime
      SimulationRuntime.props SimulationRuntime.open
    = (rt (confirm_call confirmText) :: refunds ++ [rt onClose_call],
       Returned tt, cleared SimulationRuntime.open).
Proof.
  apply (proj2 (@X10_revoke_always_clears_the_session Simulation.world
                  SimulationRuntime.runtime SimulationRuntime.props
                  SimulationRuntime.open)).
  reflexivity.
Defined.

Lemma X11_sol_refund_witness :
  @confirm_result SimulationRuntime.runtime confirmText = true
  /\ exists key wallet bal ix,
       sessionKey SimulationRuntime.open = Some key
       /\ solPublicKey SimulationRuntime.props = Some wallet
       /\ @getBalance_result Simulation.world (publicKey key) = Returned bal
       /\ (bal > fee)%js = true
       /\ @SystemProgram_transfer_result Simulation.world (publicKey key) wallet
            (bal - fee)%js = Returned ix
       /\ refundTx = [ix] /\ [Simulation.sessionKey] = [key].
Proof.
  apply (@X11_sol_refund_only_above_fee Simulation.world SimulationRuntime.runtime
           SimulationRuntime.props SimulationRuntime.open refundTx [Simulation.sessionKey]).
  vm_compute. do 3 right. left. reflexivity.
Defined.

Lemma X12_negative_refund_witness :
  exists value,
    (value < 0)%Z
    /\ In (lib (sendTransaction_call {| address := "0xAccountOf0x0123" |} "0xU5er" value))
          (trace (@handleRevokeSession Simulation.world SimulationRuntime.tight_runtime
                    SimulationRuntime.props SimulationRuntime.open))
    /\ final (@handleRevokeSession Simulation.world SimulationRuntime.tight_runtime
                SimulationRuntime.props SimulationRuntime.open)
       = cleared SimulationRuntime.open.
Proof.
  apply (@X12_eth_refund_value_can_be_negative Simulation.world
           SimulationRuntime.tight_runtime SimulationRuntime.props SimulationRuntime.open
           "0x0123" "0xU5er" {| address := "0xAccountOf0x0123" |}
           22000000000000 1000000000);
    try reflexivity.
  vm_compute. split; reflexivity.
Defined.
End RevokeWitnesses.

(** ** Funding the session *)

Section Fund.
Import Modal ModalStates.
Context {W : World} {R : Runtime}.
Variable props : Props.




End Fund.


(** ** A turn of the modal's chat *)

Section ChatTurn.
Import AIAgentModal ChatStates.
Context {W : World}.

Lemma functions_transferSOL_pure {S} (key : Keypair) (to : string) (amount : number) (s : S) :
  final (Functions.transferSOL key to amount s) = s
  /\ Forall (fun c => component_call c = false) (trace (Functions.transferSOL key to amount s)).
Proof.
  run_eff.
  destruct (new_PublicKey_result to) as [pk|e]; simpl; [|auto].
  destruct (SystemProgram_transfer_result _ _ _) as [ix|e]; simpl; [|auto].
  destruct (sendAndConfirmTransaction_result _ _) as [sig|e]; simpl; auto 6.
Qed.

Lemma functions_transferETH_pure {S} (key to : string) (amount : number) (s : S) :
  final (Functions.transferETH key to amount s) = s
  /\ Forall (fun c => component_call c = false) (trace (Functions.transferETH key to amount s)).
Proof.
  run_eff.
  destruct (privateKeyToAccount_result key) as [pk|e]; simpl; [|auto].
  destruct (parseEther_result _) as [ix|e]; simpl; [|auto].
  destruct (sendTransaction_result _ _ _) as [sig|e]; simpl; auto 6.
Qed.

Lemma functions_transferSOL_stateless {S} (key : Keypair) (to : string) (amount : number) (s : S) :
  Functions.transferSOL key to amount s
  = (trace (Functions.transferSOL key to amount tt),
     outcome (Functions.transferSOL key to amount tt), s).
Proof.
  run_eff.
  destruct (new_PublicKey_result to) as [pk|e]; simpl; [|reflexivity].
  destruct (SystemProgram_transfer_result _ _ _) as [ix|e]; simpl; [|reflexivity].
  destruct (sendAndConfirmTransaction_result _ _) as [sig|e]; reflexivity.
Qed.

Lemma functions_transferETH_stateless {S} (key to : string) (amount : number) (s : S) :
  Functions.transferETH key to amount s
  = (trace (Functions.transferETH key to amount tt),
     outcome (Functions.transferETH key to amount tt), s).
Proof.
  run_eff.
  destruct (privateKeyToAccount_result key) as [pk|e]; simpl; [|reflexivity].
  destruct (parseEther_result _) as [ix|e]; simpl; [|reflexivity].
  destruct (sendTransaction_result _ _ _) as [sig|e]; reflexivity.
Qed.

Lemma dispatch_transferSOL (fc : FunctionCall) (st : State) :
  name fc = "transferSOL"%string ->
  exists t report,
    dispatch fc st
    = (t, Returned tt,
       with_messages st
         (messages st
          ++ [says ("Processing SOL transfer of " ++ Number_toString (amount (args fc))
                    ++ " to " ++ toAddress (args fc) ++ "...");
              says report]))
    /\ match sessionKey st with
       | None => t = [] /\ report = "SOL Transfer failed: No SOL session key"%string
       | Some key =>
           let sent := Functions.transferSOL key (toAddress (args fc)) (amount (args fc)) st in
           match outcome sent with
           | Returned signature =>
               t = trace sent ++ [fetchBalances_call]
               /\ report = ("SOL Transfer successful! Sig: " ++ signature)%string
           | Thrown e =>
               t = trace sent /\ report = ("SOL Transfer failed: " ++ message e)%string
           end
       end.
Proof.
  intros Hn. unfold dispatch. rewrite Hn. simpl String.eqb. cbv iota zeta.
  destruct st as [k ek ms i p].
  unfold pushMessage, fetchBalances, try_catch, bind, get, modify, extern, ret, throw,
    with_messages, says. simpl.
  destruct k as [key|]; simpl.
  - repeat match goal with
           | |- context [Functions.transferSOL key ?a ?b ?s] =>
               lazymatch s with
               | tt => fail
               | _ => rewrite (functions_transferSOL_stateless key a b s)
               end
           end.
    unfold outcome at 2 4. unfold trace at 2 3. simpl.
    destruct (outcome (Functions.transferSOL key _ _ tt)) as [signature|e]; simpl.
    + rewrite <- app_assoc. eexists. eexists. split; [reflexivity|]. split; reflexivity.
    + rewrite <- app_assoc, app_nil_r. eexists. eexists. split; [reflexivity|]. split; reflexivity.
  - rewrite <- app_assoc. eexists. eexists. split; [reflexivity|]. split; reflexivity.
Qed.

Lemma dispatch_transferETH (fc : FunctionCall) (st : State) :
  name fc = "transferETH"%string ->
  exists t report,
    dispatch fc st
    = (t, Returned tt,
       with_messages st
         (messages st
          ++ [says ("Processing ETH transfer of " ++ Number_toString (amount (args fc))
                    ++ " to " ++ toAddress (args fc) ++ "...");
              says report]))
    /\ match ethSessionKey st with
       | None => t = [] /\ report = "ETH Transfer failed: No ETH session key"%string
       | Some key =>
           let sent := Functions.transferETH key (toAddress (args fc)) (amount (args fc)) st in
           match outcome sent with
           | Returned hash =>
               t = trace sent ++ [fetchBalances_call]
               /\ report = ("ETH Transfer successful! Hash: " ++ hash)%string
           | Thrown e =>
               t = trace sent /\ report = ("ETH Transfer failed: " ++ message e)%string
           end
       end.
Proof.
  intros Hn. unfold dispatch. rewrite Hn. simpl String.eqb. cbv iota zeta.
  destruct st as [k ek ms i p].
  unfold pushMessage, fetchBalances, try_catch, bind, get, modify, extern, ret, throw,
    with_messages, says. simpl.
  destruct ek as [key|]; simpl.
  - repeat match goal with
           | |- context [Functions.transferETH key ?a ?b ?s] =>
               lazymatch s with
               | tt => fail
               | _ => rewrite (functions_transferETH_stateless key a b s)
               end
           end.
    unfold outcome at 2 4. unfold trace at 2 3. simpl.
    destruct (outcome (Functions.transferETH key _ _ tt)) as [hash|e]; simpl.
    + rewrite <- app_assoc. eexists. eexists. split; [reflexivity|]. split; reflexivity.
    + rewrite <- app_assoc, app_nil_r. eexists. eexists. split; [reflexivity|]. split; reflexivity.
  - rewrite <- app_assoc. eexists. eexists. split; [reflexivity|]. split; reflexivity.
Qed.

(** What every run of [dispatch] looks like from outside. *)
Lemma dispatch_shape (fc : FunctionCall) (st : State) :
  exists t more,
    dispatch fc st = (t, Returned tt, with_messages st (messages st ++ more))
    /\ Forall (fun m => role m = agent) more
    /\ List.length more = (if handled (name fc) then 2 else 0)
    /\ Forall (fun c => forall q, c <> generateContent_call q) t.
Proof.
  assert (Hlib : forall t, Forall (fun c => component_call c = false) t ->
                           Forall (fun c => forall q, c <> generateContent_call q) t).
  { intros t. apply Forall_impl. intros c Hc q ->. discriminate. }
  assert (Hfb : forall q, fetchBalances_call <> generateContent_call q) by discriminate.
  unfold handled.
  destruct (name fc =? "transferSOL")%string eqn:E1.
  - apply String.eqb_eq in E1.
    destruct (dispatch_transferSOL fc st E1) as (t & report & Hrun & Hcase).
    eexists. eexists. split; [exact Hrun|]. split; [repeat constructor|].
    split; [reflexivity|].
    destruct (sessionKey st) as [key|].
    + cbv zeta in Hcase.
      pose proof (proj2 (functions_transferSOL_pure key (toAddress (args fc))
                           (amount (args fc)) st)) as Hp.
      destruct (outcome _) as [signature|e]; destruct Hcase as [-> _].
      * apply Forall_app. split; [apply Hlib, Hp | repeat constructor; apply Hfb].
      * apply Hlib, Hp.
    + destruct Hcase as [-> _]. constructor.
  - destruct (name fc =? "transferETH")%string eqn:E2.
    + apply String.eqb_eq in E2.
      destruct (dispatch_transferETH fc st E2) as (t & report & Hrun & Hcase).
      eexists. eexists. split; [exact Hrun|]. split; [repeat constructor|].
      split; [reflexivity|].
      destruct (ethSessionKey st) as [key|].
      * cbv zeta in Hcase.
        pose proof (proj2 (functions_transferETH_pure key (toAddress (args fc))
                             (amount (args fc)) st)) as Hp.
        destruct (outcome _) as [hash|e]; destruct Hcase as [-> _].
        -- apply Forall_app. split; [apply Hlib, Hp | repeat constructor; apply Hfb].
        -- apply Hlib, Hp.
      * destruct Hcase as [-> _]. constructor.
    + exists [], []. unfold dispatch. rewrite E1, E2. unfold ret, with_messages.
      rewrite app_nil_r. destruct st. repeat split; constructor.
Qed.

(** X14. The dispatch of a transfer tool never throws and always reports:
    it appends the processing notice and then exactly one report.  The
    report is the success message, followed by a balance refresh, when
    the transfer returned; it is the failure message with the error's
    text, without a refresh, when the transfer threw; and without the
    session key the failure is reported before any library call is
    made.  (For [transferETH] the stored key is taken to be non-empty,
    as every generated key is.) *)
Theorem X14_dispatch_reports_every_outcome (fc : FunctionCall) (st : State) :
  (name fc = "transferSOL"%string ->
   exists t report,
     dispatch fc st
     = (t, Returned tt,
        with_messages st
          (messages st
           ++ [says ("Processing SOL transfer of " ++ Number_toString (amount (args fc))
                     ++ " to " ++ toAddress (args fc) ++ "...");
               says report]))
     /\ match sessionKey st with
        | None => t = [] /\ report = "SOL Transfer failed: No SOL session key"%string
        | Some key =>
            let sent := Functions.transferSOL key (toAddress (args fc)) (amount (args fc)) st in
            match outcome sent with
            | Returned signature =>
                t = trace sent ++ [fetchBalances_call]
                /\ report = ("SOL Transfer successful! Sig: " ++ signature)%string
            | Thrown e =>
                t = trace sent /\ report = ("SOL Transfer failed: " ++ message e)%string
            end
        end)
  /\
  (name fc = "transferETH"%string ->
   ethSessionKey st <> Some ""%string ->
   exists t report,
     dispatch fc st
     = (t, Returned tt,
        with_messages st
          (messages st
           ++ [says ("Processing ETH transfer of " ++ Number_toString (amount (args fc))
                     ++ " to " ++ toAddress (args fc) ++ "...");
               says report]))
     /\ match ethSessionKey st with
        | None => t = [] /\ report = "ETH Transfer failed: No ETH session key"%string
        | Some key =>
            let sent := Functions.transferETH key (toAddress (args fc)) (amount (args fc)) st in
            match outcome sent with
            | Returned hash =>
                t = trace sent ++ [fetchBalances_call]
                /\ report = ("ETH Transfer successful! Hash: " ++ hash)%string
            | Thrown e =>
                t = trace sent /\ report = ("ETH Transfer failed: " ++ message e)%string
            end
        end).
Proof.
  split.
  - apply dispatch_transferSOL.
  - intros Hn _. apply dispatch_transferETH, Hn.
Qed.

(** What [trim] strips, on a few inputs given by their bytes: a no-break
    space (C2 A0), an ideographic space between two spaces (E3 80 80), a
    byte-order mark (EF BB BF); a zero-width space (E2 80 8B) is no white
    space, nor is a letter between spaces. *)
Example is_blank_follows_trim :
  is_blank (String "194" (String "160" "")) = true
  /\ is_blank (String " " (String "227" (String "128" (String "128" " ")))) = true
  /\ is_blank (String "239" (String "187" (String "191" ""))) = true
  /\ is_blank (String "226" (String "128" (String "139" ""))) = false
  /\ is_blank " x " = false
  /\ is_blank "" = true.
Proof. repeat split. Qed.

Variable generateContent_result : string -> Outcome (option Part).

(** X15. [handleSend] never throws.  On blank input it does nothing at
    all.  Otherwise it makes exactly one request, with the input as its
    text; it ends with the input cleared, [isProcessing] false and the
    keys untouched; the chat grows by the user's message followed by
    agent messages only: the fixed error text when the request failed
    (and then nothing else was called), the reply or the fallback text
    for an answer without function call, two messages for a handled
    tool and none for any other tool. *)
Theorem X15_handleSend_always_settles (st : State) :
  (is_blank (input st) = true ->
   handleSend generateContent_result st = ([], Returned tt, st))
  /\
  (is_blank (input st) = false ->
   exists t more,
     handleSend generateContent_result st
     = (generateContent_call (input st) :: t, Returned tt,
        {| sessionKey := sessionKey st;
           ethSessionKey := ethSessionKey st;
           messages := messages st ++ {| role := user; content := input st |} :: more;
           input := "";
           isProcessing := false |})
     /\ Forall (fun m => role m = agent) more
     /\ Forall (fun c => forall q, c <> generateContent_call q) t
     /\ match generateContent_result (input st) with
        | Thrown _ => t = [] /\ more = [says "Error communicating with AI service."]
        | Returned (Some {| functionCall := Some fc |}) =>
            List.length more = (if handled (name fc) then 2 else 0)
        | Returned (Some {| functionCall := None; text := Some reply |}) =>
            t = [] /\ more = [says (if (reply =? "")%string then fallback else reply)]
        | Returned _ => t = [] /\ more = [says fallback]
        end).
Proof.
  split.
  - intros Hb. unfold handleSend, bind, get. rewrite Hb. reflexivity.
  - intros Hb. unfold handleSend. unfold bind at 1. unfold get at 1. rewrite Hb.
    destruct st as [k ek ms i p]. simpl in *.
    unfold pushMessage, setInput, setIsProcessing, try_finally, try_catch.
    unfold bind at 1 2 3. unfold modify at 1 2 3. simpl.
    unfold bind at 1. unfold extern at 1.
    destruct (generateContent_result i) as [[[[fc|] tx]|]|e]; simpl.
    + match goal with |- context [dispatch fc ?s] =>
        destruct (dispatch_shape fc s) as (t & more & Hrun & Hroles & Hlen & Ht);
        rewrite Hrun end.
      unfold with_messages, modify. simpl. rewrite app_nil_r, <- app_assoc. simpl.
      exists t, more. repeat split; assumption.
    + unfold modify. simpl. rewrite <- app_assoc. simpl.
      destruct tx as [reply|]; eexists; eexists; (split; [reflexivity|]);
        repeat split; repeat constructor.
    + unfold modify. simpl. rewrite <- app_assoc. simpl.
      eexists; eexists; (split; [reflexivity|]); repeat split; repeat constructor.
    + unfold modify. simpl. rewrite <- app_assoc. simpl.
      eexists; eexists; (split; [reflexivity|]); repeat split; repeat constructor.
Qed.
End ChatTurn.

Section ChatTurnWitnesses.
Import AIAgentModal ChatStates.

Let sendOneETH : FunctionCall :=
  {| name := "transferETH"; args := {| toAddress := "0xMerchant"; amount := 1%float |} |}.

Let offline : string -> Outcome (option Part) := fun _ => Thrown (LibraryError "offline").

Lemma X14_dispatch_witness :
  exists t report,
    @dispatch Simulation.world sendOneETH (Simulation.modal "")
    = (t, Returned tt,
       with_messages (Simulation.modal "")
         (messages (Simulation.modal "")
          ++ [says ("Processing ETH transfer of "
                    ++ @Number_toString Simulation.world (amount (args sendOneETH))
                    ++ " to " ++ toAddress (args sendOneETH) ++ "...");
              says report]))
    /\ match ethSessionKey (Simulation.modal "") with
       | None => t = [] /\ report = "ETH Transfer failed: No ETH session key"%string
       | Some key =>
           let sent := @Functions.transferETH Simulation.world _ key
                         (toAddress (args sendOneETH)) (amount (args sendOneETH))
                         (Simulation.modal "") in
           match outcome sent with
           | Returned hash =>
               t = trace sent ++ [fetchBalances_call]
               /\ report = ("ETH Transfer successful! Hash: " ++ hash)%string
           | Thrown e =>
               t = trace sent
               /\ report = ("ETH Transfer failed: " ++ @message Simulation.world e)%string
           end
       end.
Proof.
  apply (proj2 (@X14_dispatch_reports_every_outcome Simulation.world sendOneETH
                  (Simulation.modal ""))).
  - reflexivity.
  - discriminate.
Defined.

Lemma X15_handleSend_witness :
  exists t more,
    @handleSend Simulation.world offline (Simulation.modal "hello")
    = (generateContent_call "hello" :: t, Returned tt,
       {| sessionKey := sessionKey (Simulation.modal "hello");
          ethSessionKey := ethSessionKey (Simulation.modal "hello");
          messages := messages (Simulation.modal "hello")
                      ++ {| role := user; content := "hello" |} :: more;
          input := "";
          isProcessing := false |})
    /\ Forall (fun m => role m = agent) more
    /\ Forall (fun c => forall q, c <> generateContent_call q) t
    /\ t = [] /\ more = [says "Error communicating with AI service."].
Proof.
  apply (proj2 (@X15_handleSend_always_settles Simulation.world offline
                  (Simulation.modal "hello"))).
  reflexivity.
Defined.
End ChatTurnWitnesses.

(** ** A turn of the hook's chat *)

Section HookFacts.
Import UseAgent HookStates.
Context {W : World}.
Variables ToolArgs ToolResult : Type.
Variable JSON_stringify : ToolResult -> string.
Variable chat_result : list Message -> Outcome (ChatResponse ToolArgs).
Variable handlers : Handlers ToolArgs ToolResult.

Let send := sendMessage JSON_stringify chat_result handlers.
Let loop := runToolCalls JSON_stringify handlers.

Lemma runToolCalls_returns (calls : list (ToolCall ToolArgs)) (st : State) :
  exists ms,
    loop calls st
    = ([], Returned tt, {| messages := ms; isLoading := isLoading st; error := error st |}).
Proof.
  destruct (runToolCalls_appends _ _ JSON_stringify handlers calls st (messages st) [])
    as (kept & results & Hrun & _); [symmetry; apply app_nil_r | constructor |].
  eexists. exact Hrun.
Qed.

Lemma sendMessage_failed (text : string) (st : State) (err : Error) :
  chat_result (messages st ++ [{| role := user; content := text |}]) = Thrown err ->
  send text st
  = ([chat_call (map content (messages st ++ [{| role := user; content := text |}]))],
     Returned None,
     {| messages := messages st ++ [{| role := user; content := text |}];
        isLoading := false;
        error := Some err |}).
Proof.
  intros H. unfold send, sendMessage, setIsLoading, setError, setMessages,
    try_finally, try_catch, bind, get, modify, extern, ret. simpl.
  rewrite H. reflexivity.
Qed.

Lemma sendMessage_returned (text : string) (st : State) (response : ChatResponse ToolArgs) :
  chat_result (messages st ++ [{| role := user; content := text |}]) = Returned response ->
  send text st
  = ([chat_call (map content (messages st ++ [{| role := user; content := text |}]))],
     Returned (Some response),
     {| messages :=
          messages (final (loop (calls_of response)
                             {| messages := exchange st text response;
                                isLoading := true;
                                error := None |}));
        isLoading := false;
        error := None |}).
Proof.
  intros H. unfold send, sendMessage, setIsLoading, setError, setMessages,
    try_finally, try_catch. unfold bind at 1 2 3 4. unfold get at 1. unfold modify at 1 2 3.
  simpl. unfold bind at 1 2. unfold extern. rewrite H. unfold bind at 1. unfold modify at 1.
  simpl.
  set (st1 := {| messages := exchange st text response; isLoading := true; error := None |}).
  assert (Hst1 : {| messages := (messages st ++ [{| role := user; content := text |}])
                                ++ [{| role := assistant;
                                       content := response_content response |}];
                    isLoading := true; error := None |} = st1).
  { unfold st1, exchange. rewrite <- app_assoc. reflexivity. }
  rewrite Hst1.
  assert (Hloop : (match toolCalls response with
                   | Some ((_ :: _) as calls) => runToolCalls JSON_stringify handlers calls
                   | _ => ret tt
                   end) st1 = loop (calls_of response) st1).
  { unfold calls_of, loop. destruct (toolCalls response) as [[|c cs]|]; reflexivity. }
  unfold bind. rewrite Hloop.
  destruct (runToolCalls_returns (calls_of response) st1) as [ms Hrun].
  rewrite Hrun. reflexivity.
Qed.

(** A tool call leaves no message of a text it did not find. *)
Lemma runToolCall_keeps_clear (toolName : string) (toolCall : ToolCall ToolArgs) (st : State) :
  (forall m, In m (messages st) -> content m <> executing toolName) ->
  forall m, In m (messages (final (runToolCall JSON_stringify handlers toolCall st))) ->
            content m <> executing toolName.
Proof.
  intros Hclear m Hm.
  destruct (runToolCall_one_result_message _ _ JSON_stringify handlers toolCall st)
    as (c & Hrun & Hc).
  rewrite Hrun in Hm. simpl in Hm. apply in_app_or in Hm. destruct Hm as [Hm|[<-|[]]].
  - apply Hclear. destruct (lookup_handler handlers (name toolCall)); [|exact Hm].
    unfold without_executing in Hm. apply filter_In in Hm. tauto.
  - apply (result_message_settled _ _ JSON_stringify handlers toolCall st c Hc).
Qed.

Lemma runToolCall_clears (toolCall : ToolCall ToolArgs) (st : State) (handler : Handler ToolArgs ToolResult) :
  lookup_handler handlers (name toolCall) = Some handler ->
  forall m, In m (messages (final (runToolCall JSON_stringify handlers toolCall st))) ->
            content m <> executing (name toolCall).
Proof.
  intros Hh m Hm.
  destruct (runToolCall_one_result_message _ _ JSON_stringify handlers toolCall st)
    as (c & Hrun & Hc).
  rewrite Hrun, Hh in Hm. simpl in Hm. apply in_app_or in Hm. destruct Hm as [Hm|[<-|[]]].
  - unfold without_executing in Hm. apply filter_In in Hm. destruct Hm as [_ Hm].
    apply negb_true_iff, String.eqb_neq in Hm. exact Hm.
  - apply (result_message_settled _ _ JSON_stringify handlers toolCall st c Hc).
Qed.

Lemma runToolCalls_keeps_clear (toolName : string) (calls : list (ToolCall ToolArgs)) :
  forall st : State,
    (forall m, In m (messages st) -> content m <> executing toolName) ->
    forall m, In m (messages (final (loop calls st))) -> content m <> executing toolName.
Proof.
  induction calls as [|c rest IH]; intros st Hclear m Hm.
  - apply Hclear. exact Hm.
  - unfold loop in Hm. simpl in Hm. unfold bind in Hm.
    pose proof (runToolCall_keeps_clear toolName c st Hclear) as H1.
    destruct (runToolCall_one_result_message _ _ JSON_stringify handlers c st)
      as (rc & Hrun & _).
    rewrite Hrun in Hm, H1. simpl in H1.
    match type of Hm with context [runToolCalls _ _ rest ?s] =>
      destruct (runToolCalls_returns rest s) as [ms Hrest];
      apply (IH s H1); unfold loop in Hrest |- *; rewrite Hrest in Hm |- * end.
    exact Hm.
Qed.

Lemma runToolCalls_clears (calls : list (ToolCall ToolArgs)) :
  forall (st : State) (toolCall : ToolCall ToolArgs) (handler : Handler ToolArgs ToolResult),
    In toolCall calls ->
    lookup_handler handlers (name toolCall) = Some handler ->
    forall m, In m (messages (final (loop calls st))) ->
              content m <> executing (name toolCall).
Proof.
  induction calls as [|c rest IH]; intros st toolCall handler Hin Hh m Hm; [destruct Hin|].
  unfold loop in Hm. simpl in Hm. unfold bind in Hm.
  destruct (runToolCall_one_result_message _ _ JSON_stringify handlers c st)
    as (rc & Hrun & _).
  pose proof (runToolCall_clears c st) as Hc. rewrite Hrun in Hm, Hc. simpl in Hc.
  match type of Hm with context [runToolCalls _ _ rest ?s] =>
    destruct (runToolCalls_returns rest s) as [ms Hrest];
    pose proof (IH s toolCall handler) as IHs;
    pose proof (runToolCalls_keeps_clear (name toolCall) rest s) as Hk;
    unfold loop in Hrest, IHs, Hk; rewrite Hrest in Hm, IHs, Hk end.
  simpl in *. destruct Hin as [<-|Hin].
  - apply Hk; [|exact Hm]. apply (Hc handler Hh).
  - apply IHs; assumption.
Qed.

(** X16. [sendMessage] never throws: it makes exactly one chat request,
    with the old messages and the new user message, and ends with
    [isLoading] false.  When the request fails it answers [undefined],
    stores the error and leaves the user's message as the only new one.
    When it succeeds it answers the response with the error cleared; the
    chat then ends with one assistant message per tool call, in front of
    which nothing stands that was not in the chat after the reply. *)
Theorem X16_sendMessage_always_settles (text : string) (st : State) :
  let newMessages := messages st ++ [{| role := user; content := text |}] in
  exists returned st',
    send text st = ([chat_call (map content newMessages)], Returned returned, st')
    /\ isLoading st' = false
    /\ match chat_result newMessages with
       | Thrown err =>
           returned = None /\ error st' = Some err /\ messages st' = newMessages
       | Returned response =>
           returned = Some response /\ error st' = None
           /\ exists kept results,
                messages st' = kept ++ results
                /\ incl kept (exchange st text response)
                /\ List.length results = List.length (calls_of response)
                /\ Forall (fun m => role m = assistant) results
       end.
Proof.
  cbv zeta.
  destruct (chat_result (messages st ++ [{| role := user; content := text |}]))
    as [response|err] eqn:H.
  - rewrite (sendMessage_returned text st response H).
    eexists. eexists. split; [reflexivity|]. split; [reflexivity|].
    split; [reflexivity|]. split; [reflexivity|]. simpl.
    set (st1 := {| messages := exchange st text response; isLoading := true; error := None |}).
    destruct (runToolCalls_appends _ _ JSON_stringify handlers (calls_of response) st1
                (exchange st text response) [])
      as (kept & results & Hrun & Hlen & _ & Hroles & Hincl);
      [symmetry; apply app_nil_r | constructor |].
    exists kept, results. unfold loop. rewrite Hrun. simpl. repeat split; assumption.
  - rewrite (sendMessage_failed text st err H).
    eexists. eexists. split; [reflexivity|]. repeat split.
Qed.


(** X18. The clean-up after a tool goes by text alone.  After a
    [sendMessage] that ran a tool with a handler, no message reading
    "Executing <tool>..." is left in the chat, whoever wrote it: if the
    user's own message was that text, it is gone from the chat. *)
Theorem X18_tool_run_erases_every_message_of_its_notice_text
    (text : string) (st : State) (response : ChatResponse ToolArgs)
    (toolCall : ToolCall ToolArgs) (handler : Handler ToolArgs ToolResult) :
  chat_result (messages st ++ [{| role := user; content := text |}]) = Returned response ->
  In toolCall (calls_of response) ->
  lookup_handler handlers (name toolCall) = Some handler ->
  (forall m, In m (messages (final (send text st))) ->
             content m <> executing (name toolCall))
  /\ (text = executing (name toolCall) ->
      ~ In {| role := user; content := text |} (messages (final (send text st)))).
Proof.
  intros H Hin Hh.
  assert (Hall : forall m, In m (messages (final (send text st))) ->
                           content m <> executing (name toolCall)).
  { rewrite (sendMessage_returned text st response H). simpl.
    apply (runToolCalls_clears (calls_of response) _ toolCall handler Hin Hh). }
  split; [exact Hall|].
  intros Ht Hm. apply (Hall _ Hm). exact Ht.
Qed.
End HookFacts.

Section HookWitnesses.
Import UseAgent HookStates SimulationHook.

Let send := @sendMessage Simulation.world _ _ stringify chat handlers.


Lemma X18_erased_user_message_witness :
  (forall m, In m (messages (final (send (executing "getBalance") idle))) ->
             content m <> executing (name getBalance))
  /\ (executing "getBalance" = executing (name getBalance) ->
      ~ In {| role := user; content := executing "getBalance" |}
           (messages (final (send (executing "getBalance") idle)))).
Proof.
  apply (@X18_tool_run_erases_every_message_of_its_notice_text Simulation.world _ _
           stringify chat handlers (executing "getBalance") idle response getBalance handler).
  - reflexivity.
  - left. reflexivity.
  - reflexivity.
Defined.
End HookWitnesses.

(** ** The Jupiter quote *)

Section NaNComparisons.

(** [NaN > b] is false *)
Lemma gt_NaN_l (a b : number) : JS.isNaN a = true -> (a > b)%js = false.
Proof.
  FloatFacts.to_spec. intros Hn. apply negb_true_iff in Hn.
  destruct (SFcompare (Prim2SF b) (Prim2SF a)) as [c|] eqn:E; [|reflexivity].
  rewrite (FloatFacts.SFcompare_refl_r _ _ _ E) in Hn. discriminate.
Qed.

(** [a > NaN] is false *)
Lemma gt_NaN_r (a b : number) : JS.isNaN b = true -> (a > b)%js = false.
Proof.
  FloatFacts.to_spec. intros Hn. apply negb_true_iff in Hn.
  destruct (SFcompare (Prim2SF a) (Prim2SF b)) as [c|] eqn:E.
  - rewrite (FloatFacts.SFcompare_refl_r _ _ _ E) in Hn. discriminate.
  - rewrite (FloatFacts.SFcompare_antisym (Prim2SF a) (Prim2SF b)), E. reflexivity.
Qed.

End NaNComparisons.

Section Quote.
Import Jupiter.
Context {W : World} {H : Http} {S : Type}.
Variables (inputMint outputMint : string) (amount : number).
Variables (slippageBps maxPriceImpactPct : option number).

Let limit := or_default maxPriceImpactPct 2%float.
Let url := quote_url inputMint outputMint amount (or_default slippageBps 50%float).
Let run (s : S) := getQuote inputMint outputMint amount slippageBps maxPriceImpactPct s.

Lemma getQuote_eq (s : S) :
  run s
  = ([fetch_call url],
     match fetch_result url with
     | Thrown e => Thrown e
     | Returned response =>
         if ok response then
           match json_quote response with
           | Thrown e => Thrown e
           | Returned quote =>
               if (parseFloat (priceImpactPct quote) > limit)%js
               then Thrown (LibraryError
                              ("Safety Alert: Price impact is " ++ priceImpactPct quote
                                 ++ "%, which exceeds the safety limit of "
                                 ++ Number_toString limit ++ "%. transaction aborted."))
               else Returned quote
           end
         else
           match json_error response with
           | Thrown e => Thrown e
           | Returned error =>
               Thrown (LibraryError
                         ("Jupiter Quote API Error: "
                            ++ match error with
                               | Some (String _ _ as text) => text
                               | _ => statusText response
                               end))
           end
     end,
     s).
Proof.
  unfold run, getQuote, limit, url. cbv zeta.
  unfold try_catch, bind, extern, when, throw, ret.
  destruct (fetch_result _) as [response|e]; [|reflexivity].
  destruct (ok response); simpl.
  - destruct (json_quote response) as [quote|e]; [|reflexivity].
    destruct (parseFloat (priceImpactPct quote) > _)%js; reflexivity.
  - destruct (json_error response) as [error|e]; reflexivity.
Qed.

(** X19. [getQuote] makes exactly one request, to the quote URL built
    from its arguments (slippage 50 when left out), and keeps no state.
    It returns a quote only when the response was [ok], the body was
    read as that quote, and the parsed price impact is not above the
    limit (2 when left out): when both are numbers, impact <= limit. *)
Theorem X19_getQuote_returns_only_quotes_within_the_limit (s : S) :
  trace (run s) = [fetch_call url]
  /\ final (run s) = s
  /\ forall quote,
       outcome (run s) = Returned quote ->
       (exists response,
          fetch_result url = Returned response
          /\ ok response = true
          /\ json_quote response = Returned quote)
       /\ (parseFloat (priceImpactPct quote) > limit)%js = false
       /\ (JS.isNaN (parseFloat (priceImpactPct quote)) = false ->
           JS.isNaN limit = false ->
           (parseFloat (priceImpactPct quote) <= limit)%js = true).
Proof.
  rewrite getQuote_eq. unfold trace, final, outcome. simpl.
  split; [reflexivity|]. split; [reflexivity|]. intros quote.
  destruct (fetch_result url) as [response|e]; [|discriminate].
  destruct (ok response) eqn:Hok.
  - destruct (json_quote response) as [q|e] eqn:Hjq; [|discriminate].
    destruct (parseFloat (priceImpactPct q) > limit)%js eqn:Hgt; [discriminate|].
    intros Hq. injection Hq as <-.
    split; [exists response; split; [reflexivity | split; [exact Hok | exact Hjq]]|].
    split; [exact Hgt|].
    intros Ha Hb. apply FloatFacts.not_gt_le; assumption.
  - destruct (json_error response); discriminate.
Qed.

(** X20. The price-impact guard fails open: when [parseFloat] of the
    quote's [priceImpactPct] is NaN (a missing or non-numeric member),
    or the limit passed is NaN, the comparison is false and the quote is
    returned as safe. *)
Theorem X20_getQuote_lets_unparsable_impact_through
    (s : S) (response : Response) (quote : QuoteResponse) :
  fetch_result url = Returned response ->
  ok response = true ->
  json_quote response = Returned quote ->
  JS.isNaN (parseFloat (priceImpactPct quote)) = true \/ JS.isNaN limit = true ->
  outcome (run s) = Returned quote.
Proof.
  intros Hf Hok Hq Hn. rewrite getQuote_eq. unfold outcome. simpl.
  rewrite Hf, Hok, Hq.
  assert (Hgt : (parseFloat (priceImpactPct quote) > limit)%js = false).
  { destruct Hn as [Hn|Hn]; [apply gt_NaN_l, Hn | apply gt_NaN_r, Hn]. }
  rewrite Hgt. reflexivity.
Qed.
End Quote.

Section QuoteWitnesses.
Import Jupiter SimulationHttp.

Let asked (H : Http) :=
  @getQuote Simulation.world H unit "SOL" "USDC" 1000000000%float None None tt.

Lemma X19_quote_within_limit_witness :
  (exists response,
     @fetch_result (serving "0.5" 0x1p-1%float)
       (@quote_url Simulation.world "SOL" "USDC" 1000000000%float (or_default None 50%float))
     = Returned response
     /\ ok response = true
     /\ json_quote response = Returned (quote "0.5"))
  /\ (@parseFloat (serving "0.5" 0x1p-1%float) (priceImpactPct (quote "0.5"))
      > or_default None 2%float)%js = false
  /\ (JS.isNaN (@parseFloat (serving "0.5" 0x1p-1%float) (priceImpactPct (quote "0.5")))
      = false ->
      JS.isNaN (or_default None 2%float) = false ->
      (@parseFloat (serving "0.5" 0x1p-1%float) (priceImpactPct (quote "0.5"))
       <= or_default None 2%float)%js = true).
Proof.
  apply (proj2 (proj2 (@X19_getQuote_returns_only_quotes_within_the_limit
                         Simulation.world (serving "0.5" 0x1p-1%float) unit
                         "SOL" "USDC" 1000000000%float None None tt))
           (quote "0.5")).
  reflexivity.
Defined.

Lemma X20_unparsable_impact_witness :
  outcome (asked (serving "n/a" nan)) = Returned (quote "n/a").
Proof.
  apply (@X20_getQuote_lets_unparsable_impact_through
           Simulation.world (serving "n/a" nan) unit
           "SOL" "USDC" 1000000000%float None None tt
           {| ok := true; statusText := "OK";
              json_error := Returned None;
              json_quote := Returned (quote "n/a") |}
           (quote "n/a")).
  - reflexivity.
  - reflexivity.
  - reflexivity.
  - left. reflexivity.
Defined.
End QuoteWitnesses.
